(** * Latent Resonator bridge scripts: WAV codec, parameter mapper,
      model wrapper and Koenig seed generator

    Shallow embedding of
      - [Scripts/ace_bridge_server.py]  ([decode_wav_bytes], [encode_wav_bytes],
        [ACEStepWrapper.infer], the parameter mapping of the [/infer] route;
        further [ACEStepWrapper.__init__], [_detect_model_type] and [load],
        the [/infer] route itself and the scan of [sys.argv] at import time);
      - [Scripts/generate_koenig_seed.py]  ([euclidean_rhythm],
        [generate_koenig_seed]).

    Python integers are [Z]; [bytes] objects are lists of [Byte.byte];
    numpy [float32] scalars and Python floats are IEEE 754 values of
    [SpecFloat.spec_float] at precision 24 / 53, computed with the
    correctly rounded operations of [SpecFloat]; an exception is a value of
    [exn] carried by [result]. *)

From Stdlib Require Import String Ascii.
From Stdlib Require Import ZArith List Bool Lia Permutation.
From Stdlib Require Import QArith Qabs.
From Stdlib Require Import Strings.Byte.
From Stdlib Require Import Floats.SpecFloat.
From Stdlib Require DecimalString.
Import ListNotations.

Local Open Scope Z_scope.

(* ================================================================== *)
(** * Part I: the embedding                                            *)
(* ================================================================== *)

(** ** Exceptions and results *)

(** The exceptions the two scripts can raise or meet.  The four
    [ValueError]s of [decode_wav_bytes] are told apart by their message. *)
Inductive exn : Type :=
| WavTooShort                 (* ValueError("WAV data too short") *)
| NotAWavFile                 (* ValueError("Not a valid WAV file") *)
| MissingChunk                (* ValueError("Missing fmt or data chunk in WAV") *)
| UnsupportedFormat (audio_format bits_per_sample : Z)
                              (* ValueError("Unsupported WAV format: ...") *)
| StructError                 (* struct.error, from pack / unpack *)
| BufferSizeError             (* numpy: buffer size must be a multiple of element size *)
| ReshapeError                (* numpy: cannot reshape array *)
| NegativeDimensions          (* numpy: negative dimensions are not allowed *)
| IntOverflowError            (* OverflowError: int too large to convert to float *)
| FloatToIntError             (* int() / round() of an infinity or a NaN *)
| ZeroDivisionError
| ImportError (module : string)
| LibraryError (origin : string). (* anything an external library raises *)

Inductive result (A : Type) : Type :=
| Ok (a : A)
| Raise (e : exn).
Arguments Ok {A} a.
Arguments Raise {A} e.

Definition bind {A B} (c : result A) (k : A -> result B) : result B :=
  match c with
  | Ok a => k a
  | Raise e => Raise e
  end.

Declare Scope py_scope.
Delimit Scope py_scope with py.
Notation "x <- c ;; k" := (bind c (fun x => k))
  (at level 61, c at next level, right associativity) : py_scope.
Notation "' pat <- c ;; k" := (bind c (fun x => match x with pat => k end))
  (at level 61, pat pattern, c at next level, right associativity) : py_scope.
Local Open Scope py_scope.

Definition is_ok {A} (r : result A) : bool :=
  match r with Ok _ => true | Raise _ => false end.

(** ** Python sequences *)

Module Py.

Definition len {A} (l : list A) : Z := Z.of_nat (length l).

(** Slice bounds: a negative bound counts from the end, and every bound is
    clipped to the sequence. *)
Definition clip (n i : Z) : Z :=
  if i <? 0 then Z.max (i + n) 0 else Z.min i n.

(** [l[lo:hi]] *)
Definition slice {A} (l : list A) (lo hi : Z) : list A :=
  let lo' := clip (len l) lo in
  let hi' := clip (len l) hi in
  firstn (Z.to_nat (hi' - lo')) (skipn (Z.to_nat lo') l).

(** [l[lo:]] *)
Definition slice_from {A} (l : list A) (lo : Z) : list A :=
  skipn (Z.to_nat (clip (len l) lo)) l.

(** [[x] * n]: empty for [n <= 0]. *)
Definition replicate {A} (x : A) (n : Z) : list A := repeat x (Z.to_nat n).

(** [range(n)] *)
Definition range (n : Z) : list Z := map Z.of_nat (seq 0 (Z.to_nat n)).

(** [l[i] = x] for an index known to be in range. *)
Fixpoint set_nth {A} (l : list A) (i : nat) (x : A) : list A :=
  match l, i with
  | [], _ => []
  | _ :: t, O => x :: t
  | y :: t, S j => y :: set_nth t j x
  end.

(** [l[lo:hi] = src] on an array, with [len src = hi - lo]: element-wise
    overwrite. *)
Fixpoint set_slice {A} (l : list A) (lo : nat) (src : list A) : list A :=
  match src with
  | [] => l
  | x :: src' => set_slice (set_nth l lo x) (S lo) src'
  end.

End Py.

(** ** Bytes and [struct] *)

Definition bytes := list byte.

Definition byte_of_Z (z : Z) : byte :=
  match Byte.of_N (Z.to_N (z mod 256)) with
  | Some b => b
  | None => x00
  end.

Definition Z_of_byte (b : byte) : Z := Z.of_N (Byte.to_N b).

(** The [n] little-endian bytes of [z]. *)
Fixpoint le_bytes (n : nat) (z : Z) : bytes :=
  match n with
  | O => []
  | S k => byte_of_Z z :: le_bytes k (z / 256)
  end.

(** The unsigned integer a little-endian byte string stands for. *)
Fixpoint le_int (bs : bytes) : Z :=
  match bs with
  | [] => 0
  | b :: t => Z_of_byte b + 256 * le_int t
  end.

(** [int.from_bytes(bs, byteorder='little', signed=True)] *)
Definition le_int_signed (bs : bytes) : Z :=
  let u := le_int bs in
  let w := 8 * Py.len bs in
  if (0 <? w) && (2 ^ (w - 1) <=? u) then u - 2 ^ w else u.

Module Struct.

(** One unsigned field of [struct.pack('<...')]: [H] is 2 bytes wide, [I]
    is 4; a value outside the field raises [struct.error]. *)
Definition pack_uint (width : nat) (v : Z) : result bytes :=
  if (0 <=? v) && (v <? 2 ^ (8 * Z.of_nat width))
  then Ok (le_bytes width v)
  else Raise StructError.

Definition pack_H := pack_uint 2.
Definition pack_I := pack_uint 4.

(** A ['4s'] field given a [bytes] literal of length 4. *)
Definition pack_4s (s : bytes) : result bytes := Ok (firstn 4 s).

(** [struct.unpack('<I', bs)[0]]: the buffer must be exactly 4 bytes. *)
Definition unpack_I (bs : bytes) : result Z :=
  if (length bs =? 4)%nat then Ok (le_int bs) else Raise StructError.

(** [struct.unpack('<HHIIHH', bs)]: the buffer must be exactly 16 bytes. *)
Definition unpack_HHIIHH (bs : bytes) : result (Z * Z * Z * Z * Z * Z) :=
  if (length bs =? 16)%nat
  then Ok (le_int (Py.slice bs 0 2), le_int (Py.slice bs 2 4),
           le_int (Py.slice bs 4 8), le_int (Py.slice bs 8 12),
           le_int (Py.slice bs 12 14), le_int (Py.slice bs 14 16))
  else Raise StructError.

End Struct.

(** ** IEEE 754 numbers *)

(** numpy's [float32]. *)
Module F32.

Definition prec : Z := 24.
Definition emax : Z := 128.

Definition t := spec_float.

Definition valid (x : t) : bool := valid_binary prec emax x.

Definition is_finite (x : t) : bool :=
  match x with
  | S754_zero _ | S754_finite _ _ _ => true
  | _ => false
  end.

Definition sign_bit (s : bool) : Z := if s then 2 ^ 31 else 0.

(** The binary32 interchange encoding, as the array stores the number.
    The NaN is the quiet NaN 0x7FC00000. *)
Definition to_bits (x : t) : Z :=
  match x with
  | S754_zero s => sign_bit s
  | S754_infinity s => sign_bit s + 255 * 2 ^ 23
  | S754_nan => 255 * 2 ^ 23 + 2 ^ 22
  | S754_finite s m e =>
      if 2 ^ 23 <=? Zpos m
      then sign_bit s + (e + 150) * 2 ^ 23 + (Zpos m - 2 ^ 23)
      else sign_bit s + Zpos m
  end.

Definition of_bits (w : Z) : t :=
  let s := 2 ^ 31 <=? w in
  let ex := (w / 2 ^ 23) mod 256 in
  let fr := w mod 2 ^ 23 in
  if ex =? 0 then
    match fr with
    | Zpos m => S754_finite s m (-149)
    | _ => S754_zero s
    end
  else if ex =? 255 then
    (if fr =? 0 then S754_infinity s else S754_nan)
  else
    match fr + 2 ^ 23 with
    | Zpos m => S754_finite s m (ex - 150)
    | _ => S754_nan
    end.

Definition of_int (z : Z) : t := binary_normalize prec emax z 0 false.
Definition div (x y : t) : t := SFdiv prec emax x y.

Definition zero : t := S754_zero false.
Definition one : t := of_int 1.

End F32.

(** Python's [float] (binary64). *)
Module F64.

Definition prec : Z := 53.
Definition emax : Z := 1024.

Definition t := spec_float.

Definition of_Z (z : Z) : t := binary_normalize prec emax z 0 false.

Definition add (x y : t) : t := SFadd prec emax x y.
Definition sub (x y : t) : t := SFsub prec emax x y.
Definition mul (x y : t) : t := SFmul prec emax x y.
Definition div (x y : t) : t := SFdiv prec emax x y.
Definition ltb (x y : t) : bool := SFltb x y.
Definition leb (x y : t) : bool := SFleb x y.

(** A decimal literal [n / 10^k], e.g. [0.1] is [dec 1 1]: the nearest
    double, which the correctly rounded quotient of two exact integers is. *)
Definition dec (n : Z) (k : Z) : t := div (of_Z n) (of_Z (10 ^ k)).

(** [float(z)] for a Python int: correctly rounded, [OverflowError] when
    the int is beyond the doubles. *)
Definition of_int (z : Z) : result t :=
  match of_Z z with
  | S754_infinity _ => Raise IntOverflowError
  | x => Ok x
  end.

(** [int(x)]: truncation towards zero. *)
Definition to_int (x : t) : result Z :=
  match x with
  | S754_zero _ => Ok 0
  | S754_finite s m e =>
      let a := if 0 <=? e then Zpos m * 2 ^ e else Zpos m / 2 ^ (- e) in
      Ok (if s then - a else a)
  | _ => Raise FloatToIntError
  end.

(** [round(x)] with one argument: the nearest integer, ties to even. *)
Definition round (x : t) : result Z :=
  match x with
  | S754_zero _ => Ok 0
  | S754_finite s m e =>
      let a :=
        if 0 <=? e then Zpos m * 2 ^ e
        else
          let d := 2 ^ (- e) in
          let q := Zpos m / d in
          let r := Zpos m mod d in
          match 2 * r ?= d with
          | Lt => q
          | Gt => q + 1
          | Eq => if Z.even q then q else q + 1
          end in
      Ok (if s then - a else a)
  | _ => Raise FloatToIntError
  end.

(** The store of a double into a [float32] array. *)
Definition to_f32 (x : t) : F32.t :=
  match x with
  | S754_finite s m e => binary_round F32.prec F32.emax s m e
  | _ => x
  end.

(** The builtins [max(a, b)] and [min(a, b)] on floats: the first argument
    is kept unless the second compares strictly beyond it. *)
Definition py_max (a b : t) : t := if ltb a b then b else a.
Definition py_min (a b : t) : t := if ltb b a then b else a.

End F64.

(** The exact rational value of a finite number. *)
Definition SF2Q (x : spec_float) : option Q :=
  match x with
  | S754_zero _ => Some (0 # 1)
  | S754_finite s m e =>
      let z := if s then Zneg m else Zpos m in
      Some (if 0 <=? e then inject_Z (z * 2 ^ e)
            else Qmake z (Z.to_pos (2 ^ (- e))))
  | _ => None
  end.

(** Two samples agree within an absolute tolerance ([numpy.testing]'s
    [assert_allclose] with [atol], on finite values). *)
Definition within_tol (tol : Q) (a b : spec_float) : Prop :=
  match SF2Q a, SF2Q b with
  | Some x, Some y => (Qabs (x - y) <= tol)%Q
  | _, _ => False
  end.

Definition tol_1e5 : Q := 1 # 100000.

(** ** numpy arrays and the optional [soundfile] library *)

(** A [float32] array of one or two dimensions (frames by channels). *)
Inductive ndarray : Type :=
| Arr1 (v : list F32.t)
| Arr2 (rows : list (list F32.t)).

(** numpy's [float32] mean of one frame.  The order in which numpy adds the
    channels is numpy's own; the scripts only rely on there being one value
    per frame. *)
Class Numpy : Type := { np_mean : list F32.t -> F32.t }.

(** What [import soundfile] provides when it succeeds: [sf.read] and
    [sf.write] on an in-memory buffer and on a file path. *)
Record soundfile : Type := {
  sf_read_bytes : bytes -> result (ndarray * Z);
  sf_write_bytes : list F32.t -> Z -> result bytes;
  sf_read_file : string -> result (ndarray * Z);
  sf_write_file : string -> list F32.t -> Z -> result unit
}.

(** [l] cut into [n] consecutive pieces of [k] elements. *)
Fixpoint chunks_of {A} (k n : nat) (l : list A) : list (list A) :=
  match n with
  | O => []
  | S n' => firstn k l :: chunks_of k n' (skipn k l)
  end.

(** [a.mean(axis=1)] on a two-dimensional array. *)
Definition mean_axis1 `{Numpy} (rows : list (list F32.t)) : list F32.t :=
  map np_mean rows.

(** [a.reshape(-1, channels)] *)
Definition reshape_rows (channels : Z) (a : list F32.t)
  : result (list (list F32.t)) :=
  if Py.len a mod channels =? 0
  then Ok (chunks_of (Z.to_nat channels) (Z.to_nat (Py.len a / channels)) a)
  else Raise ReshapeError.

(** [np.frombuffer(data, dtype=...)] for an item of [k] bytes. *)
Definition np_frombuffer {A} (k : nat) (item : bytes -> A) (data : bytes)
  : result (list A) :=
  if Py.len data mod Z.of_nat k =? 0
  then Ok (map item (chunks_of k (length data / k) data))
  else Raise BufferSizeError.

(** [a.tobytes()] of a [float32] array. *)
Definition np_tobytes (a : list F32.t) : bytes :=
  concat (map (fun x => le_bytes 4 (F32.to_bits x)) a).

(** ** [ace_bridge_server.py]: WAV encoding / decoding helpers *)

Module Wav.

Local Open Scope byte_scope.
Definition b_RIFF : bytes := ["R"; "I"; "F"; "F"].
Definition b_WAVE : bytes := ["W"; "A"; "V"; "E"].
Definition b_fmt : bytes := ["f"; "m"; "t"; " "].
Definition b_data : bytes := ["d"; "a"; "t"; "a"].
Local Close Scope byte_scope.

Fixpoint bytes_eqb (a b : bytes) : bool :=
  match a, b with
  | [], [] => true
  | x :: a', y :: b' => Byte.eqb x y && bytes_eqb a' b'
  | _, _ => false
  end.

(** The local variables of the chunk loop of [decode_wav_bytes]. *)
Record chunk_state : Type := {
  pos : Z;
  fmt_found : bool;
  data_bytes : bytes;
  channels : Z;
  sample_rate : Z;
  bits_per_sample : Z;
  audio_format : Z
}.

Definition init_state : chunk_state :=
  {| pos := 12; fmt_found := false; data_bytes := [];
     channels := 1; sample_rate := 48000;
     bits_per_sample := 16; audio_format := 1 |}.

Inductive loop_ctl : Type :=
| Continue (st : chunk_state)
| Break (st : chunk_state).

(** One pass through the body of [while pos < len(wav_bytes) - 8]. *)
Definition chunk_step (wav_bytes : bytes) (st : chunk_state)
  : result loop_ctl :=
  let chunk_id := Py.slice wav_bytes (pos st) (pos st + 4) in
  chunk_size <- Struct.unpack_I (Py.slice wav_bytes (pos st + 4) (pos st + 8)) ;;
  let p := pos st + 8 in
  if bytes_eqb chunk_id b_fmt then
    ' (af, ch, sr, _, _, bits) <-
      Struct.unpack_HHIIHH (Py.slice wav_bytes p (p + 16)) ;;
    Ok (Continue {| pos := p + chunk_size; fmt_found := true;
                    data_bytes := data_bytes st;
                    channels := ch; sample_rate := sr;
                    bits_per_sample := bits; audio_format := af |})
  else if bytes_eqb chunk_id b_data then
    Ok (Break {| pos := p; fmt_found := fmt_found st;
                 data_bytes := Py.slice wav_bytes p (p + chunk_size);
                 channels := channels st; sample_rate := sample_rate st;
                 bits_per_sample := bits_per_sample st;
                 audio_format := audio_format st |})
  else
    Ok (Continue {| pos := p + chunk_size; fmt_found := fmt_found st;
                    data_bytes := data_bytes st;
                    channels := channels st; sample_rate := sample_rate st;
                    bits_per_sample := bits_per_sample st;
                    audio_format := audio_format st |}).

(** The chunk loop.  [fuel] bounds the number of passes; [None] says the
    bound was reached with the loop condition still true. *)
Fixpoint chunk_loop (fuel : nat) (wav_bytes : bytes) (st : chunk_state)
  : option (result chunk_state) :=
  if pos st <? Py.len wav_bytes - 8 then
    match fuel with
    | O => None
    | S fuel' =>
        match chunk_step wav_bytes st with
        | Raise e => Some (Raise e)
        | Ok (Break st') => Some (Ok st')
        | Ok (Continue st') => chunk_loop fuel' wav_bytes st'
        end
    end
  else Some (Ok st).

(** Every pass moves [pos] forward by at least 8, so [len(wav_bytes)]
    passes always suffice ([chunk_loop_terminates] below); the default is
    never taken. *)
Definition walk_chunks (wav_bytes : bytes) : result chunk_state :=
  match chunk_loop (length wav_bytes) wav_bytes init_state with
  | Some r => r
  | None => Ok init_state
  end.

Definition f32_32768 : F32.t := F32.of_int 32768.

(** "Decode sample data": the branch on [(audio_format, bits_per_sample)]. *)
Definition decode_samples (audio_format bits_per_sample : Z)
           (data_bytes : bytes) : result (list F32.t) :=
  if (audio_format =? 3) && (bits_per_sample =? 32) then
    (* IEEE Float 32-bit *)
    np_frombuffer 4 (fun b => F32.of_bits (le_int b)) data_bytes
  else if (audio_format =? 1) && (bits_per_sample =? 16) then
    (* PCM 16-bit *)
    ints <- np_frombuffer 2 le_int_signed data_bytes ;;
    Ok (map (fun v => F32.div (F32.of_int v) f32_32768) ints)
  else if (audio_format =? 1) && (bits_per_sample =? 24) then
    (* PCM 24-bit *)
    let n_samples := Py.len data_bytes / 3 in
    Ok (map (fun i =>
               let b := Py.slice data_bytes (i * 3) ((i + 1) * 3) in
               let val := le_int_signed b in
               F64.to_f32 (F64.div (F64.of_Z val) (F64.of_Z 8388608)))
            (Py.range n_samples))
  else Raise (UnsupportedFormat audio_format bits_per_sample).

(** "Mix to mono if multichannel". *)
Definition mix_to_mono `{Numpy} (channels : Z) (samples : list F32.t)
  : result (list F32.t) :=
  if 1 <? channels then
    rows <- reshape_rows channels samples ;;
    Ok (mean_axis1 rows)
  else Ok samples.

(** The manual parser, reached when [import soundfile] fails. *)
Definition decode_manual `{Numpy} (wav_bytes : bytes)
  : result (list F32.t * Z) :=
  if Py.len wav_bytes <? 44 then Raise WavTooShort
  else
    let riff := Py.slice wav_bytes 0 4 in
    let wave := Py.slice wav_bytes 8 12 in
    if negb (bytes_eqb riff b_RIFF) || negb (bytes_eqb wave b_WAVE)
    then Raise NotAWavFile
    else
      st <- walk_chunks wav_bytes ;;
      if negb (fmt_found st) || (length (data_bytes st) =? 0)%nat
      then Raise MissingChunk
      else
        samples <- decode_samples (audio_format st) (bits_per_sample st)
                                  (data_bytes st) ;;
        samples <- mix_to_mono (channels st) samples ;;
        Ok (samples, sample_rate st).

(** [decode_wav_bytes].  [sf] is the outcome of [import soundfile]:
    [None] is the [ImportError] that sends the function to its own parser. *)
Definition decode_wav_bytes `{Numpy} (sf : option soundfile)
           (wav_bytes : bytes) : result (list F32.t * Z) :=
  match sf with
  | Some lib =>
      ' (data, sr) <- sf_read_bytes lib wav_bytes ;;
      match data with
      | Arr2 rows => Ok (mean_axis1 rows, sr)   (* Mix to mono *)
      | Arr1 v => Ok (v, sr)
      end
  | None => decode_manual wav_bytes
  end.

(** The arguments of [struct.pack('<4sI4s4sIHHIIHH4sI', ...)]. *)
Inductive field : Type :=
| F4s (s : bytes)
| FI (v : Z)
| FH (v : Z).

Definition pack_field (f : field) : result bytes :=
  match f with
  | F4s s => Struct.pack_4s s
  | FI v => Struct.pack_I v
  | FH v => Struct.pack_H v
  end.

Fixpoint pack (fs : list field) : result bytes :=
  match fs with
  | [] => Ok []
  | f :: fs' =>
      b <- pack_field f ;;
      rest <- pack fs' ;;
      Ok (b ++ rest)
  end.

(** The manual encoder (IEEE float32, mono). *)
Definition encode_manual (samples : list F32.t) (sample_rate : Z)
  : result bytes :=
  let data := np_tobytes samples in
  let num_channels := 1 in
  let bits_per_sample := 32 in
  let byte_rate := sample_rate * num_channels * (bits_per_sample / 8) in
  let block_align := num_channels * (bits_per_sample / 8) in
  header <- pack [ F4s b_RIFF;
                   FI (36 + Py.len data);   (* file size - 8 *)
                   F4s b_WAVE;
                   F4s b_fmt;
                   FI 16;                   (* fmt chunk size *)
                   FH 3;                    (* audio format: IEEE float *)
                   FH num_channels;
                   FI sample_rate;
                   FI byte_rate;
                   FH block_align;
                   FH bits_per_sample;
                   F4s b_data;
                   FI (Py.len data) ] ;;    (* data chunk size *)
  Ok (header ++ data).

(** [encode_wav_bytes] *)
Definition encode_wav_bytes (sf : option soundfile)
           (samples : list F32.t) (sample_rate : Z) : result bytes :=
  match sf with
  | Some lib => sf_write_bytes lib samples sample_rate
  | None => encode_manual samples sample_rate
  end.

End Wav.

(** ** The order of floating-point numbers *)



(** ** [ace_bridge_server.py]: the parameter mapping of the [/infer] route *)

Module Mapper.

Definition c0_0 : F64.t := S754_zero false.
Definition c0_1 : F64.t := F64.dec 1 1.
Definition c0_2 : F64.t := F64.dec 2 1.
Definition c0_5 : F64.t := F64.dec 5 1.
Definition c0_8 : F64.t := F64.dec 8 1.
Definition c0_9 : F64.t := F64.dec 9 1.
Definition c1_0 : F64.t := F64.of_Z 1.
Definition c9_0 : F64.t := F64.of_Z 9.
Definition c19_0 : F64.t := F64.of_Z 19.
Definition c20_0 : F64.t := F64.of_Z 20.

(** The request fields after [float(data.get(..))] / [data.get(..)]. *)
Record request : Type := {
  guidance_scale : F64.t;
  shift_raw : F64.t;
  entropy_raw : F64.t;
  granularity_raw : F64.t;
  infer_method : string;
  denoise_raw : F64.t
}.

Record mapped : Type := {
  guidance_interval : F64.t;
  omega_scale : F64.t;
  guidance_interval_decay : F64.t;
  retake_variance : F64.t;
  denoise_strength : F64.t;
  min_guidance_scale : F64.t
}.

(** The pattern [max(lo, min(hi, x))] the route writes four times. *)
Definition max_min (lo hi x : F64.t) : F64.t :=
  F64.py_max lo (F64.py_min hi x).

(** [0.1 + (shift_raw - 1.0) / 9.0 * 0.8] *)
Definition shift_expr (shift : F64.t) : F64.t :=
  F64.add c0_1 (F64.mul (F64.div (F64.sub shift c1_0) c9_0) c0_8).

(** [1.0 + entropy_raw * 19.0] *)
Definition entropy_expr (entropy : F64.t) : F64.t :=
  F64.add c1_0 (F64.mul entropy c19_0).

Definition map_params (r : request) : mapped :=
  {| guidance_interval := max_min c0_1 c0_9 (shift_expr (shift_raw r));
     omega_scale := max_min c1_0 c20_0 (entropy_expr (entropy_raw r));
     guidance_interval_decay := max_min c0_0 c1_0 (granularity_raw r);
     retake_variance :=
       if String.eqb (infer_method r) "sde" then c0_5 else c0_0;
     denoise_strength := max_min c0_0 c1_0 (denoise_raw r);
     min_guidance_scale :=
       F64.py_max c1_0 (F64.mul (guidance_scale r) c0_2) |}.



End Mapper.

(** ** [ace_bridge_server.py]: [ACEStepWrapper] *)

Module Wrapper.

(** The keyword arguments [infer] builds for the pipeline. *)
Record infer_kwargs : Type := {
  kw_prompt : string;
  kw_lyrics : string;
  kw_audio_duration : F64.t;
  kw_infer_step : Z;
  kw_guidance_scale : F64.t;
  kw_scheduler_type : string;
  kw_cfg_type : string;
  kw_omega_scale : F64.t;
  kw_manual_seeds : list Z;
  kw_guidance_interval : F64.t;
  kw_guidance_interval_decay : F64.t;
  kw_min_guidance_scale : F64.t;
  kw_use_erg_tag : bool;
  kw_use_erg_lyric : bool;
  kw_use_erg_diffusion : bool;
  kw_audio2audio_enable : bool;
  kw_ref_audio_strength : F64.t;
  kw_ref_audio_input : string;
  kw_retake_variance : F64.t;
  kw_save_path : string;
  kw_batch_size : Z
}.

(** What the pipeline hands back: a list whose items are strings or
    something else, or not a list at all. *)
Inductive py_item : Type :=
| PStr (s : string)
| POther.

Inductive py_value : Type :=
| PList (items : list py_item)
| PNotList.

(** [self.model]: the loaded pipeline, a callable. *)
Definition pipeline : Type := infer_kwargs -> result py_value.

(** The attributes [__init__] sets. *)
Record ACEStepWrapper : Type := {
  model : option pipeline;
  model_path : option string;
  is_loaded : bool;
  device : string;
  requested_device : string;
  load_error : option string;
  inference_count : Z;
  model_type : string
}.

(** The parameters of [infer]. *)
Record infer_args : Type := {
  audio_samples : list F32.t;
  sample_rate : Z;
  prompt : string;
  guidance_scale : F64.t;
  num_steps : Z;
  seed : Z;
  input_strength : F64.t;
  audio_duration : F64.t;
  denoise_strength : F64.t;
  guidance_interval : F64.t;
  guidance_interval_decay : F64.t;
  omega_scale : F64.t;
  min_guidance_scale : F64.t;
  retake_variance : F64.t;
  scheduler_type : string;
  cfg_type : string;
  use_erg_tag : bool;
  use_erg_lyric : bool;
  use_erg_diffusion : bool
}.

(** What [infer] asks of the operating system and the clock. *)
Record os_env : Type := {
  import_soundfile : option soundfile;  (* [None]: ImportError *)
  time_ms : Z;                          (* int(time.time() * 1000) *)
  tempdir : string;                     (* tempfile.gettempdir() *)
  makedirs : string -> result unit;     (* os.makedirs(.., exist_ok=True) *)
  path_exists : string -> bool          (* os.path.exists *)
}.

(** A call of [infer] as seen from outside: the array it returns, the
    wrapper afterwards, and the calls made to the pipeline, in order. *)
Record outcome : Type := {
  returned : list F32.t;
  self_after : ACEStepWrapper;
  engine_calls : list infer_kwargs
}.

Definition path_join (dir name : string) : string :=
  (dir ++ "/" ++ name)%string.

(** [s.endswith(suffix)] *)
Definition endswith (s suffix : string) : bool :=
  let n := String.length s in
  let k := String.length suffix in
  (k <=? n)%nat && String.eqb (substring (n - k) k s) suffix.

(** The first string item ending in [".wav"]. *)
Fixpoint find_output_wav (items : list py_item) : option string :=
  match items with
  | [] => None
  | PStr s :: rest =>
      if endswith s ".wav" then Some s else find_output_wav rest
  | POther :: rest => find_output_wav rest
  end.

Definition set_inference_count (self : ACEStepWrapper) (n : Z)
  : ACEStepWrapper :=
  {| model := model self; model_path := model_path self;
     is_loaded := is_loaded self; device := device self;
     requested_device := requested_device self;
     load_error := load_error self; inference_count := n;
     model_type := model_type self |}.

(** [return audio_samples] with the wrapper untouched. *)
Definition passthrough (self : ACEStepWrapper) (a : infer_args)
           (calls : list infer_kwargs) : outcome :=
  {| returned := audio_samples a; self_after := self;
     engine_calls := calls |}.

Definition build_kwargs (a : infer_args) (effective_steps seed' : Z)
           (tmp_input tmp_output_dir : string) : infer_kwargs :=
  {| kw_prompt := prompt a;
     kw_lyrics := "[inst]";
     kw_audio_duration := audio_duration a;
     kw_infer_step := effective_steps;
     kw_guidance_scale := guidance_scale a;
     kw_scheduler_type := scheduler_type a;
     kw_cfg_type := cfg_type a;
     kw_omega_scale := omega_scale a;
     kw_manual_seeds := [seed'];
     kw_guidance_interval := guidance_interval a;
     kw_guidance_interval_decay := guidance_interval_decay a;
     kw_min_guidance_scale := min_guidance_scale a;
     kw_use_erg_tag := use_erg_tag a;
     kw_use_erg_lyric := use_erg_lyric a;
     kw_use_erg_diffusion := use_erg_diffusion a;
     kw_audio2audio_enable := true;
     kw_ref_audio_strength := input_strength a;
     kw_ref_audio_input := tmp_input;
     kw_retake_variance := retake_variance a;
     kw_save_path := tmp_output_dir;
     kw_batch_size := 1 |}.

(** "Flatten to mono if needed", then [astype(np.float32)]. *)
Definition flatten_mono `{Numpy} (audio_out : ndarray) : list F32.t :=
  match audio_out with
  | Arr2 rows => mean_axis1 rows
  | Arr1 v => v
  end.

(** [max(0.0, min(1.0, denoise_strength))] *)
Definition clamp_denoise (d : F64.t) : F64.t :=
  F64.py_max Mapper.c0_0 (F64.py_min Mapper.c1_0 d).

(** [max(1, int(round(num_steps * denoise_strength)))] *)
Definition effective_steps (num_steps : Z) (d : F64.t) : result Z :=
  n <- F64.of_int num_steps ;;
  r <- F64.round (F64.mul n d) ;;
  Ok (Z.max 1 r).

(** The [try] block of [infer]: every exception inside it ends in
    [return audio_samples]. *)
Definition run_engine `{Numpy} (env : os_env) (self : ACEStepWrapper)
           (engine : pipeline) (a : infer_args) (steps : Z) : outcome :=
  match import_soundfile env with
  | None => passthrough self a []
  | Some sf =>
      let seed' := if seed a <? 0 then time_ms env mod 2 ^ 32 else seed a in
      let tmp_input := path_join (tempdir env) "nr_bridge_input.wav" in
      let tmp_output_dir := path_join (tempdir env) "nr_bridge_output" in
      match makedirs env tmp_output_dir with
      | Raise _ => passthrough self a []
      | Ok _ =>
      match sf_write_file sf tmp_input (audio_samples a) (sample_rate a) with
      | Raise _ => passthrough self a []
      | Ok _ =>
      let kw := build_kwargs a steps seed' tmp_input tmp_output_dir in
      (* Run ACE-Step inference *)
      match engine kw with
      | Raise _ => passthrough self a [kw]
      | Ok result =>
          let output_wav :=
            match result with
            | PList items => find_output_wav items
            | PNotList => None
            end in
          match output_wav with
          | Some path =>
              if path_exists env path then
                match sf_read_file sf path with
                | Raise _ => passthrough self a [kw]
                | Ok (audio_out, _) =>
                    {| returned := flatten_mono audio_out;
                       self_after :=
                         set_inference_count self (inference_count self + 1);
                       engine_calls := [kw] |}
                end
              else passthrough self a [kw]
          | None => passthrough self a [kw]
          end
      end
      end
      end
  end.

(** [ACEStepWrapper.infer] *)
Definition infer `{Numpy} (env : os_env) (self : ACEStepWrapper)
           (a : infer_args) : result outcome :=
  match is_loaded self, model self with
  | true, Some engine =>
      let d := clamp_denoise (denoise_strength a) in
      if F64.leb d Mapper.c0_0 then Ok (passthrough self a [])
      else
        steps <- effective_steps (num_steps a) d ;;
        Ok (run_engine env self engine a steps)
  | _, _ =>
      (* Passthrough when model not loaded *)
      Ok (passthrough self a [])
  end.



(** The temporary paths [infer] uses. *)
Definition tmp_input (env : os_env) : string :=
  path_join (tempdir env) "nr_bridge_input.wav".
Definition tmp_output_dir (env : os_env) : string :=
  path_join (tempdir env) "nr_bridge_output".


End Wrapper.

(** ** [generate_koenig_seed.py] *)

Module Koenig.

(** The [while len(remainder) > 1] loop of [euclidean_rhythm].  [fuel]
    bounds the number of passes; [None] says the bound was reached with the
    loop condition still true. *)
Fixpoint bjorklund_loop (fuel : nat) (pattern remainder : list (list Z))
  : option (list (list Z) * list (list Z)) :=
  if 1 <? Py.len remainder then
    match fuel with
    | O => None
    | S fuel' =>
        let take := Z.min (Py.len pattern) (Py.len remainder) in
        let merged :=
          map (fun i => nth (Z.to_nat i) pattern []
                        ++ nth (Z.to_nat i) remainder [])
              (Py.range take) in
        let leftover_pattern := Py.slice_from pattern take in
        let leftover_remainder := Py.slice_from remainder take in
        bjorklund_loop fuel' merged (leftover_pattern ++ leftover_remainder)
    end
  else Some (pattern, remainder).

(** [euclidean_rhythm(pulses, steps)] *)
Definition euclidean_rhythm (fuel : nat) (pulses steps : Z)
  : option (list Z) :=
  if steps <=? pulses then Some (Py.replicate 1 steps)
  else if pulses =? 0 then Some (Py.replicate 0 steps)
  else
    let pattern := Py.replicate [1] pulses in
    let remainder := Py.replicate [0] (steps - pulses) in
    match bjorklund_loop fuel pattern remainder with
    | Some (pattern', remainder') => Some (concat (pattern' ++ remainder'))
    | None => None
    end.

(** Pairwise concatenation, as long as both lists last: what the list
    comprehension [[pattern[i] + remainder[i] for i in range(take)]]
    builds. *)
Fixpoint zip_app (p r : list (list Z)) : list (list Z) :=
  match p, r with
  | x :: p', y :: r' => (x ++ y) :: zip_app p' r'
  | _, _ => []
  end.

(** [np.random.normal(0, noise_amplitude, n).astype(np.float32)]: the
    [i]-th sample of the [draw]-th call. *)
Class Rng : Type := { normal_f32 : nat -> F64.t -> Z -> F32.t }.

Definition noise `{Rng} (draw : nat) (amplitude : F64.t) (n : Z)
  : list F32.t :=
  map (normal_f32 draw amplitude) (Py.range n).

(** The state of the impulse loop: the buffer, the counter, and how many
    times the random generator was called. *)
Record seed_state : Type := {
  audio : list F32.t;
  impulse_count : Z;
  draws : nat
}.

Definition samples_per_step (total_samples steps : Z) : Z :=
  total_samples / steps.

Definition sample_pos (step_idx samples_per_step : Z) : Z :=
  step_idx * samples_per_step.

(** One pass through [for step_idx, is_pulse in enumerate(rhythm)]. *)
Definition place_step `{Rng} (total_samples sps noise_tail_samples : Z)
           (noise_amplitude : F64.t)
           (st : seed_state) (step_idx is_pulse : Z) : seed_state :=
  if is_pulse =? 0 then st
  else
    let pos := sample_pos step_idx sps in
    if total_samples <=? pos then st
    else
      (* Dirac impulse *)
      let audio1 := Py.set_nth (audio st) (Z.to_nat pos) F32.one in
      let count1 := impulse_count st + 1 in
      (* Gaussian noise tail *)
      let tail_end := Z.min (pos + 1 + noise_tail_samples) total_samples in
      let tail_length := tail_end - pos - 1 in
      if 0 <? tail_length then
        {| audio := Py.set_slice audio1 (Z.to_nat (pos + 1))
                      (noise (draws st) noise_amplitude tail_length);
           impulse_count := count1;
           draws := S (draws st) |}
      else
        {| audio := audio1; impulse_count := count1; draws := draws st |}.

Fixpoint place_impulses `{Rng} (total_samples sps noise_tail_samples : Z)
         (noise_amplitude : F64.t) (st : seed_state)
         (step_idx : Z) (rhythm : list Z) : seed_state :=
  match rhythm with
  | [] => st
  | is_pulse :: rest =>
      place_impulses total_samples sps noise_tail_samples noise_amplitude
        (place_step total_samples sps noise_tail_samples noise_amplitude
                    st step_idx is_pulse)
        (step_idx + 1) rest
  end.

(** Past index 0 every sample of the buffer is silence or was drawn from
    the noise source: none of them is an impulse. *)
Definition tail_is_noise `{Rng} (amplitude : F64.t) (a : list F32.t)
  : Prop :=
  forall i, (1 <= i)%nat ->
    nth i a F32.zero = F32.zero
    \/ exists draw j, nth i a F32.zero = normal_f32 draw amplitude j.

(** [np.zeros(n, dtype=np.float32)] *)
Definition np_zeros (n : Z) : result (list F32.t) :=
  if n <? 0 then Raise NegativeDimensions
  else Ok (Py.replicate F32.zero n).

(** [a // b] *)
Definition floordiv (a b : Z) : result Z :=
  if b =? 0 then Raise ZeroDivisionError else Ok (a / b).

(** [int(x * n)] for a float [x] and an int [n]. *)
Definition int_of_product (x : F64.t) (n : Z) : result Z :=
  f <- F64.of_int n ;;
  F64.to_int (F64.mul x f).

(** [generate_koenig_seed] up to the buffer [audio] and [impulse_count],
    that is, before the conversion to 16-bit PCM and the file output.
    [None] says [euclidean_rhythm] did not finish within [fuel]. *)
Definition generate_koenig_seed `{Rng} (fuel : nat)
           (duration : F64.t) (sample_rate pulses steps : Z)
           (noise_tail_ms noise_amplitude : F64.t)
  : option (result seed_state) :=
  match int_of_product duration sample_rate with
  | Raise e => Some (Raise e)
  | Ok total_samples =>
      match euclidean_rhythm fuel pulses steps with
      | None => None
      | Some rhythm =>
          Some (
            (* Create silent buffer *)
            audio0 <- np_zeros total_samples ;;
            (* Calculate positions *)
            sps <- floordiv total_samples steps ;;
            noise_tail_samples <-
              int_of_product (F64.div noise_tail_ms (F64.of_Z 1000))
                             sample_rate ;;
            Ok (place_impulses total_samples sps noise_tail_samples
                  noise_amplitude
                  {| audio := audio0; impulse_count := 0; draws := O |}
                  0 rhythm))
      end
  end.

End Koenig.

(** ** The container and the sample formats, in the specification's words *)

Module WavSpec.

Import Wav.

(** The byte at offset [i], as a number. *)
Definition byte_at (d : bytes) (i : Z) : Z :=
  Z_of_byte (nth (Z.to_nat i) d x00).

(** The 44-byte header of a container with one [fmt ] chunk of declared
    size 16 followed by the header of the [data] chunk. *)
Definition header44 (riff_size audio_format channels sample_rate
                     byte_rate block_align bits_per_sample data_size : Z)
  : bytes :=
  b_RIFF ++ le_bytes 4 riff_size ++ b_WAVE
    ++ b_fmt ++ le_bytes 4 16
    ++ le_bytes 2 audio_format ++ le_bytes 2 channels
    ++ le_bytes 4 sample_rate ++ le_bytes 4 byte_rate
    ++ le_bytes 2 block_align ++ le_bytes 2 bits_per_sample
    ++ b_data ++ le_bytes 4 data_size.

(** The states the chunk walk of [wav_bytes] passes through at the top of
    its loop: the initial one, and the one after every chunk that is walked
    over. *)
Inductive walks_to (wav_bytes : bytes) : chunk_state -> Prop :=
| walks_init : walks_to wav_bytes init_state
| walks_next st st' :
    walks_to wav_bytes st ->
    pos st < Py.len wav_bytes - 8 ->
    chunk_step wav_bytes st = Ok (Continue st') ->
    walks_to wav_bytes st'.

(** The walk meets, at [pos st], the header of a [data] chunk that
    declares [declared] bytes of payload. *)
Definition data_chunk_at (wav_bytes : bytes) (st : chunk_state)
           (declared : Z) : Prop :=
  walks_to wav_bytes st
  /\ pos st + 8 <= Py.len wav_bytes
  /\ Py.slice wav_bytes (pos st) (pos st + 4) = b_data
  /\ le_int (Py.slice wav_bytes (pos st + 4) (pos st + 8)) = declared.

(** Two's complement reading of a [w]-bit pattern ("sign-extends"). *)
Definition sign_extend (w u : Z) : Z :=
  if u <? 2 ^ (w - 1) then u else u - 2 ^ w.

(** IEEE float32: direct reinterpretation of each 4 bytes. *)
Definition float32_samples (d : bytes) : list F32.t :=
  map (fun i => F32.of_bits (byte_at d (4 * i)
                             + 2 ^ 8 * byte_at d (4 * i + 1)
                             + 2 ^ 16 * byte_at d (4 * i + 2)
                             + 2 ^ 24 * byte_at d (4 * i + 3)))
      (Py.range (Py.len d / 4)).

(** PCM16: little-endian signed 16-bit integers divided by 32768. *)
Definition pcm16_samples (d : bytes) : list F32.t :=
  map (fun i =>
         let u := byte_at d (2 * i) + 2 ^ 8 * byte_at d (2 * i + 1) in
         F32.div (F32.of_int (sign_extend 16 u)) (F32.of_int 32768))
      (Py.range (Py.len d / 2)).

(** PCM24: 3-byte little-endian integers, sign-extended, divided by
    8388608. *)
Definition pcm24_samples (d : bytes) : list F32.t :=
  map (fun i =>
         let u := byte_at d (3 * i) + 2 ^ 8 * byte_at d (3 * i + 1)
                  + 2 ^ 16 * byte_at d (3 * i + 2) in
         F64.to_f32 (F64.div (F64.of_Z (sign_extend 24 u))
                             (F64.of_Z 8388608)))
      (Py.range (Py.len d / 3)).

(** Sample decoding by (format code, bits per sample). *)
Definition samples_by_format (audio_format bits_per_sample : Z) (d : bytes)
  : result (list F32.t) :=
  match audio_format, bits_per_sample with
  | 3, 32 => if Py.len d mod 4 =? 0 then Ok (float32_samples d)
             else Raise BufferSizeError
  | 1, 16 => if Py.len d mod 2 =? 0 then Ok (pcm16_samples d)
             else Raise BufferSizeError
  | 1, 24 => Ok (pcm24_samples d)
  | _, _ => Raise (UnsupportedFormat audio_format bits_per_sample)
  end.

(** The layout of a single-channel 32-bit float container, field by
    field, for a payload of [data_len] bytes. *)
Definition float_wav_layout (out : bytes) (sample_rate data_len : Z)
  : Prop :=
  Py.slice out 0 4 = b_RIFF
  /\ le_int (Py.slice out 4 8) = 36 + data_len      (* RIFF size *)
  /\ Py.slice out 8 12 = b_WAVE
  /\ Py.slice out 12 16 = b_fmt
  /\ le_int (Py.slice out 16 20) = 16               (* fmt chunk size *)
  /\ le_int (Py.slice out 20 22) = 3                (* IEEE float *)
  /\ le_int (Py.slice out 22 24) = 1                (* channels *)
  /\ le_int (Py.slice out 24 28) = sample_rate
  /\ le_int (Py.slice out 28 32) = sample_rate * 4  (* byte rate *)
  /\ le_int (Py.slice out 32 34) = 4                (* block align *)
  /\ le_int (Py.slice out 34 36) = 32               (* bits per sample *)
  /\ Py.slice out 36 40 = b_data
  /\ le_int (Py.slice out 40 44) = data_len         (* data chunk size *)
  /\ Py.len out = 44 + data_len.

(** The bytes one frame takes. *)
Definition bytes_per_frame (bits_per_sample channels : Z) : Z :=
  bits_per_sample / 8 * Z.max 1 channels.

(** The exceptions that speak of the container rather than of its
    samples. *)
Definition container_error (e : exn) : Prop :=
  e = WavTooShort \/ e = NotAWavFile \/ e = MissingChunk.

End WavSpec.

(** ** Inputs used to run the definitions *)

Module Samples.

(** One possible numpy: channels added left to right in [float32], the
    sum divided by their number. *)
Definition sequential_mean : Numpy :=
  {| np_mean := fun frame =>
       F32.div (fold_left (SFadd F32.prec F32.emax) frame F32.zero)
               (F32.of_int (Py.len frame)) |}.

Definition quarter : F32.t := F32.div (F32.of_int 1) (F32.of_int 4).

(** [[0.0, 0.25, -1.0]] *)
Definition buffer3 : list F32.t := [F32.zero; quarter; F32.of_int (-1)].



(** A float container whose [data] chunk declares 4 bytes and holds none. *)
Definition data_header_only : bytes :=
  WavSpec.header44 40 3 1 48000 192000 4 32 4.

(** A float container whose [data] chunk declares 8 bytes and holds 5. *)
Definition five_of_eight : bytes :=
  WavSpec.header44 44 3 1 48000 192000 4 32 8
    ++ [x00; x00; x80; x3f; x00]%byte.

(** A float container whose [data] chunk declares 8 bytes and holds the 4
    of the sample [1.0]. *)
Definition four_of_eight : bytes :=
  WavSpec.header44 44 3 1 48000 192000 4 32 8 ++ [x00; x00; x80; x3f]%byte.


(** A [soundfile] whose every file holds one stereo frame (1.0, 0.0). *)
Definition stub_soundfile : soundfile :=
  {| sf_read_bytes := fun _ => Raise (LibraryError "soundfile");
     sf_write_bytes := fun _ _ => Raise (LibraryError "soundfile");
     sf_read_file := fun _ => Ok (Arr2 [[F32.one; F32.zero]], 48000);
     sf_write_file := fun _ _ _ => Ok tt |}.

Definition stub_env : Wrapper.os_env :=
  {| Wrapper.import_soundfile := Some stub_soundfile;
     Wrapper.time_ms := 1700000000123;
     Wrapper.tempdir := "/tmp";
     Wrapper.makedirs := fun _ => Ok tt;
     Wrapper.path_exists := fun _ => true |}.

(** A pipeline that answers with one output path. *)
Definition good_engine : Wrapper.pipeline :=
  fun _ => Ok (Wrapper.PList [Wrapper.POther;
                              Wrapper.PStr "/tmp/nr_bridge_output/out.wav"]).

(** A pipeline that raises. *)
Definition failing_engine : Wrapper.pipeline :=
  fun _ => Raise (LibraryError "acestep").

Definition wrapper_with (engine : option Wrapper.pipeline) (loaded : bool)
  : Wrapper.ACEStepWrapper :=
  {| Wrapper.model := engine; Wrapper.model_path := Some "models/base"%string;
     Wrapper.is_loaded := loaded; Wrapper.device := "cpu";
     Wrapper.requested_device := "cpu"; Wrapper.load_error := None;
     Wrapper.inference_count := 3; Wrapper.model_type := "base" |}.

(** A noise source whose every sample is the amplitude itself. *)
Definition flat_noise : Koenig.Rng :=
  {| Koenig.normal_f32 := fun _ amplitude _ => F64.to_f32 amplitude |}.

(** The defaults of [infer], with the given denoise strength. *)
Definition args_with (denoise : F64.t) : Wrapper.infer_args :=
  {| Wrapper.audio_samples := buffer3; Wrapper.sample_rate := 48000;
     Wrapper.prompt := ""; Wrapper.guidance_scale := F64.of_Z 15;
     Wrapper.num_steps := 20; Wrapper.seed := -1;
     Wrapper.input_strength := F64.dec 6 1;
     Wrapper.audio_duration := F64.of_Z 10;
     Wrapper.denoise_strength := denoise;
     Wrapper.guidance_interval := F64.dec 5 1;
     Wrapper.guidance_interval_decay := S754_zero false;
     Wrapper.omega_scale := F64.of_Z 10;
     Wrapper.min_guidance_scale := F64.of_Z 3;
     Wrapper.retake_variance := S754_zero false;
     Wrapper.scheduler_type := "euler"; Wrapper.cfg_type := "apg";
     Wrapper.use_erg_tag := true; Wrapper.use_erg_lyric := true;
     Wrapper.use_erg_diffusion := true |}.

End Samples.

(** ** RIFF containers with more than the two chunks the decoder needs *)

Module Riff.

Import Wav.

(** One chunk, laid out as the walk of [decode_wav_bytes] expects it: the
    4-byte id, the size of the body, the body, and no pad byte. *)
Definition chunk (id body : bytes) : bytes :=
  id ++ le_bytes 4 (Py.len body) ++ body.

(** A chunk (id, body) the decoder has no use for, such as [LIST], [fact]
    or [PEAK]. *)
Definition foreign (c : bytes * bytes) : Prop :=
  length (fst c) = 4%nat /\ fst c <> b_fmt /\ fst c <> b_data
  /\ Py.len (snd c) < 2 ^ 32.

Definition chunks (cs : list (bytes * bytes)) : bytes :=
  flat_map (fun c => chunk (fst c) (snd c)) cs.

(** The six fields of a [fmt ] chunk. *)
Definition fmt_fields (audio_format channels sample_rate byte_rate
                       block_align bits_per_sample : Z) : bytes :=
  le_bytes 2 audio_format ++ le_bytes 2 channels
    ++ le_bytes 4 sample_rate ++ le_bytes 4 byte_rate
    ++ le_bytes 2 block_align ++ le_bytes 2 bits_per_sample.

(** The 12 bytes every container starts with. *)
Definition riff_header (riff_size : Z) : bytes :=
  b_RIFF ++ le_bytes 4 riff_size ++ b_WAVE.

(** A container with foreign chunks before and after its [fmt ] chunk,
    extension bytes at the end of the [fmt ] chunk, and [rest] after the
    header of the [data] chunk. *)
Definition container (riff_size : Z) (before : list (bytes * bytes))
           (audio_format channels sample_rate byte_rate block_align
            bits_per_sample : Z) (extension : bytes)
           (between : list (bytes * bytes)) (data_size : Z) (rest : bytes)
  : bytes :=
  riff_header riff_size ++ chunks before
    ++ chunk b_fmt (fmt_fields audio_format channels sample_rate byte_rate
                      block_align bits_per_sample ++ extension)
    ++ chunks between
    ++ b_data ++ le_bytes 4 data_size ++ rest.

(** [st] with the cursor of the walk moved to [p]. *)
Definition moved (st : chunk_state) (p : Z) : chunk_state :=
  {| pos := p; fmt_found := fmt_found st; data_bytes := data_bytes st;
     channels := channels st; sample_rate := sample_rate st;
     bits_per_sample := bits_per_sample st;
     audio_format := audio_format st |}.

End Riff.

(** ** [ace_bridge_server.py]: loading the model *)

Module Loader.

Import Wrapper.

(** [str.lower()], one character at a time.  The characters of a path are
    code points below 256: the capitals are A-Z and, in the upper half,
    U+00C0 to U+00DE without the multiplication sign U+00D7. *)
Definition lower_char (c : ascii) : ascii :=
  let n := nat_of_ascii c in
  if ((65 <=? n) && (n <=? 90))%nat
     || ((192 <=? n) && (n <=? 222) && negb (n =? 215))%nat
  then ascii_of_nat (n + 32)
  else c.

Fixpoint lower (s : string) : string :=
  match s with
  | EmptyString => EmptyString
  | String c s' => String (lower_char c) (lower s')
  end.

(** [keyword in s] *)
Fixpoint contains (s keyword : string) : bool :=
  String.prefix keyword s
  || match s with
     | EmptyString => false
     | String _ s' => contains s' keyword
     end.

(** [_MODEL_TYPE_KEYWORDS], in the order the dict is written and
    iterated. *)
Definition MODEL_TYPE_KEYWORDS : list (string * string) :=
  [("turbo", "turbo"); ("sft", "sft"); ("base", "base")]%string.

(** The [for keyword, mtype in ...items()] loop of [_detect_model_type]:
    the type of the first keyword found, if any. *)
Fixpoint scan_keywords (items : list (string * string)) (path_lower : string)
  : option string :=
  match items with
  | [] => None
  | (keyword, mtype) :: rest =>
      if contains path_lower keyword then Some mtype
      else scan_keywords rest path_lower
  end.

(** [_detect_model_type] *)
Definition detect_model_type (model_path : string) : string :=
  let path_lower := lower model_path in
  match scan_keywords MODEL_TYPE_KEYWORDS path_lower with
  | Some mtype => mtype
  | None => "base"%string
  end.

(** What [load] reads from [torch]. *)
Record torch : Type := {
  mps_is_available : bool;       (* torch.backends.mps.is_available() *)
  cuda_is_available : bool       (* torch.cuda.is_available() *)
}.

(** An [ACEStepPipeline] object, as far as [load] touches it. *)
Record ace_pipeline : Type := {
  ace_call : pipeline;                            (* the object, called *)
  load_checkpoint : string -> result unit;
  pipeline_device : option string;                (* str(model.device), if any *)
  pipeline_to : option (string -> result unit);   (* model.to, if any *)
  (* for unet, vae, text_encoder, model: the [to] of the attribute, when
     the attribute is there, is not None and has one *)
  submodule_to : list (option (string -> result unit))
}.

(** The object [AutoPipelineForText2Audio.from_pretrained] returns. *)
Record diffusers_pipeline : Type := {
  dp_call : pipeline;
  dp_to : string -> result pipeline               (* model.to(device) *)
}.

(** The imports of [load] and what they provide. *)
Record load_env : Type := {
  import_torch : result torch;
  (* from acestep.pipeline_ace_step import ACEStepPipeline *)
  import_acestep : result (string -> result ace_pipeline);
  (* from diffusers import AutoPipelineForText2Audio; its from_pretrained *)
  import_diffusers : result (string -> result diffusers_pipeline);
  str_of_exception : exn -> string                (* str(e) *)
}.

Definition is_import_error (e : exn) : bool :=
  match e with
  | ImportError _ => true
  | _ => false
  end.

(** "Device selection: honour the explicit --device flag". *)
Definition resolve_device (t : torch) (requested : string) : string :=
  if String.eqb requested "auto" then
    if mps_is_available t then "mps"%string
    else if cuda_is_available t then "cuda"%string
    else "cpu"%string
  else requested.

Definition set_model_type (self : ACEStepWrapper) (t : string)
  : ACEStepWrapper :=
  {| model := model self; model_path := model_path self;
     is_loaded := is_loaded self; device := device self;
     requested_device := requested_device self;
     load_error := load_error self;
     inference_count := inference_count self; model_type := t |}.

Definition set_model (self : ACEStepWrapper) (m : pipeline)
  : ACEStepWrapper :=
  {| model := Some m; model_path := model_path self;
     is_loaded := is_loaded self; device := device self;
     requested_device := requested_device self;
     load_error := load_error self;
     inference_count := inference_count self;
     model_type := model_type self |}.

Definition set_load_error (self : ACEStepWrapper) (msg : string)
  : ACEStepWrapper :=
  {| model := model self; model_path := model_path self;
     is_loaded := is_loaded self; device := device self;
     requested_device := requested_device self;
     load_error := Some msg;
     inference_count := inference_count self;
     model_type := model_type self |}.

(** [self.device = target_device; self.is_loaded = True;
     self.load_error = None] *)
Definition set_loaded (self : ACEStepWrapper) (target_device : string)
  : ACEStepWrapper :=
  {| model := model self; model_path := model_path self;
     is_loaded := true; device := target_device;
     requested_device := requested_device self;
     load_error := None;
     inference_count := inference_count self;
     model_type := model_type self |}.

(** [for attr in ('unet', 'vae', 'text_encoder', 'model')] *)
Fixpoint move_submodules (subs : list (option (string -> result unit)))
         (target_device : string) : result unit :=
  match subs with
  | [] => Ok tt
  | None :: rest => move_submodules rest target_device
  | Some to :: rest =>
      _ <- to target_device ;;
      move_submodules rest target_device
  end.

(** "Force the pipeline to the requested device". *)
Definition force_device (p : ace_pipeline) (target_device : string)
  : result unit :=
  match pipeline_device p with
  | None => Ok tt
  | Some auto_device =>
      if String.eqb auto_device target_device then Ok tt
      else
        _ <- match pipeline_to p with
             | Some to => to target_device
             | None => Ok tt
             end ;;
        move_submodules (submodule_to p) target_device
  end.

Definition msg_no_package : string :=
  "ace_step package not found. Install: pip install ace-step  Or: pip install diffusers".

Definition msg_no_torch : string :=
  "PyTorch not installed. Run: pip install torch".

(** The body of the inner [try]: the wrapper as the block leaves it, and
    the exception that ended it, if one did. *)
Definition try_acestep (env : load_env) (self : ACEStepWrapper)
           (model_path target_device : string)
  : ACEStepWrapper * result unit :=
  match import_acestep env with
  | Raise e => (self, Raise e)
  | Ok ACEStepPipeline =>
      match ACEStepPipeline model_path with
      | Raise e => (self, Raise e)
      | Ok p =>
          let self1 := set_model self (ace_call p) in
          match load_checkpoint p model_path with
          | Raise e => (self1, Raise e)
          | Ok _ =>
              match force_device p target_device with
              | Raise e => (self1, Raise e)
              | Ok _ => (set_loaded self1 target_device, Ok tt)
              end
          end
      end
  end.

(** The handler of the inner [except ImportError]: "Try alternative import
    paths", with its own [except Exception]. *)
Definition try_diffusers (env : load_env) (self : ACEStepWrapper)
           (model_path target_device : string) : ACEStepWrapper :=
  match import_diffusers env with
  | Raise _ => set_load_error self msg_no_package
  | Ok from_pretrained =>
      match from_pretrained model_path with
      | Raise _ => set_load_error self msg_no_package
      | Ok dp =>
          let self1 := set_model self (dp_call dp) in
          match dp_to dp target_device with
          | Raise _ => set_load_error self1 msg_no_package
          | Ok m => set_loaded (set_model self1 m) target_device
          end
      end
  end.

(** [ACEStepWrapper.load] *)
Definition load (env : load_env) (self : ACEStepWrapper)
           (model_path : string) : ACEStepWrapper :=
  let self := set_model_type self (detect_model_type model_path) in
  match import_torch env with
  | Raise e =>
      if is_import_error e then set_load_error self msg_no_torch
      else set_load_error self
             ("Model load failed: " ++ str_of_exception env e)
  | Ok t =>
      let target_device := resolve_device t (requested_device self) in
      match try_acestep env self model_path target_device with
      | (self1, Ok _) => self1
      | (self1, Raise e) =>
          if is_import_error e
          then try_diffusers env self1 model_path target_device
          else set_load_error self1
                 ("Model load failed: " ++ str_of_exception env e)
      end
  end.

(** [ACEStepWrapper.__init__]; [if model_path:] is false for [None] and for
    the empty string. *)
Definition init (env : load_env) (path : option string) (dev : string)
  : ACEStepWrapper :=
  let self := {| model := None; model_path := path; is_loaded := false;
                 device := dev; requested_device := dev;
                 load_error := None; inference_count := 0;
                 model_type := "unknown" |} in
  match path with
  | Some p => if String.eqb p EmptyString then self else load env self p
  | None => self
  end.

(** The spec-side reading of [keyword in s]: [keyword] occurs somewhere
    in [s]. *)
Definition occurs (keyword s : string) : Prop :=
  exists before after, s = (before ++ keyword ++ after)%string.

End Loader.

(** ** [ace_bridge_server.py]: the [/infer] route *)

Module Route.

Import Wrapper.

(** A JSON number as [request.get_json] hands it over: an [int] or a
    [float]. *)
Inductive number : Type :=
| NInt (z : Z)
| NFloat (x : F64.t).

(** [float(v)] *)
Definition py_float (v : number) : result F64.t :=
  match v with
  | NInt z => F64.of_int z
  | NFloat x => Ok x
  end.

(** [int(v)] *)
Definition py_int (v : number) : result Z :=
  match v with
  | NInt z => Ok z
  | NFloat x => F64.to_int x
  end.

(** The request body: a JSON object whose fields, when present, have the
    JSON types of the route's docstring (strings for [audio], [prompt] and
    [infer_method], numbers for the others).  [None] is an absent key.
    Bodies of another shape are not described. *)
Record body : Type := {
  b_audio : option string;
  b_prompt : option string;
  b_guidance_scale : option number;
  b_num_steps : option number;
  b_seed : option number;
  b_input_strength : option number;
  b_audio_duration : option number;
  b_shift : option number;
  b_entropy : option number;
  b_granularity : option number;
  b_infer_method : option string;
  b_denoise_strength : option number
}.

(** [data.get(key, default)] *)
Definition get {A} (field : option A) (default : A) : A :=
  match field with
  | Some v => v
  | None => default
  end.

(** What the route asks of its surroundings besides what [infer] asks. *)
Record route_env : Type := {
  os : os_env;
  b64decode : string -> result bytes;    (* base64.b64decode *)
  b64encode : bytes -> string;           (* base64.b64encode(..).decode('ascii') *)
  duration_ms : F64.t;                   (* round((time.time() - t0) * 1000.0, 2) *)
  str_of_exception : exn -> string       (* str(e), for a library's exception *)
}.

(** [str(n)] for an int. *)
Definition str_int (n : Z) : string :=
  DecimalString.NilZero.string_of_int (Z.to_int n).

(** [str(e)]: the messages of the [ValueError]s [decode_wav_bytes] raises
    are its own. *)
Definition message (env : route_env) (e : exn) : string :=
  match e with
  | WavTooShort => "WAV data too short"
  | NotAWavFile => "Not a valid WAV file"
  | MissingChunk => "Missing fmt or data chunk in WAV"
  | UnsupportedFormat af bits =>
      "Unsupported WAV format: audio_format=" ++ str_int af
        ++ ", bits=" ++ str_int bits
  | _ => str_of_exception env e
  end%string.

(** The JSON object of a 200 response. *)
Record reply : Type := {
  r_audio : string;
  r_sample_rate : Z;
  r_num_samples : Z;
  r_duration_ms : F64.t;
  r_model_used : bool;
  r_model_type : string
}.

Inductive response : Type :=
| Reply (r : reply)                       (* jsonify({...}), status 200 *)
| Error (status : Z) (error : string).    (* jsonify({'error': ...}), status *)

(** 'Missing "audio" field (base64-encoded WAV)' *)
Definition msg_missing_audio : string :=
  ("Missing " ++ String "034" ("audio" ++ String "034"
                                 " field (base64-encoded WAV)"))%string.

(** "Extract ALL parameters" and the mapping of the white paper controls:
    the arguments the route passes to [ace_wrapper.infer]. *)
Definition infer_arguments (data : body) (samples : list F32.t) (sr : Z)
  : result infer_args :=
  let prompt := get (b_prompt data) EmptyString in
  guidance_scale <-
    py_float (get (b_guidance_scale data) (NFloat (F64.of_Z 15))) ;;
  num_steps <- py_int (get (b_num_steps data) (NInt 20)) ;;
  seed <- py_int (get (b_seed data) (NInt (-1))) ;;
  input_strength <-
    py_float (get (b_input_strength data) (NFloat (F64.dec 6 1))) ;;
  audio_duration <-
    py_float (get (b_audio_duration data) (NFloat (F64.of_Z 10))) ;;
  shift_raw <- py_float (get (b_shift data) (NFloat (F64.of_Z 5))) ;;
  entropy_raw <- py_float (get (b_entropy data) (NFloat (F64.dec 25 2))) ;;
  granularity_raw <-
    py_float (get (b_granularity data) (NFloat (F64.dec 45 2))) ;;
  let infer_method := get (b_infer_method data) "ode"%string in
  denoise_raw <-
    py_float (get (b_denoise_strength data) (NFloat (F64.of_Z 1))) ;;
  let m := Mapper.map_params
             {| Mapper.guidance_scale := guidance_scale;
                Mapper.shift_raw := shift_raw;
                Mapper.entropy_raw := entropy_raw;
                Mapper.granularity_raw := granularity_raw;
                Mapper.infer_method := infer_method;
                Mapper.denoise_raw := denoise_raw |} in
  Ok {| audio_samples := samples;
        sample_rate := sr;
        prompt := prompt;
        guidance_scale := guidance_scale;
        num_steps := num_steps;
        seed := seed;
        input_strength := input_strength;
        audio_duration := audio_duration;
        denoise_strength := Mapper.denoise_strength m;
        guidance_interval := Mapper.guidance_interval m;
        guidance_interval_decay := Mapper.guidance_interval_decay m;
        omega_scale := Mapper.omega_scale m;
        min_guidance_scale := Mapper.min_guidance_scale m;
        retake_variance := Mapper.retake_variance m;
        scheduler_type := "euler";
        cfg_type := "apg";
        use_erg_tag := true;
        use_erg_lyric := true;
        use_erg_diffusion := true |}.

(** The route up to the call of [ace_wrapper.infer]: "Decode input audio"
    and the parameters. *)
Definition prepare `{Numpy} (env : route_env) (data : body) (audio : string)
  : result (infer_args * Z) :=
  wav_bytes <- b64decode env audio ;;
  ' (samples, sr) <-
    Wav.decode_wav_bytes (import_soundfile (os env)) wav_bytes ;;
  args <- infer_arguments data samples sr ;;
  Ok (args, sr).

(** The [/infer] route: the response, and the global [ace_wrapper] after
    the request.  Every exception ends in a 500 response. *)
Definition infer_route `{Numpy} (env : route_env)
           (ace_wrapper : ACEStepWrapper) (data : body)
  : response * ACEStepWrapper :=
  match b_audio data with
  | None => (Error 400 msg_missing_audio, ace_wrapper)
  | Some audio =>
      match prepare env data audio with
      | Raise e => (Error 500 (message env e), ace_wrapper)
      | Ok (args, sr) =>
          (* Run inference *)
          match infer (os env) ace_wrapper args with
          | Raise e => (Error 500 (message env e), ace_wrapper)
          | Ok o =>
              let output_samples := returned o in
              let ace_wrapper := self_after o in
              (* Encode output audio to WAV *)
              match Wav.encode_wav_bytes (import_soundfile (os env))
                      output_samples sr with
              | Raise e => (Error 500 (message env e), ace_wrapper)
              | Ok output_wav =>
                  (Reply {| r_audio := b64encode env output_wav;
                            r_sample_rate := sr;
                            r_num_samples := Py.len output_samples;
                            r_duration_ms := duration_ms env;
                            r_model_used := is_loaded ace_wrapper;
                            r_model_type := model_type ace_wrapper |},
                   ace_wrapper)
              end
          end
      end
  end.

End Route.

(** ** [ace_bridge_server.py]: the scan of the command line at import time *)

Module Startup.

(** [_raw_device]: the loop over [enumerate(sys.argv)] that looks for
    ["--device"] followed by one more argument, and stops at the first. *)
Fixpoint raw_device (argv : list string) : string :=
  match argv with
  | [] => "cpu"
  | a :: rest =>
      match rest with
      | v :: _ => if String.eqb a "--device" then v else raw_device rest
      | [] => "cpu"
      end
  end%string.

(** [_raw_device not in ("mps", "auto")] *)
Definition disables_mps (argv : list string) : bool :=
  negb (String.eqb (raw_device argv) "mps"
        || String.eqb (raw_device argv) "auto").

(** [torch], when it could be imported, after the monkey-patch that
    replaces [torch.backends.mps.is_available] by [lambda: False]. *)
Definition torch_seen (argv : list string) (t : Loader.torch)
  : Loader.torch :=
  if disables_mps argv
  then {| Loader.mps_is_available := false;
          Loader.cuda_is_available := Loader.cuda_is_available t |}
  else t.

End Startup.

(** ** [generate_koenig_seed.py]: the frames handed to [writeframes] *)

Module SeedFile.

(** What [astype(np.int16)] makes of a NaN, an infinity or a value outside
    the 16-bit range: the C cast leaves it to the platform. *)
Class Cast : Type := { int16_of_wild : F32.t -> Z }.

Definition is_nan (x : F32.t) : bool :=
  match x with
  | S754_nan => true
  | _ => false
  end.

(** [np.maximum] and [np.minimum] on [float32]: a NaN on either side gives
    a NaN. *)
Definition np_maximum (x y : F32.t) : F32.t :=
  if is_nan x || is_nan y then S754_nan
  else if SFltb x y then y else x.

Definition np_minimum (x y : F32.t) : F32.t :=
  if is_nan x || is_nan y then S754_nan
  else if SFltb y x then y else x.

(** [np.clip(x, lo, hi)] *)
Definition np_clip (x lo hi : F32.t) : F32.t :=
  np_minimum (np_maximum x lo) hi.

(** [x * 32767] in [float32]. *)
Definition mul (x y : F32.t) : F32.t := SFmul F32.prec F32.emax x y.

(** [astype(np.int16)] of one value: truncation towards zero where the
    result fits. *)
Definition astype_int16 `{Cast} (x : F32.t) : Z :=
  match F64.to_int x with
  | Ok z => if (-32768 <=? z) && (z <=? 32767) then z else int16_of_wild x
  | Raise _ => int16_of_wild x
  end.

(** "Convert to 16-bit PCM" *)
Definition audio_int16 `{Cast} (audio : list F32.t) : list Z :=
  map (fun x =>
         astype_int16
           (mul (np_clip x (F32.of_int (-1)) (F32.of_int 1))
                (F32.of_int 32767)))
      audio.

(** [np.column_stack([a, a]).tobytes()]: left and right sample of every
    frame, each as two little-endian bytes in two's complement. *)
Definition stereo_bytes (a : list Z) : bytes :=
  concat (map (fun v => le_bytes 2 v ++ le_bytes 2 v) a).

(** The argument of [wav_file.writeframes]. *)
Definition frames `{Cast} (audio : list F32.t) : bytes :=
  stereo_bytes (audio_int16 audio).

End SeedFile.

(** ** More inputs used to run the definitions *)

Module Fixtures.

Local Open Scope byte_scope.

(** A [LIST] chunk and a [fact] chunk. *)
Definition list_chunk : bytes * bytes :=
  (["L"; "I"; "S"; "T"], ["I"; "N"; "F"; "O"; x00; x00; x00; x00;
                          x00; x00; x00; x00]).
Definition fact_chunk : bytes * bytes :=
  (["f"; "a"; "c"; "t"], [x01; x00; x00; x00]).

(** The four bytes of the [float32] sample [1.0]. *)
Definition one_le : bytes := [x00; x00; x80; x3f].

(** A float container as other encoders write it: a [LIST] chunk first, an
    18-byte [fmt ] chunk, a [fact] chunk, one sample, and an id3 tag after
    the samples. *)
Definition busy_container : bytes :=
  Riff.container 0 [list_chunk] 3 1 48000 0 0 32 [x00; x00] [fact_chunk]
    4 (one_le ++ ["i"; "d"; "3"; " "; x00; x00; x00; x00]).

(** A container whose [data] chunk comes first. *)
Definition data_first : bytes :=
  Riff.riff_header 0 ++ Wav.b_data ++ [x04; x00; x00; x00] ++ one_le
    ++ Riff.chunk Wav.b_fmt (Riff.fmt_fields 3 1 48000 192000 4 32).

(** A container cut off 8 bytes into the fields of its [fmt ] chunk. *)
Definition cut_in_fmt : bytes :=
  Riff.riff_header 0 ++ Riff.chunks [list_chunk]
    ++ Wav.b_fmt ++ [x10; x00; x00; x00]
    ++ [x03; x00; x01; x00; x80; xbb; x00; x00].

(** Two stereo frames of 16-bit samples. *)
Definition stereo_frames : bytes :=
  [x00; x40; x00; xc0; xff; x7f; x01; x80].

(** Two 24-bit samples. *)
Definition pcm24_pair : bytes := [x00; x00; x40; x00; x00; x80].

Local Close Scope byte_scope.

(** A machine without PyTorch. *)
Definition no_torch : Loader.load_env :=
  {| Loader.import_torch := Raise (ImportError "torch");
     Loader.import_acestep := Raise (ImportError "acestep");
     Loader.import_diffusers := Raise (ImportError "diffusers");
     Loader.str_of_exception := fun _ => "error"%string |}.

(** A machine without [soundfile]. *)
Definition bare_os : Wrapper.os_env :=
  {| Wrapper.import_soundfile := None;
     Wrapper.time_ms := 1700000000123;
     Wrapper.tempdir := "/tmp";
     Wrapper.makedirs := fun _ => Ok tt;
     Wrapper.path_exists := fun _ => true |}.

(** A stand-in for base64: the text of a byte string is the string of its
    bytes. *)
Definition plain_route_env : Route.route_env :=
  {| Route.os := bare_os;
     Route.b64decode := fun s => Ok (list_byte_of_string s);
     Route.b64encode := string_of_list_byte;
     Route.duration_ms := F64.dec 5 1;
     Route.str_of_exception := fun _ => "error"%string |}.

(** A request with nothing but the audio. *)
Definition audio_only (audio : string) : Route.body :=
  {| Route.b_audio := Some audio; Route.b_prompt := None;
     Route.b_guidance_scale := None; Route.b_num_steps := None;
     Route.b_seed := None; Route.b_input_strength := None;
     Route.b_audio_duration := None; Route.b_shift := None;
     Route.b_entropy := None; Route.b_granularity := None;
     Route.b_infer_method := None; Route.b_denoise_strength := None |}.

(** The container [encode_wav_bytes] writes for [[0.0, 0.25, -1.0]] at
    48000 Hz. *)
Definition buffer3_wav : bytes :=
  WavSpec.header44 48 3 1 48000 192000 4 32 12
    ++ np_tobytes Samples.buffer3.

(** A float container that declares 2^30 Hz. *)
Definition fast_wav : bytes :=
  WavSpec.header44 40 3 1 (2 ^ 30) 0 4 32 4 ++ one_le.

(** One call of [infer] on a loaded wrapper, at full denoise strength. *)
Definition served `{Numpy} : Wrapper.outcome :=
  Wrapper.run_engine Samples.stub_env
    (Samples.wrapper_with (Some Samples.good_engine) true)
    Samples.good_engine (Samples.args_with (F64.of_Z 1)) 20.

End Fixtures.

(* ================================================================== *)
(** * Part II: lemmas and theorems                                      *)
(* ================================================================== *)

(** ** Bytes and little-endian integers *)


Lemma Z_of_byte_range (b : byte) : 0 <= Z_of_byte b < 256.
Proof.
  unfold Z_of_byte. pose proof (Byte.to_N_bounded b). lia.
Qed.

Lemma Z_of_byte_of_Z (z : Z) : Z_of_byte (byte_of_Z z) = z mod 256.
Proof.
  unfold Z_of_byte, byte_of_Z.
  pose proof (Z.mod_pos_bound z 256 ltac:(lia)) as Hr.
  destruct (Byte.of_N (Z.to_N (z mod 256))) as [b|] eqn:E.
  - apply Byte.to_of_N in E. rewrite E. lia.
  - apply Byte.of_N_None_iff in E. lia.
Qed.

Lemma length_le_bytes (n : nat) (z : Z) : length (le_bytes n z) = n.
Proof. revert z; induction n; simpl; intros; [reflexivity | now rewrite IHn]. Qed.

Lemma le_int_le_bytes (n : nat) (z : Z) :
  0 <= z < 2 ^ (8 * Z.of_nat n) -> le_int (le_bytes n z) = z.
Proof.
  revert z. induction n as [|n IH]; intros z Hz.
  - simpl in *. lia.
  - cbn [le_bytes le_int]. rewrite Z_of_byte_of_Z.
    rewrite IH.
    + pose proof (Z.div_mod z 256 ltac:(lia)). lia.
    + replace (8 * Z.of_nat (S n)) with (8 + 8 * Z.of_nat n) in Hz by lia.
      rewrite Z.pow_add_r in Hz by lia.
      change (2 ^ 8) with 256 in Hz.
      split; [apply Z.div_pos; lia | apply Z.div_lt_upper_bound; lia].
Qed.

Lemma le_int_range (bs : bytes) : 0 <= le_int bs < 2 ^ (8 * Py.len bs).
Proof.
  unfold Py.len.
  induction bs as [|b t IH]; cbn [le_int length].
  - simpl. lia.
  - pose proof (Z_of_byte_range b).
    replace (8 * Z.of_nat (S (length t))) with (8 + 8 * Z.of_nat (length t)) by lia.
    rewrite Z.pow_add_r by lia. change (2 ^ 8) with 256. lia.
Qed.

Lemma digits2_pos_size (m : positive) : digits2_pos m = Pos.size m.
Proof. induction m; simpl; congruence. Qed.

Lemma digits2_bounds (m : positive) :
  2 ^ (Zpos (digits2_pos m) - 1) <= Zpos m < 2 ^ Zpos (digits2_pos m).
Proof.
  rewrite digits2_pos_size.
  pose proof (Pos.size_gt m) as Hgt. pose proof (Pos.size_le m) as Hle.
  assert (H2 : forall p, Zpos (2 ^ p)%positive = 2 ^ Zpos p).
  { intros p. rewrite Pos2Z.inj_pow. reflexivity. }
  split.
  - assert (Zpos (2 ^ Pos.size m) <= Zpos m~0) by (apply Pos2Z.pos_le_pos; exact Hle).
    rewrite H2 in H. 
    replace (Zpos (Pos.size m)) with (1 + (Zpos (Pos.size m) - 1)) in H by lia.
    rewrite Z.pow_add_r in H by lia. change (2 ^ 1) with 2 in H. lia.
  - rewrite <- H2. apply Pos2Z.pos_lt_pos. exact Hgt.
Qed.

Lemma f32_bounded_cases (m : positive) (e : Z) :
  bounded F32.prec F32.emax m e = true ->
  (2 ^ 23 <= Zpos m < 2 ^ 24 /\ -149 <= e <= 104) \/
  (Zpos m < 2 ^ 23 /\ e = -149).
Proof.
  unfold bounded, canonical_mantissa, fexp, emin, F32.prec, F32.emax.
  intros H. apply andb_true_iff in H. destruct H as [Hc He].
  apply Z.eqb_eq in Hc. apply Z.leb_le in He.
  pose proof (digits2_bounds m) as [Hlo Hhi].
  set (d := Zpos (digits2_pos m)) in *.
  assert (Hd : 1 <= d) by (unfold d; lia).
  destruct (Z.max_spec (d + e - 24) (3 - 128 - 24)) as [[Hlt Hm] | [Hge Hm]];
    rewrite Hm in Hc.
  - right. split; [|lia].
    assert (d <= 23) by lia.
    eapply Z.lt_le_trans; [exact Hhi|]. apply Z.pow_le_mono_r; lia.
  - assert (d = 24) by lia. left. rewrite H in *. 
    change (2 ^ (24 - 1)) with (2 ^ 23) in Hlo. lia.
Qed.

Lemma f32_of_to_bits (x : F32.t) :
  F32.valid x = true -> F32.of_bits (F32.to_bits x) = x.
Proof.
  destruct x as [s | s | | s m e]; intros Hv.
  - destruct s; reflexivity.
  - destruct s; reflexivity.
  - reflexivity.
  - apply f32_bounded_cases in Hv.
    unfold F32.to_bits.
    assert (Hs : forall k, 0 <= k < 2 ^ 31 -> (2 ^ 31 <=? F32.sign_bit s + k) = s).
    { intros k Hk. unfold F32.sign_bit. destruct s.
      - apply Z.leb_le. lia.
      - apply Z.leb_gt. lia. }
    assert (Hd : forall k, 0 <= k < 2 ^ 31 -> (F32.sign_bit s + k) / 2 ^ 23 mod 256 = k / 2 ^ 23).
    { intros k Hk. unfold F32.sign_bit. destruct s.
      - replace (2 ^ 31 + k) with (k + 256 * 2 ^ 23) by (change (2^31) with 2147483648; lia).
        rewrite Z.div_add by lia. rewrite Z.add_mod by lia.
        change (256 mod 256) with 0. rewrite Z.add_0_r, Z.mod_mod by lia.
        apply Z.mod_small. split; [apply Z.div_pos; lia|apply Z.div_lt_upper_bound; lia].
      - rewrite Z.add_0_l. apply Z.mod_small.
        split; [apply Z.div_pos; lia|apply Z.div_lt_upper_bound; lia]. }
    assert (Hm : forall k, 0 <= k -> (F32.sign_bit s + k) mod 2 ^ 23 = k mod 2 ^ 23).
    { intros k Hk. unfold F32.sign_bit. destruct s.
      - replace (2 ^ 31 + k) with (k + 256 * 2 ^ 23) by (change (2^31) with 2147483648; lia).
        apply Z.mod_add. lia.
      - reflexivity. }
    destruct Hv as [[[Hm1 Hm2] He] | [Hm1 He]].
    + assert (Hle : (2 ^ 23 <=? Zpos m) = true) by (apply Z.leb_le; lia).
      rewrite Hle. rewrite <- Z.add_assoc.
      set (k := (e + 150) * 2 ^ 23 + (Z.pos m - 2 ^ 23)).
      assert (Hk : 0 <= k < 2 ^ 31) by (unfold k; lia).
      unfold F32.of_bits. rewrite Hs, Hd, Hm by lia.
      assert (Hq : k / 2 ^ 23 = e + 150).
      { unfold k. rewrite Z.add_comm, Z.div_add by lia.
        rewrite Z.div_small by lia. lia. }
      assert (Hr : k mod 2 ^ 23 = Zpos m - 2 ^ 23).
      { unfold k. rewrite Z.add_comm, Z.mod_add by lia. apply Z.mod_small. lia. }
      rewrite Hq, Hr.
      destruct (e + 150 =? 0) eqn:E0; [apply Z.eqb_eq in E0; lia|].
      destruct (e + 150 =? 255) eqn:E1; [apply Z.eqb_eq in E1; lia|].
      replace (Z.pos m - 2 ^ 23 + 2 ^ 23) with (Zpos m) by lia.
      f_equal. lia.
    + assert (Hle : (2 ^ 23 <=? Zpos m) = false) by (apply Z.leb_gt; lia).
      rewrite Hle.
      assert (Hk : 0 <= Zpos m < 2 ^ 31) by lia.
      unfold F32.of_bits. rewrite Hs, Hd, Hm by lia.
      rewrite (Z.div_small (Zpos m)) by lia.
      rewrite (Z.mod_small (Zpos m)) by lia.
      simpl (0 =? 0). cbv iota. subst e. reflexivity.
Qed.

Lemma f32_to_bits_range (x : F32.t) :
  F32.valid x = true -> 0 <= F32.to_bits x < 2 ^ 32.
Proof.
  destruct x as [s | s | | s m e]; intros Hv.
  - destruct s; cbv; split; congruence.
  - destruct s; cbv; split; congruence.
  - cbv; split; congruence.
  - apply f32_bounded_cases in Hv. unfold F32.to_bits, F32.sign_bit.
    destruct Hv as [[[Hm1 Hm2] He] | [Hm1 He]].
    + assert (Hle : (2 ^ 23 <=? Zpos m) = true) by (apply Z.leb_le; lia).
      rewrite Hle. destruct s; lia.
    + assert (Hle : (2 ^ 23 <=? Zpos m) = false) by (apply Z.leb_gt; lia).
      rewrite Hle. destruct s; lia.
Qed.

(** ** Slices *)

Lemma slice_nonneg {A} (l : list A) (lo hi : Z) :
  0 <= lo <= hi ->
  Py.slice l lo hi = firstn (Z.to_nat (hi - lo)) (skipn (Z.to_nat lo) l).
Proof.
  intros H. unfold Py.slice, Py.clip, Py.len.
  set (n := Z.of_nat (length l)).
  assert (Hn : 0 <= n) by (unfold n; lia).
  destruct (lo <? 0) eqn:E1; [apply Z.ltb_lt in E1; lia|].
  destruct (hi <? 0) eqn:E2; [apply Z.ltb_lt in E2; lia|].
  destruct (Z_le_gt_dec lo n) as [Hlo | Hlo].
  - rewrite (Z.min_l lo n) by lia.
    destruct (Z_le_gt_dec hi n) as [Hhi | Hhi].
    + rewrite Z.min_l by lia. reflexivity.
    + rewrite Z.min_r by lia.
      rewrite !firstn_all2; try reflexivity;
        rewrite length_skipn; unfold n in *; lia.
  - rewrite !Z.min_r by lia. rewrite Z.sub_diag. simpl.
    rewrite skipn_all2 by (unfold n in *; lia). now rewrite firstn_nil.
Qed.

Lemma slice_from_nonneg {A} (l : list A) (lo : Z) :
  0 <= lo -> Py.slice_from l lo = skipn (Z.to_nat lo) l.
Proof.
  intros H. unfold Py.slice_from, Py.clip, Py.len.
  destruct (lo <? 0) eqn:E1; [apply Z.ltb_lt in E1; lia|].
  destruct (Z_le_gt_dec lo (Z.of_nat (length l))).
  - now rewrite Z.min_l by lia.
  - rewrite Z.min_r by lia. rewrite Nat2Z.id.
    rewrite skipn_all. rewrite skipn_all2 by lia. reflexivity.
Qed.

Lemma slice_length {A} (l : list A) (lo hi : Z) :
  0 <= lo <= hi -> hi <= Py.len l -> Py.len (Py.slice l lo hi) = hi - lo.
Proof.
  intros H Hl. rewrite slice_nonneg by lia. unfold Py.len in *.
  rewrite length_firstn, length_skipn. lia.
Qed.

Lemma bytes_eqb_eq (a b : bytes) : Wav.bytes_eqb a b = true <-> a = b.
Proof.
  revert b. induction a as [|x a IH]; destruct b as [|y b]; simpl;
    try (split; [discriminate | congruence]); try tauto.
  rewrite andb_true_iff, IH. split.
  - intros [H1 H2]. apply Byte.byte_dec_bl in H1. congruence.
  - intros H. injection H as -> ->. split; [apply Byte.byte_dec_lb|]; reflexivity.
Qed.

Lemma bytes_eqb_neq (a b : bytes) : Wav.bytes_eqb a b = false <-> a <> b.
Proof.
  rewrite <- bytes_eqb_eq. destruct (Wav.bytes_eqb a b); split; congruence.
Qed.

(** ** The chunk loop always ends *)

Lemma unpack_I_nonneg (bs : bytes) (v : Z) :
  Struct.unpack_I bs = Ok v -> 0 <= v.
Proof.
  unfold Struct.unpack_I. destruct (length bs =? 4)%nat; [|discriminate].
  intros H. injection H as <-. apply le_int_range.
Qed.

Lemma chunk_step_continue (w : bytes) (st st' : Wav.chunk_state) :
  Wav.chunk_step w st = Ok (Wav.Continue st') ->
  Wav.pos st + 8 <= Wav.pos st'.
Proof.
  unfold Wav.chunk_step.
  destruct (Struct.unpack_I _) as [sz|] eqn:Esz; cbn [bind]; [|discriminate].
  apply unpack_I_nonneg in Esz.
  destruct (Wav.bytes_eqb _ Wav.b_fmt).
  - destruct (Struct.unpack_HHIIHH _) as [[[[[[af ch] sr] br] ba] bits]|];
      cbn [bind]; [|discriminate].
    intros H. injection H as <-. cbn. lia.
  - destruct (Wav.bytes_eqb _ Wav.b_data); [discriminate|].
    intros H. injection H as <-. cbn. lia.
Qed.

Lemma chunk_loop_enough (w : bytes) (fuel : nat) (st : Wav.chunk_state) :
  (Z.to_nat (Py.len w - 8 - Wav.pos st) <= fuel)%nat ->
  exists r, Wav.chunk_loop fuel w st = Some r.
Proof.
  revert st. induction fuel as [|fuel IH]; intros st Hf; cbn [Wav.chunk_loop].
  - destruct (Wav.pos st <? Py.len w - 8) eqn:E; [|eauto].
    apply Z.ltb_lt in E. lia.
  - destruct (Wav.pos st <? Py.len w - 8) eqn:E; [|eauto].
    apply Z.ltb_lt in E.
    destruct (Wav.chunk_step w st) as [[st'|st']|e] eqn:Es; eauto.
    apply IH. apply chunk_step_continue in Es. lia.
Qed.

Lemma chunk_loop_more_fuel (w : bytes) (f f' : nat) (st : Wav.chunk_state) r :
  Wav.chunk_loop f w st = Some r -> (f <= f')%nat ->
  Wav.chunk_loop f' w st = Some r.
Proof.
  revert f' st. induction f as [|f IH]; intros f' st H Hle.
  - cbn [Wav.chunk_loop] in H.
    destruct f'; cbn [Wav.chunk_loop];
      destruct (Wav.pos st <? Py.len w - 8); congruence.
  - destruct f' as [|f']; [lia|]. cbn [Wav.chunk_loop] in *.
    destruct (Wav.pos st <? Py.len w - 8); [|exact H].
    destruct (Wav.chunk_step w st) as [[st'|st']|e]; try exact H.
    apply IH; [exact H | lia].
Qed.

Lemma walks_to_pos (w : bytes) (st : Wav.chunk_state) :
  WavSpec.walks_to w st -> 12 <= Wav.pos st.
Proof.
  induction 1 as [|st st' _ IH _ Hs].
  - simpl. lia.
  - apply chunk_step_continue in Hs. lia.
Qed.

(** The loop of [walk_chunks] never runs out of passes. *)
Lemma chunk_loop_terminates (w : bytes) :
  exists r, Wav.chunk_loop (length w) w Wav.init_state = Some r
            /\ Wav.walk_chunks w = r.
Proof.
  destruct (chunk_loop_enough w (length w) Wav.init_state) as [r Hr].
  - unfold Py.len. simpl. lia.
  - exists r. split; [exact Hr|]. unfold Wav.walk_chunks. now rewrite Hr.
Qed.

(** Running the loop from any state the walk passes through gives what
    running it from the start gives. *)
Lemma chunk_loop_from (w : bytes) (st : Wav.chunk_state) r :
  WavSpec.walks_to w st ->
  Wav.chunk_loop (length w) w st = Some r ->
  Wav.walk_chunks w = r.
Proof.
  intros Hw. revert r. induction Hw as [|st st' Hw IH Hc Hs]; intros r Hr.
  - unfold Wav.walk_chunks. now rewrite Hr.
  - apply IH.
    destruct (chunk_loop_enough w (length w) st) as [r0 Hr0].
    { apply walks_to_pos in Hw. unfold Py.len. lia. }
    rewrite Hr0. f_equal.
    assert (H1 : Wav.chunk_loop (S (length w)) w st = Some r0)
      by (eapply chunk_loop_more_fuel; [exact Hr0 | lia]).
    cbn [Wav.chunk_loop] in H1.
    apply Z.ltb_lt in Hc. rewrite Hc, Hs in H1. congruence.
Qed.

(** What the walk returns when it meets a [data] chunk. *)
Lemma walk_chunks_data (w : bytes) (st : Wav.chunk_state) (declared : Z) :
  WavSpec.data_chunk_at w st declared ->
  Wav.pos st + 8 < Py.len w ->
  Wav.walk_chunks w =
    Ok {| Wav.pos := Wav.pos st + 8; Wav.fmt_found := Wav.fmt_found st;
          Wav.data_bytes :=
            Py.slice w (Wav.pos st + 8) (Wav.pos st + 8 + declared);
          Wav.channels := Wav.channels st;
          Wav.sample_rate := Wav.sample_rate st;
          Wav.bits_per_sample := Wav.bits_per_sample st;
          Wav.audio_format := Wav.audio_format st |}.
Proof.
  intros (Hw & Hlen & Hid & Hsz) Hlt.
  apply (chunk_loop_from w st); [exact Hw|].
  pose proof (walks_to_pos w st Hw) as Hp.
  assert (Hl : exists n, length w = S n).
  { unfold Py.len in Hlt. destruct (length w); [lia | eauto]. }
  destruct Hl as [n Hn]. rewrite Hn. cbn [Wav.chunk_loop].
  assert (Hc : (Wav.pos st <? Py.len w - 8) = true) by (apply Z.ltb_lt; lia).
  rewrite Hc. unfold Wav.chunk_step.
  assert (Hu : Struct.unpack_I (Py.slice w (Wav.pos st + 4) (Wav.pos st + 8))
               = Ok declared).
  { unfold Struct.unpack_I.
    pose proof (slice_length w (Wav.pos st + 4) (Wav.pos st + 8)
                  ltac:(lia) ltac:(lia)) as Hsl.
    unfold Py.len in Hsl.
    assert (Hl4 : length (Py.slice w (Wav.pos st + 4) (Wav.pos st + 8)) = 4%nat) by lia.
    rewrite Hl4. simpl. now rewrite Hsz. }
  rewrite Hu. cbn [bind]. rewrite Hid.
  reflexivity.
Qed.

(** ** Containers with the 44-byte header *)

Lemma nil_or_not {A} (l : list A) : l = [] \/ l <> [].
Proof. destruct l; [left | right]; congruence. Qed.

Section Canonical.

Variables riff_size af ch sr br ba bits ds : Z.
Variable payload : bytes.

Hypothesis af_range : 0 <= af < 2 ^ 16.
Hypothesis ch_range : 0 <= ch < 2 ^ 16.
Hypothesis bits_range : 0 <= bits < 2 ^ 16.
Hypothesis sr_range : 0 <= sr < 2 ^ 32.
Hypothesis ds_range : 0 <= ds < 2 ^ 32.

Let w : bytes :=
  WavSpec.header44 riff_size af ch sr br ba bits ds ++ payload.

Lemma canonical_len : Py.len w = 44 + Py.len payload.
Proof.
  unfold Py.len, w. rewrite length_app.
  change (length (WavSpec.header44 riff_size af ch sr br ba bits ds))
    with 44%nat. lia.
Qed.

Lemma canonical_magic :
  Py.slice w 0 4 = Wav.b_RIFF /\ Py.slice w 8 12 = Wav.b_WAVE.
Proof. split; rewrite slice_nonneg by lia; reflexivity. Qed.

Lemma canonical_fmt_fields :
  Struct.unpack_HHIIHH (Py.slice w 20 36) =
    Ok (af, ch, sr, le_int (le_bytes 4 br), le_int (le_bytes 2 ba), bits).
Proof.
  rewrite slice_nonneg by lia.
  change (firstn (Z.to_nat (36 - 20)) (skipn (Z.to_nat 20) w))
    with (le_bytes 2 af ++ le_bytes 2 ch ++ le_bytes 4 sr ++ le_bytes 4 br
            ++ le_bytes 2 ba ++ le_bytes 2 bits).
  unfold Struct.unpack_HHIIHH.
  change (length _ =? 16)%nat with true. cbv iota.
  rewrite !slice_nonneg by lia.
  match goal with
  | |- Ok (le_int ?a, le_int ?b, le_int ?c, le_int ?d, le_int ?e, le_int ?f) = _ =>
      change a with (le_bytes 2 af); change b with (le_bytes 2 ch);
      change c with (le_bytes 4 sr); change d with (le_bytes 4 br);
      change e with (le_bytes 2 ba); change f with (le_bytes 2 bits)
  end.
  rewrite (le_int_le_bytes 2 af), (le_int_le_bytes 2 ch),
    (le_int_le_bytes 4 sr), (le_int_le_bytes 2 bits);
    try reflexivity; assumption.
Qed.

Definition after_fmt : Wav.chunk_state :=
  {| Wav.pos := 36; Wav.fmt_found := true; Wav.data_bytes := [];
     Wav.channels := ch; Wav.sample_rate := sr;
     Wav.bits_per_sample := bits; Wav.audio_format := af |}.

Lemma canonical_walks_to_data : WavSpec.data_chunk_at w after_fmt ds.
Proof.
  pose proof canonical_len as Hl.
  assert (Hp : 0 <= Py.len payload) by (unfold Py.len; lia).
  repeat split.
  - eapply WavSpec.walks_next;
      [apply WavSpec.walks_init | cbn [Wav.pos Wav.init_state]; lia |].
    unfold Wav.chunk_step. cbn [Wav.pos Wav.init_state].
    assert (Hu : Struct.unpack_I (Py.slice w (12 + 4) (12 + 8)) = Ok 16)
      by (rewrite slice_nonneg by lia; reflexivity).
    rewrite Hu. cbn [bind].
    assert (Hid : Py.slice w 12 (12 + 4) = Wav.b_fmt)
      by (rewrite slice_nonneg by lia; reflexivity).
    rewrite Hid. change (Wav.bytes_eqb Wav.b_fmt Wav.b_fmt) with true.
    cbv iota. change (12 + 8 + 16) with 36. change (12 + 8) with 20.
    rewrite canonical_fmt_fields. reflexivity.
  - cbn [Wav.pos after_fmt]. lia.
  - cbn [Wav.pos after_fmt]. rewrite slice_nonneg by lia. reflexivity.
  - cbn [Wav.pos after_fmt]. rewrite slice_nonneg by lia.
    change (firstn _ _) with (le_bytes 4 ds).
    apply le_int_le_bytes. assumption.
Qed.

Lemma canonical_walk :
  payload <> [] ->
  Wav.walk_chunks w =
    Ok {| Wav.pos := 44; Wav.fmt_found := true;
          Wav.data_bytes := firstn (Z.to_nat ds) payload;
          Wav.channels := ch; Wav.sample_rate := sr;
          Wav.bits_per_sample := bits; Wav.audio_format := af |}.
Proof.
  intros Hne.
  rewrite (walk_chunks_data w after_fmt ds canonical_walks_to_data).
  - cbn [Wav.pos after_fmt Wav.fmt_found Wav.channels Wav.sample_rate
           Wav.bits_per_sample Wav.audio_format].
    rewrite slice_nonneg by lia.
    replace (36 + 8 + ds - (36 + 8)) with ds by lia.
    reflexivity.
  - rewrite canonical_len. cbn [Wav.pos after_fmt]. unfold Py.len.
    destruct payload; [congruence | simpl length; lia].
Qed.

(** Without any payload the walk never reads the [data] header. *)
Lemma canonical_walk_empty :
  payload = [] -> Wav.walk_chunks w = Ok after_fmt.
Proof.
  intros He.
  destruct canonical_walks_to_data as (Hw & _).
  apply (chunk_loop_from w after_fmt); [exact Hw|].
  assert (Hc : (Wav.pos after_fmt <? Py.len w - 8) = false).
  { rewrite canonical_len, He. reflexivity. }
  destruct (length w); cbn [Wav.chunk_loop]; now rewrite Hc.
Qed.

Context `{Numpy}.

Lemma canonical_decode :
  Wav.decode_manual w =
    let d := firstn (Z.to_nat ds) payload in
    if (length d =? 0)%nat then Raise MissingChunk
    else
      (samples <- Wav.decode_samples af bits d ;;
       samples <- Wav.mix_to_mono ch samples ;;
       Ok (samples, sr)).
Proof.
  unfold Wav.decode_manual.
  assert (Hl : (Py.len w <? 44) = false).
  { apply Z.ltb_ge. rewrite canonical_len. unfold Py.len. lia. }
  rewrite Hl. destruct canonical_magic as [-> ->].
  change (negb (Wav.bytes_eqb Wav.b_RIFF Wav.b_RIFF)
          || negb (Wav.bytes_eqb Wav.b_WAVE Wav.b_WAVE)) with false.
  cbv iota.
  destruct (nil_or_not payload) as [He | Hne].
  - rewrite (canonical_walk_empty He). cbn [bind].
    rewrite He, firstn_nil. reflexivity.
  - rewrite (canonical_walk Hne). cbn [bind].
    reflexivity.
Qed.

End Canonical.

(** ** Arrays to bytes and back *)

Lemma length_np_tobytes (a : list F32.t) :
  length (np_tobytes a) = (4 * length a)%nat.
Proof.
  unfold np_tobytes. induction a as [|x a IH]; [reflexivity|].
  cbn [map concat]. rewrite length_app, IH, length_le_bytes.
  cbn [length]. lia.
Qed.

Lemma len_np_tobytes (a : list F32.t) : Py.len (np_tobytes a) = 4 * Py.len a.
Proof. unfold Py.len. rewrite length_np_tobytes. lia. Qed.

Lemma firstn_exact {A} (k : nat) (a b : list A) :
  length a = k -> firstn k (a ++ b) = a.
Proof.
  intros <-. rewrite firstn_app, Nat.sub_diag, firstn_all.
  cbn [firstn]. apply app_nil_r.
Qed.

Lemma skipn_exact {A} (k : nat) (a b : list A) :
  length a = k -> skipn k (a ++ b) = b.
Proof.
  intros <-. rewrite skipn_app, Nat.sub_diag, skipn_all. reflexivity.
Qed.

Lemma chunks_of_concat {A B} (k : nat) (f : A -> list B) (l : list A) :
  (forall x, length (f x) = k) ->
  chunks_of k (length l) (concat (map f l)) = map f l.
Proof.
  intros Hk. induction l as [|x l IH]; [reflexivity|].
  cbn [map concat length chunks_of].
  rewrite firstn_exact, skipn_exact by apply Hk.
  now rewrite IH.
Qed.

Lemma frombuffer_tobytes (a : list F32.t) :
  Forall (fun x => F32.valid x = true) a ->
  np_frombuffer 4 (fun b => F32.of_bits (le_int b)) (np_tobytes a) = Ok a.
Proof.
  intros Hv. unfold np_frombuffer.
  rewrite len_np_tobytes.
  replace (4 * Py.len a) with (Py.len a * Z.of_nat 4) by lia.
  rewrite Z.mod_mul by lia. cbn [Z.eqb].
  rewrite length_np_tobytes.
  replace (4 * length a / 4)%nat with (length a)
    by (rewrite Nat.mul_comm, Nat.div_mul; lia).
  unfold np_tobytes.
  pose proof (chunks_of_concat 4 (fun x => le_bytes 4 (F32.to_bits x)) a
                (fun x => length_le_bytes 4 _)) as E.
  f_equal.
  etransitivity; [apply f_equal; exact E|].
  rewrite map_map. clear E.
  induction Hv as [|x a Hx _ IH]; [reflexivity|].
  cbn [map]. rewrite IH. f_equal.
  rewrite le_int_le_bytes by (apply f32_to_bits_range; exact Hx).
  apply f32_of_to_bits. exact Hx.
Qed.

(** ** The encoder *)

Lemma pack_uint_ok (width : nat) (v : Z) :
  0 <= v < 2 ^ (8 * Z.of_nat width) ->
  Struct.pack_uint width v = Ok (le_bytes width v).
Proof.
  intros [H1 H2]. unfold Struct.pack_uint.
  apply Z.leb_le in H1. apply Z.ltb_lt in H2. now rewrite H1, H2.
Qed.

Lemma pack_uint_raises (width : nat) (v : Z) :
  v < 0 \/ 2 ^ (8 * Z.of_nat width) <= v ->
  Struct.pack_uint width v = Raise StructError.
Proof.
  intros H. unfold Struct.pack_uint.
  destruct (0 <=? v) eqn:E1; [|reflexivity].
  destruct (v <? 2 ^ (8 * Z.of_nat width)) eqn:E2; [|reflexivity].
  apply Z.leb_le in E1. apply Z.ltb_lt in E2. lia.
Qed.

Lemma pack_I_ok (v : Z) :
  0 <= v < 2 ^ 32 -> Struct.pack_uint 4 v = Ok (le_bytes 4 v).
Proof. exact (pack_uint_ok 4 v). Qed.

Lemma pack_H_ok (v : Z) :
  0 <= v < 2 ^ 16 -> Struct.pack_uint 2 v = Ok (le_bytes 2 v).
Proof. exact (pack_uint_ok 2 v). Qed.

Lemma encode_manual_ok (samples : list F32.t) (sample_rate : Z) :
  0 <= sample_rate -> sample_rate * 4 < 2 ^ 32 ->
  36 + 4 * Py.len samples < 2 ^ 32 ->
  Wav.encode_manual samples sample_rate =
    Ok (WavSpec.header44 (36 + 4 * Py.len samples) 3 1 sample_rate
          (sample_rate * 4) 4 32 (4 * Py.len samples)
        ++ np_tobytes samples).
Proof.
  intros Hr0 Hr1 Hn.
  assert (Hl : 0 <= Py.len samples) by (unfold Py.len; lia).
  unfold Wav.encode_manual. cbv zeta.
  rewrite len_np_tobytes.
  change (32 / 8) with 4.
  replace (sample_rate * 1 * 4) with (sample_rate * 4) by lia.
  cbn [Wav.pack Wav.pack_field Struct.pack_4s bind].
  unfold Struct.pack_I, Struct.pack_H.
  rewrite (pack_I_ok (36 + 4 * Py.len samples)) by lia.
  rewrite (pack_I_ok 16) by lia.
  rewrite (pack_H_ok 3) by lia.
  rewrite (pack_H_ok 1) by lia.
  rewrite (pack_I_ok sample_rate) by lia.
  rewrite (pack_I_ok (sample_rate * 4)) by lia.
  rewrite (pack_H_ok (1 * 4)) by lia.
  rewrite (pack_H_ok 32) by lia.
  rewrite (pack_I_ok (4 * Py.len samples)) by lia.
  cbn [bind]. reflexivity.
Qed.


(** A buffer of [2^30] samples: its payload does not fit the size fields. *)
Lemma encode_huge_buffer :
  Wav.encode_wav_bytes None (repeat F32.zero (Z.to_nat (2 ^ 30))) 48000
  = Raise StructError.
Proof.
  cbn [Wav.encode_wav_bytes]. unfold Wav.encode_manual. cbv zeta.
  rewrite len_np_tobytes. unfold Py.len. rewrite repeat_length.
  rewrite Z2Nat.id by lia.
  cbn [Wav.pack Wav.pack_field Struct.pack_4s bind].
  unfold Struct.pack_I.
  rewrite (pack_uint_raises 4 (36 + 4 * 2 ^ 30))
    by (right; change (8 * Z.of_nat 4) with 32; lia).
  reflexivity.
Qed.

(** ** Tolerance *)

Lemma within_tol_refl (tol : Q) (x : spec_float) :
  (0 <= tol)%Q -> F32.is_finite x = true -> within_tol tol x x.
Proof.
  intros Ht Hf. unfold within_tol.
  destruct (SF2Q x) as [q|] eqn:E.
  - assert (Hz : (q - q == 0)%Q) by ring.
    rewrite Hz. exact Ht.
  - destruct x; simpl in *; discriminate.
Qed.

Lemma within_tol_all_refl (tol : Q) (l : list F32.t) :
  (0 <= tol)%Q -> Forall (fun x => F32.is_finite x = true) l ->
  Forall2 (within_tol tol) l l.
Proof.
  intros Ht H. induction H; constructor; auto using within_tol_refl.
Qed.

Section RoundTrip.

Context `{Numpy}.

Lemma roundtrip_manual (B : list F32.t) (r : Z) :
  B <> [] ->
  Forall (fun x => F32.valid x = true) B ->
  0 <= r < 2 ^ 30 ->
  36 + 4 * Py.len B < 2 ^ 32 ->
  exists w, Wav.encode_wav_bytes None B r = Ok w
            /\ Wav.decode_wav_bytes None w = Ok (B, r).
Proof.
  intros Hne Hv Hr Hn.
  assert (Hl : 0 <= Py.len B) by (unfold Py.len; lia).
  cbn [Wav.encode_wav_bytes Wav.decode_wav_bytes].
  rewrite encode_manual_ok by lia.
  eexists. split; [reflexivity|].
  rewrite canonical_decode by lia.
  cbv zeta.
  assert (Hd : firstn (Z.to_nat (4 * Py.len B)) (np_tobytes B) = np_tobytes B).
  { apply firstn_all2. rewrite length_np_tobytes. unfold Py.len. lia. }
  rewrite Hd.
  assert (Hz : (length (np_tobytes B) =? 0)%nat = false).
  { apply Nat.eqb_neq. rewrite length_np_tobytes.
    destruct B; [congruence | simpl; lia]. }
  rewrite Hz.
  unfold Wav.decode_samples. cbn [Z.eqb Pos.eqb andb].
  rewrite frombuffer_tobytes by exact Hv.
  reflexivity.
Qed.

End RoundTrip.

(** ** The manual parser, step by step *)

Section Decode.

Context `{Numpy}.



Lemma decode_manual_walk (w : bytes) (st : Wav.chunk_state) :
  44 <= Py.len w ->
  Py.slice w 0 4 = Wav.b_RIFF -> Py.slice w 8 12 = Wav.b_WAVE ->
  Wav.walk_chunks w = Ok st ->
  Wav.fmt_found st = true -> Wav.data_bytes st <> [] ->
  Wav.decode_manual w =
    (samples <- Wav.decode_samples (Wav.audio_format st)
                  (Wav.bits_per_sample st) (Wav.data_bytes st) ;;
     samples <- Wav.mix_to_mono (Wav.channels st) samples ;;
     Ok (samples, Wav.sample_rate st)).
Proof.
  intros Hl Hr Hw Hs Hf Hd. unfold Wav.decode_manual.
  apply Z.ltb_ge in Hl. rewrite Hl, Hr, Hw, Hs.
  change (negb (Wav.bytes_eqb Wav.b_RIFF Wav.b_RIFF)
          || negb (Wav.bytes_eqb Wav.b_WAVE Wav.b_WAVE)) with false.
  cbn [bind]. rewrite Hf.
  destruct (Wav.data_bytes st); [congruence | reflexivity].
Qed.

End Decode.

(** ** Sample formats: the code against the specification's formulas *)

Lemma chunks_of_index {A} (k n : nat) (l : list A) :
  chunks_of k n l = map (fun i => firstn k (skipn (k * i) l)) (seq 0 n).
Proof.
  revert l. induction n as [|n IH]; intros l; [reflexivity|].
  cbn [chunks_of seq map]. rewrite Nat.mul_0_r. cbn [skipn]. f_equal.
  rewrite IH, <- seq_shift, map_map.
  apply map_ext. intros i. rewrite skipn_skipn. do 2 f_equal. lia.
Qed.

Lemma nth_skipn_add {A} (p j : nat) (l : list A) (d : A) :
  nth j (skipn p l) d = nth (p + j) l d.
Proof.
  revert l. induction p as [|p IH]; intros l; [reflexivity|].
  destruct l as [|x l]; [now destruct j | apply IH].
Qed.

Lemma le_int_firstn2 (l : bytes) :
  (2 <= length l)%nat ->
  le_int (firstn 2 l) = Z_of_byte (nth 0 l x00) + 2 ^ 8 * Z_of_byte (nth 1 l x00).
Proof.
  destruct l as [|a [|b l]]; cbn [length]; try lia. intros _.
  cbn [firstn le_int nth]. lia.
Qed.

Lemma le_int_firstn3 (l : bytes) :
  (3 <= length l)%nat ->
  le_int (firstn 3 l) =
    Z_of_byte (nth 0 l x00) + 2 ^ 8 * Z_of_byte (nth 1 l x00)
    + 2 ^ 16 * Z_of_byte (nth 2 l x00).
Proof.
  destruct l as [|a [|b [|c l]]]; cbn [length]; try lia. intros _.
  cbn [firstn le_int nth]. lia.
Qed.

Lemma le_int_firstn4 (l : bytes) :
  (4 <= length l)%nat ->
  le_int (firstn 4 l) =
    Z_of_byte (nth 0 l x00) + 2 ^ 8 * Z_of_byte (nth 1 l x00)
    + 2 ^ 16 * Z_of_byte (nth 2 l x00) + 2 ^ 24 * Z_of_byte (nth 3 l x00).
Proof.
  destruct l as [|a [|b [|c [|d l]]]]; cbn [length]; try lia. intros _.
  cbn [firstn le_int nth]. lia.
Qed.

Lemma byte_at_skipn (d : bytes) (p j : nat) (z : Z) :
  z = Z.of_nat p + Z.of_nat j ->
  Z_of_byte (nth j (skipn p d) x00) = WavSpec.byte_at d z.
Proof.
  intros ->. unfold WavSpec.byte_at. rewrite nth_skipn_add.
  do 2 f_equal. lia.
Qed.

Lemma le_int_signed_extend (k : nat) (bs : bytes) :
  length bs = S k ->
  le_int_signed bs = WavSpec.sign_extend (8 * Z.of_nat (S k)) (le_int bs).
Proof.
  intros Hl. unfold le_int_signed, WavSpec.sign_extend, Py.len. rewrite Hl.
  assert (E : (0 <? 8 * Z.of_nat (S k)) = true) by (apply Z.ltb_lt; lia).
  rewrite E. cbn [andb].
  destruct (2 ^ (8 * Z.of_nat (S k) - 1) <=? le_int bs) eqn:E1;
    destruct (le_int bs <? 2 ^ (8 * Z.of_nat (S k) - 1)) eqn:E2;
    try reflexivity.
  - apply Z.leb_le in E1. apply Z.ltb_lt in E2. lia.
  - apply Z.leb_gt in E1. apply Z.ltb_ge in E2. lia.
Qed.

(** Positions inside the payload, for an item of [k] bytes. *)
Lemma item_in_range (k n i : nat) :
  (0 < k)%nat -> (i < n / k)%nat -> (k * i + k <= n)%nat.
Proof.
  intros Hk Hi.
  pose proof (Nat.div_mod_eq n k). pose proof (Nat.mod_upper_bound n k).
  nia.
Qed.

Lemma range_as_seq (n : nat) : Py.range (Z.of_nat n) = map Z.of_nat (seq 0 n).
Proof. unfold Py.range. now rewrite Nat2Z.id. Qed.

Lemma len_div (k : nat) (d : bytes) :
  (0 < k)%nat -> Py.len d / Z.of_nat k = Z.of_nat (length d / k).
Proof. intros Hk. unfold Py.len. now rewrite Nat2Z.inj_div. Qed.

Lemma decode_samples_float32 (d : bytes) :
  Wav.decode_samples 3 32 d = WavSpec.samples_by_format 3 32 d.
Proof.
  unfold Wav.decode_samples, WavSpec.samples_by_format, np_frombuffer.
  cbn [Z.eqb Pos.eqb andb]. change (Z.of_nat 4) with 4.
  destruct (Py.len d mod 4 =? 0); [|reflexivity]. f_equal.
  unfold WavSpec.float32_samples.
  rewrite (len_div 4 d ltac:(lia) : Py.len d / 4 = _). rewrite range_as_seq.
  rewrite chunks_of_index, !map_map.
  apply map_ext_in. intros i Hi. apply in_seq in Hi.
  pose proof (item_in_range 4 (length d) i ltac:(lia) ltac:(lia)) as Hb.
  rewrite le_int_firstn4 by (rewrite length_skipn; lia).
  rewrite (byte_at_skipn d (4 * i) 0 (4 * Z.of_nat i)) by lia.
  rewrite (byte_at_skipn d (4 * i) 1 (4 * Z.of_nat i + 1)) by lia.
  rewrite (byte_at_skipn d (4 * i) 2 (4 * Z.of_nat i + 2)) by lia.
  rewrite (byte_at_skipn d (4 * i) 3 (4 * Z.of_nat i + 3)) by lia.
  reflexivity.
Qed.

Lemma decode_samples_pcm16 (d : bytes) :
  Wav.decode_samples 1 16 d = WavSpec.samples_by_format 1 16 d.
Proof.
  unfold Wav.decode_samples, WavSpec.samples_by_format, np_frombuffer.
  cbn [Z.eqb Pos.eqb andb]. change (Z.of_nat 2) with 2.
  destruct (Py.len d mod 2 =? 0); [|reflexivity]. cbn [bind]. f_equal.
  unfold WavSpec.pcm16_samples, Wav.f32_32768.
  rewrite (len_div 2 d ltac:(lia) : Py.len d / 2 = _). rewrite range_as_seq.
  rewrite chunks_of_index, !map_map.
  apply map_ext_in. intros i Hi. apply in_seq in Hi.
  pose proof (item_in_range 2 (length d) i ltac:(lia) ltac:(lia)) as Hb.
  rewrite (le_int_signed_extend 1)
    by (rewrite length_firstn, length_skipn; lia).
  rewrite le_int_firstn2 by (rewrite length_skipn; lia).
  rewrite (byte_at_skipn d (2 * i) 0 (2 * Z.of_nat i)) by lia.
  rewrite (byte_at_skipn d (2 * i) 1 (2 * Z.of_nat i + 1)) by lia.
  reflexivity.
Qed.

Lemma decode_samples_pcm24 (d : bytes) :
  Wav.decode_samples 1 24 d = WavSpec.samples_by_format 1 24 d.
Proof.
  unfold Wav.decode_samples, WavSpec.samples_by_format.
  cbn [Z.eqb Pos.eqb andb]. f_equal.
  unfold WavSpec.pcm24_samples.
  rewrite (len_div 3 d ltac:(lia) : Py.len d / 3 = _). rewrite range_as_seq, !map_map.
  apply map_ext_in. intros i Hi. apply in_seq in Hi.
  pose proof (item_in_range 3 (length d) i ltac:(lia) ltac:(lia)) as Hb.
  rewrite slice_nonneg by lia.
  replace (Z.to_nat ((Z.of_nat i + 1) * 3 - Z.of_nat i * 3)) with 3%nat by lia.
  replace (Z.to_nat (Z.of_nat i * 3)) with (3 * i)%nat by lia.
  rewrite (le_int_signed_extend 2)
    by (rewrite length_firstn, length_skipn; lia).
  rewrite le_int_firstn3 by (rewrite length_skipn; lia).
  rewrite (byte_at_skipn d (3 * i) 0 (3 * Z.of_nat i)) by lia.
  rewrite (byte_at_skipn d (3 * i) 1 (3 * Z.of_nat i + 1)) by lia.
  rewrite (byte_at_skipn d (3 * i) 2 (3 * Z.of_nat i + 2)) by lia.
  reflexivity.
Qed.

Lemma samples_by_format_other (af bits : Z) (d : bytes) :
  (af, bits) <> (3, 32) -> (af, bits) <> (1, 16) -> (af, bits) <> (1, 24) ->
  WavSpec.samples_by_format af bits d = Raise (UnsupportedFormat af bits).
Proof.
  intros H1 H2 H3. unfold WavSpec.samples_by_format.
  repeat match goal with
         | |- match ?x with _ => _ end = _ => destruct x; try reflexivity
         end; congruence.
Qed.

Lemma decode_samples_spec (af bits : Z) (d : bytes) :
  Wav.decode_samples af bits d = WavSpec.samples_by_format af bits d.
Proof.
  destruct (Z.eq_dec af 3) as [-> | A3]; [destruct (Z.eq_dec bits 32) as [-> | B32]|].
  - apply decode_samples_float32.
  - rewrite samples_by_format_other by congruence.
    unfold Wav.decode_samples. apply Z.eqb_neq in B32. rewrite B32. reflexivity.
  - destruct (Z.eq_dec af 1) as [-> | A1].
    + destruct (Z.eq_dec bits 16) as [-> | B16]; [apply decode_samples_pcm16|].
      destruct (Z.eq_dec bits 24) as [-> | B24]; [apply decode_samples_pcm24|].
      rewrite samples_by_format_other by congruence.
      unfold Wav.decode_samples. apply Z.eqb_neq in B16, B24.
      rewrite B16, B24. reflexivity.
    + rewrite samples_by_format_other by congruence.
      unfold Wav.decode_samples. apply Z.eqb_neq in A3, A1.
      rewrite A3, A1. reflexivity.
Qed.

(** ** Lengths of what the decoder returns *)

Lemma len_range (n : Z) : Py.len (Py.range n) = Z.max 0 n.
Proof. unfold Py.len, Py.range. rewrite length_map, length_seq. lia. Qed.

Lemma samples_by_format_len (af bits : Z) (d : bytes) (s : list F32.t) :
  WavSpec.samples_by_format af bits d = Ok s ->
  Py.len s * (bits / 8) <= Py.len d.
Proof.
  assert (Hd : 0 <= Py.len d) by (unfold Py.len; lia).
  destruct (Z.eq_dec af 3) as [-> | A3];
    [destruct (Z.eq_dec bits 32) as [-> | B32]|].
  - cbn [WavSpec.samples_by_format].
    destruct (Py.len d mod 4 =? 0); [|discriminate].
    intros E. injection E as <-. unfold WavSpec.float32_samples.
    unfold Py.len at 1. rewrite length_map. fold (Py.len (Py.range (Py.len d / 4))).
    rewrite len_range. change (32 / 8) with 4.
    pose proof (Z.mul_div_le (Py.len d) 4 ltac:(lia)).
    pose proof (Z.div_pos (Py.len d) 4 Hd ltac:(lia)). lia.
  - rewrite samples_by_format_other by congruence. discriminate.
  - destruct (Z.eq_dec af 1) as [-> | A1].
    + destruct (Z.eq_dec bits 16) as [-> | B16].
      { cbn [WavSpec.samples_by_format].
        destruct (Py.len d mod 2 =? 0); [|discriminate].
        intros E. injection E as <-. unfold WavSpec.pcm16_samples.
        unfold Py.len at 1. rewrite length_map.
        fold (Py.len (Py.range (Py.len d / 2))).
        rewrite len_range. change (16 / 8) with 2.
        pose proof (Z.mul_div_le (Py.len d) 2 ltac:(lia)).
        pose proof (Z.div_pos (Py.len d) 2 Hd ltac:(lia)). lia. }
      destruct (Z.eq_dec bits 24) as [-> | B24].
      { cbn [WavSpec.samples_by_format].
        intros E. injection E as <-. unfold WavSpec.pcm24_samples.
        unfold Py.len at 1. rewrite length_map.
        fold (Py.len (Py.range (Py.len d / 3))).
        rewrite len_range. change (24 / 8) with 3.
        pose proof (Z.mul_div_le (Py.len d) 3 ltac:(lia)).
        pose proof (Z.div_pos (Py.len d) 3 Hd ltac:(lia)). lia. }
      rewrite samples_by_format_other by congruence. discriminate.
    + rewrite samples_by_format_other by congruence. discriminate.
Qed.

Lemma samples_by_format_error (af bits : Z) (d : bytes) (e : exn) :
  WavSpec.samples_by_format af bits d = Raise e ->
  e = BufferSizeError \/ e = UnsupportedFormat af bits.
Proof.
  destruct (Z.eq_dec af 3) as [-> | A3];
    [destruct (Z.eq_dec bits 32) as [-> | B32]|].
  - cbn [WavSpec.samples_by_format].
    destruct (Py.len d mod 4 =? 0); intros E; [discriminate|].
    injection E as <-. now left.
  - rewrite samples_by_format_other by congruence.
    intros E. injection E as <-. now right.
  - destruct (Z.eq_dec af 1) as [-> | A1].
    + destruct (Z.eq_dec bits 16) as [-> | B16].
      { cbn [WavSpec.samples_by_format].
        destruct (Py.len d mod 2 =? 0); intros E; [discriminate|].
        injection E as <-. now left. }
      destruct (Z.eq_dec bits 24) as [-> | B24]; [discriminate|].
      rewrite samples_by_format_other by congruence.
      intros E. injection E as <-. now right.
    + rewrite samples_by_format_other by congruence.
      intros E. injection E as <-. now right.
Qed.

Lemma length_chunks_of {A} (k n : nat) (l : list A) :
  length (chunks_of k n l) = n.
Proof. revert l. induction n; intros; cbn; [reflexivity | now rewrite IHn]. Qed.

Section Mix.

Context `{Numpy}.

Lemma mix_to_mono_len (ch : Z) (s s' : list F32.t) :
  Wav.mix_to_mono ch s = Ok s' -> Py.len s' * Z.max 1 ch <= Py.len s.
Proof.
  assert (Hs : 0 <= Py.len s) by (unfold Py.len; lia).
  unfold Wav.mix_to_mono, reshape_rows, mean_axis1.
  destruct (1 <? ch) eqn:E.
  - apply Z.ltb_lt in E.
    destruct (Py.len s mod ch =? 0); cbn [bind]; [|discriminate].
    intros E'. injection E' as <-.
    unfold Py.len at 1. rewrite length_map, length_chunks_of.
    rewrite Z2Nat.id by (apply Z.div_pos; lia).
    rewrite Z.max_r by lia.
    pose proof (Z.mul_div_le (Py.len s) ch ltac:(lia)). lia.
  - apply Z.ltb_ge in E. intros E'. injection E' as <-. lia.
Qed.

Lemma mix_to_mono_error (ch : Z) (s : list F32.t) (e : exn) :
  Wav.mix_to_mono ch s = Raise e -> e = ReshapeError.
Proof.
  unfold Wav.mix_to_mono, reshape_rows.
  destruct (1 <? ch); [|discriminate].
  destruct (Py.len s mod ch =? 0); cbn [bind]; [discriminate|].
  intros E. now injection E as <-.
Qed.

End Mix.

(** ** The layout of the 44-byte header *)

Lemma header44_layout (sr n : Z) (payload : bytes) :
  0 <= sr -> sr * 4 < 2 ^ 32 -> 0 <= n -> 36 + n < 2 ^ 32 ->
  Py.len payload = n ->
  WavSpec.float_wav_layout
    (WavSpec.header44 (36 + n) 3 1 sr (sr * 4) 4 32 n ++ payload) sr n.
Proof.
  intros Hs0 Hs1 Hn0 Hn1 Hp. unfold WavSpec.float_wav_layout.
  rewrite !slice_nonneg by lia.
  repeat match goal with
         | |- _ /\ _ => split
         end; try reflexivity.
  - change (firstn _ _) with (le_bytes 4 (36 + n)).
    apply le_int_le_bytes. change (8 * Z.of_nat 4) with 32. lia.
  - change (firstn _ _) with (le_bytes 4 sr).
    apply le_int_le_bytes. change (8 * Z.of_nat 4) with 32. lia.
  - change (firstn _ _) with (le_bytes 4 (sr * 4)).
    apply le_int_le_bytes. change (8 * Z.of_nat 4) with 32. lia.
  - change (firstn _ _) with (le_bytes 4 n).
    apply le_int_le_bytes. change (8 * Z.of_nat 4) with 32. lia.
  - rewrite canonical_len. lia.
Qed.

(* ================================================================== *)
(** * The WAV codec                                                     *)
(* ================================================================== *)





(** C8, as the code has it: for a sample rate [0 <= r < 2^30] and a buffer
    whose payload fits the 32-bit size fields ([36 + 4 * n < 2^32]), the
    manual encoder succeeds and its output is [RIFF], the RIFF size
    [36 + dataBytes], [WAVE], a [fmt ] chunk of declared size 16 with audio
    format 3, 1 channel, the sample rate, byte rate [4 * r], block align 4
    and 32 bits per sample, then [data] with size [dataBytes = 4 * n],
    followed by the samples. *)
Theorem encode_layout (samples : list F32.t) (sample_rate : Z) :
  0 <= sample_rate < 2 ^ 30 ->
  36 + 4 * Py.len samples < 2 ^ 32 ->
  exists out,
    Wav.encode_wav_bytes None samples sample_rate = Ok out
    /\ WavSpec.float_wav_layout out sample_rate (4 * Py.len samples)
    /\ Py.slice_from out 44 = np_tobytes samples.
Proof.
  intros Hr Hn.
  assert (Hl : 0 <= Py.len samples) by (unfold Py.len; lia).
  cbn [Wav.encode_wav_bytes]. rewrite encode_manual_ok by lia.
  eexists. split; [reflexivity|]. split.
  - apply header44_layout; try lia. apply len_np_tobytes.
  - rewrite slice_from_nonneg by lia. reflexivity.
Qed.

Lemma encode_layout_witness :
  exists out,
    Wav.encode_wav_bytes None Samples.buffer3 48000 = Ok out
    /\ WavSpec.float_wav_layout out 48000 12
    /\ Py.slice_from out 44 = np_tobytes Samples.buffer3.
Proof.
  apply (encode_layout Samples.buffer3 48000); vm_compute; split; congruence.
Defined.

(** C8 as stated fails: a sample rate of [2^30] makes the byte rate [2^32],
    which [struct.pack] refuses for an [I] field; so does a negative sample
    rate; and so does a buffer of [2^30] samples, whose RIFF size does not
    fit its field. *)
Lemma encode_raises_on_wide_fields :
  Wav.encode_wav_bytes None [F32.zero] (2 ^ 30) = Raise StructError
  /\ Wav.encode_wav_bytes None Samples.buffer3 (-1) = Raise StructError
  /\ Wav.encode_wav_bytes None (repeat F32.zero (Z.to_nat (2 ^ 30))) 48000
     = Raise StructError.
Proof.
  split; [vm_compute; reflexivity|].
  split; [vm_compute; reflexivity | exact encode_huge_buffer].
Qed.

(** C1, as the code has it: for every non-empty buffer of finite [float32]
    samples whose payload fits the 32-bit size fields and every sample rate
    [0 <= r < 2^30], decoding the encoding returns the very same samples
    (hence within the 1e-5 tolerance) and the sample rate [r]. *)
Theorem roundtrip_float32 `{Numpy} (B : list F32.t) (r : Z) :
  B <> [] ->
  Forall (fun x => F32.valid x = true /\ F32.is_finite x = true) B ->
  0 <= r < 2 ^ 30 ->
  36 + 4 * Py.len B < 2 ^ 32 ->
  exists w B',
    Wav.encode_wav_bytes None B r = Ok w
    /\ Wav.decode_wav_bytes None w = Ok (B', r)
    /\ B' = B
    /\ Forall2 (within_tol tol_1e5) B' B.
Proof.
  intros Hne Hv Hr Hn.
  destruct (roundtrip_manual B r Hne) as (w & He & Hd); try assumption.
  { eapply Forall_impl; [|exact Hv]. now intros x [Hx _]. }
  exists w, B. repeat split; try assumption.
  apply within_tol_all_refl; [discriminate|].
  eapply Forall_impl; [|exact Hv]. now intros x [_ Hx].
Qed.

Lemma roundtrip_float32_witness :
  exists w B',
    Wav.encode_wav_bytes None Samples.buffer3 48000 = Ok w
    /\ @Wav.decode_wav_bytes Samples.sequential_mean None w = Ok (B', 48000)
    /\ B' = Samples.buffer3
    /\ Forall2 (within_tol tol_1e5) B' Samples.buffer3.
Proof.
  apply (@roundtrip_float32 Samples.sequential_mean Samples.buffer3 48000).
  - discriminate.
  - repeat constructor.
  - vm_compute. split; congruence.
  - vm_compute. reflexivity.
Defined.

(** C1 as stated fails: the encoding of the empty buffer is a 44-byte
    container that the decoder rejects ("Missing fmt or data chunk in
    WAV"); the encoder itself raises at the sample rate [2^30]; and it
    raises on a buffer of [2^30] samples. *)
Lemma roundtrip_fails_on_empty_buffer :
  (exists w, Wav.encode_wav_bytes None [] 48000 = Ok w
             /\ Py.len w = 44
             /\ @Wav.decode_wav_bytes Samples.sequential_mean None w
                = Raise MissingChunk)
  /\ (w <- Wav.encode_wav_bytes None Samples.buffer3 (2 ^ 30) ;;
      @Wav.decode_wav_bytes Samples.sequential_mean None w)
     = Raise StructError
  /\ (w <- Wav.encode_wav_bytes None
             (repeat F32.zero (Z.to_nat (2 ^ 30))) 48000 ;;
      @Wav.decode_wav_bytes Samples.sequential_mean None w)
     = Raise StructError.
Proof.
  split; [|split].
  - eexists. split; [vm_compute; reflexivity|].
    split; vm_compute; reflexivity.
  - vm_compute. reflexivity.
  - rewrite encode_huge_buffer. reflexivity.
Qed.

(** C9, as the code has it: in a container (at least 44 bytes, magic bytes
    present) whose chunk walk has seen a [fmt ] chunk and meets a [data]
    chunk that declares more bytes than the [avail >= 1] bytes left after
    its header, the declared size is never compared with what is there:
    no container error is raised, the payload is the [avail] bytes that are
    present, sample decoding runs on them, and what is returned accounts
    for at most [avail] bytes, fewer than declared. *)
Theorem decode_truncated_data `{Numpy} (w : bytes) (st : Wav.chunk_state)
        (declared : Z) :
  44 <= Py.len w ->
  Py.slice w 0 4 = Wav.b_RIFF -> Py.slice w 8 12 = Wav.b_WAVE ->
  WavSpec.data_chunk_at w st declared ->
  Wav.fmt_found st = true ->
  1 <= Py.len w - (Wav.pos st + 8) < declared ->
  let present := Py.slice_from w (Wav.pos st + 8) in
  Py.len present = Py.len w - (Wav.pos st + 8)
  /\ Wav.decode_wav_bytes None w =
       (samples <- Wav.decode_samples (Wav.audio_format st)
                     (Wav.bits_per_sample st) present ;;
        samples <- Wav.mix_to_mono (Wav.channels st) samples ;;
        Ok (samples, Wav.sample_rate st))
  /\ (forall e, Wav.decode_wav_bytes None w = Raise e ->
                ~ WavSpec.container_error e)
  /\ (forall samples r, Wav.decode_wav_bytes None w = Ok (samples, r) ->
        r = Wav.sample_rate st
        /\ Py.len samples
           * WavSpec.bytes_per_frame (Wav.bits_per_sample st) (Wav.channels st)
           <= Py.len w - (Wav.pos st + 8)).
Proof.
  intros Hl Hr Hw Hdc Hf Ha present.
  pose proof Hdc as (Hwalk & _).
  pose proof (walks_to_pos w st Hwalk) as Hp.
  assert (Hlen : Py.len present = Py.len w - (Wav.pos st + 8)).
  { unfold present. rewrite slice_from_nonneg by lia.
    unfold Py.len in *. rewrite length_skipn. lia. }
  assert (Hsl : Py.slice w (Wav.pos st + 8) (Wav.pos st + 8 + declared)
                = present).
  { unfold present. rewrite slice_nonneg, slice_from_nonneg by lia.
    apply firstn_all2. rewrite length_skipn. unfold Py.len in *. lia. }
  assert (Hne : present <> []).
  { intros E. rewrite E in Hlen. unfold Py.len in Hlen at 1.
    simpl in Hlen. lia. }
  assert (E : Wav.decode_wav_bytes None w =
       (samples <- Wav.decode_samples (Wav.audio_format st)
                     (Wav.bits_per_sample st) present ;;
        samples <- Wav.mix_to_mono (Wav.channels st) samples ;;
        Ok (samples, Wav.sample_rate st))).
  { cbn [Wav.decode_wav_bytes].
    pose proof (walk_chunks_data w st declared Hdc ltac:(lia)) as Hwk.
    rewrite Hsl in Hwk.
    rewrite (decode_manual_walk w _ Hl Hr Hw Hwk); [reflexivity | exact Hf |].
    exact Hne. }
  split; [exact Hlen|]. split; [exact E|]. rewrite E, decode_samples_spec.
  split.
  - intros e.
    destruct (WavSpec.samples_by_format _ _ present) as [s|e1] eqn:E1;
      cbn [bind].
    + destruct (Wav.mix_to_mono (Wav.channels st) s) as [s'|e2] eqn:E2;
        cbn [bind]; [discriminate|].
      intros E3. injection E3 as <-. apply mix_to_mono_error in E2.
      subst e2. intros [C | [C | C]]; discriminate.
    + intros E3. injection E3 as <-.
      apply samples_by_format_error in E1.
      destruct E1 as [-> | ->]; intros [C | [C | C]]; discriminate.
  - intros samples r.
    destruct (WavSpec.samples_by_format _ _ present) as [s|e1] eqn:E1;
      cbn [bind]; [|discriminate].
    destruct (Wav.mix_to_mono (Wav.channels st) s) as [s'|e2] eqn:E2;
      cbn [bind]; [|discriminate].
    intros E3. injection E3 as <- <-. split; [reflexivity|].
    apply samples_by_format_len in E1. apply mix_to_mono_len in E2.
    rewrite <- Hlen. unfold WavSpec.bytes_per_frame.
    assert (H0 : 0 <= Py.len s') by (unfold Py.len; lia).
    assert (H1 : 0 <= Py.len s) by (unfold Py.len; lia).
    destruct (Z_le_gt_dec 0 (Wav.bits_per_sample st / 8)) as [Hb | Hb]; nia.
Qed.

Lemma decode_truncated_data_witness :
  @Wav.decode_wav_bytes Samples.sequential_mean None Samples.four_of_eight
  = Ok ([F32.one], 48000).
Proof.
  destruct (@decode_truncated_data Samples.sequential_mean
              Samples.four_of_eight
              {| Wav.pos := 36; Wav.fmt_found := true; Wav.data_bytes := [];
                 Wav.channels := 1; Wav.sample_rate := 48000;
                 Wav.bits_per_sample := 32; Wav.audio_format := 3 |} 8)
    as (_ & E & _).
  - vm_compute. discriminate.
  - vm_compute. reflexivity.
  - vm_compute. reflexivity.
  - apply (canonical_walks_to_data 44 3 1 48000 192000 4 32 8
             [x00; x00; x80; x3f]%byte); vm_compute; split; congruence.
  - reflexivity.
  - vm_compute. split; [discriminate | reflexivity].
  - rewrite E. vm_compute. reflexivity.
Defined.

(** C9 as stated fails when nothing at all follows the header of the [data]
    chunk: the walk stops before that header and the missing-chunk error is
    raised; and when the bytes that are present are not a whole number of
    samples, nothing is returned. *)
Lemma truncated_data_can_raise :
  (WavSpec.data_chunk_at Samples.data_header_only
     {| Wav.pos := 36; Wav.fmt_found := true; Wav.data_bytes := [];
        Wav.channels := 1; Wav.sample_rate := 48000;
        Wav.bits_per_sample := 32; Wav.audio_format := 3 |} 4
   /\ Py.len Samples.data_header_only - (36 + 8) < 4
   /\ @Wav.decode_wav_bytes Samples.sequential_mean None
        Samples.data_header_only = Raise MissingChunk)
  /\ @Wav.decode_wav_bytes Samples.sequential_mean None Samples.five_of_eight
     = Raise BufferSizeError.
Proof.
  split; [split; [|split]|].
  - apply (canonical_walks_to_data 40 3 1 48000 192000 4 32 4 []);
      vm_compute; split; congruence.
  - vm_compute. reflexivity.
  - vm_compute. reflexivity.
  - vm_compute. reflexivity.
Qed.

(* ================================================================== *)
(** * The order of floating-point numbers                              *)
(* ================================================================== *)
















(* ================================================================== *)
(** * The parameter mapping                                            *)
(* ================================================================== *)



(** The values the specification lists: shift 1 and 10, entropy 0 and 1. *)
Lemma mapping_spot_values :
  Mapper.max_min Mapper.c0_1 Mapper.c0_9 (Mapper.shift_expr (F64.of_Z 1))
  = Mapper.c0_1
  /\ Mapper.max_min Mapper.c0_1 Mapper.c0_9 (Mapper.shift_expr (F64.of_Z 10))
     = Mapper.c0_9
  /\ Mapper.max_min Mapper.c1_0 Mapper.c20_0
       (Mapper.entropy_expr Mapper.c0_0) = Mapper.c1_0
  /\ Mapper.max_min Mapper.c1_0 Mapper.c20_0
       (Mapper.entropy_expr Mapper.c1_0) = Mapper.c20_0
  /\ Mapper.max_min Mapper.c0_0 Mapper.c1_0 S754_nan = Mapper.c1_0.
Proof. repeat split; vm_compute; reflexivity. Qed.

(* ================================================================== *)
(** * The model wrapper                                                 *)
(* ================================================================== *)

Section Infer.

Context `{Numpy}.

Lemma infer_not_loaded (env : Wrapper.os_env)
      (self : Wrapper.ACEStepWrapper) (a : Wrapper.infer_args) :
  Wrapper.is_loaded self = false \/ Wrapper.model self = None ->
  Wrapper.infer env self a = Ok (Wrapper.passthrough self a []).
Proof.
  intros [E | E]; unfold Wrapper.infer; rewrite E; [reflexivity|].
  now destruct (Wrapper.is_loaded self).
Qed.



End Infer.





(** The contract run on a loaded wrapper whose engine answers, on one whose
    engine raises, and on one that is not loaded (stereo output (1.0, 0.0)
    averages to 0.5; the counter starts at 3). *)
Lemma infer_process_examples :
  let run engine loaded :=
    @Wrapper.infer Samples.sequential_mean Samples.stub_env
      (Samples.wrapper_with engine loaded) (Samples.args_with (F64.dec 5 1)) in
  let summary r :=
    match r with
    | Ok o => Some (Wrapper.returned o,
                    Wrapper.inference_count (Wrapper.self_after o),
                    length (Wrapper.engine_calls o))
    | Raise _ => None
    end in
  summary (run (Some Samples.good_engine) true)
  = Some ([F64.to_f32 (F64.dec 5 1)], 4, 1%nat)
  /\ summary (run (Some Samples.failing_engine) true)
     = Some (Samples.buffer3, 3, 1%nat)
  /\ summary (run (Some Samples.good_engine) false)
     = Some (Samples.buffer3, 3, 0%nat)
  /\ summary (run None true) = Some (Samples.buffer3, 3, 0%nat).
Proof. repeat split; vm_compute; reflexivity. Qed.



(* ================================================================== *)
(** * The Euclidean rhythm                                              *)
(* ================================================================== *)

Lemma merged_index (p r : list (list Z)) :
  map (fun i : nat => nth i p [] ++ nth i r [])
      (seq 0 (Nat.min (length p) (length r)))
  = Koenig.zip_app p r.
Proof.
  revert r. induction p as [|x p IH]; intros [|y r]; try reflexivity.
  cbn [length Nat.min seq map nth Koenig.zip_app]. f_equal.
  rewrite <- seq_shift, map_map. cbn [nth]. apply IH.
Qed.

Lemma merged_zip (p r : list (list Z)) :
  map (fun i => nth (Z.to_nat i) p [] ++ nth (Z.to_nat i) r [])
      (Py.range (Z.min (Py.len p) (Py.len r)))
  = Koenig.zip_app p r.
Proof.
  unfold Py.range, Py.len. rewrite <- Nat2Z.inj_min, Nat2Z.id, map_map.
  rewrite <- merged_index. apply map_ext. intros i. now rewrite Nat2Z.id.
Qed.

Lemma leftover_skipn {A} (l : list A) (m : nat) :
  Py.slice_from l (Z.of_nat m) = skipn m l.
Proof. rewrite slice_from_nonneg by lia. now rewrite Nat2Z.id. Qed.

(** One pass of the loop, in list terms. *)
Lemma bjorklund_loop_step (fuel : nat) (p r : list (list Z)) :
  (1 < length r)%nat ->
  Koenig.bjorklund_loop (S fuel) p r =
    let t := Nat.min (length p) (length r) in
    Koenig.bjorklund_loop fuel (Koenig.zip_app p r) (skipn t p ++ skipn t r).
Proof.
  intros Hr. cbn [Koenig.bjorklund_loop].
  assert (E : (1 <? Py.len r) = true) by (apply Z.ltb_lt; unfold Py.len; lia).
  rewrite E. cbv zeta. rewrite merged_zip.
  unfold Py.len. rewrite <- Nat2Z.inj_min, !leftover_skipn. reflexivity.
Qed.

Lemma bjorklund_loop_done (fuel : nat) (p r : list (list Z)) :
  (length r <= 1)%nat -> Koenig.bjorklund_loop fuel p r = Some (p, r).
Proof.
  intros Hr.
  assert (E : (1 <? Py.len r) = false) by (apply Z.ltb_ge; unfold Py.len; lia).
  destruct fuel; cbn [Koenig.bjorklund_loop]; now rewrite E.
Qed.

Lemma length_zip_app (p r : list (list Z)) :
  length (Koenig.zip_app p r) = Nat.min (length p) (length r).
Proof.
  revert r. induction p as [|x p IH]; intros [|y r]; try reflexivity.
  cbn [Koenig.zip_app length Nat.min]. now rewrite IH.
Qed.

Lemma zip_app_perm (p r : list (list Z)) :
  let t := Nat.min (length p) (length r) in
  Permutation
    (concat (Koenig.zip_app p r ++ skipn t p ++ skipn t r))
    (concat (p ++ r)).
Proof.
  cbv zeta. revert r. induction p as [|x p IH]; intros r.
  - reflexivity.
  - destruct r as [|y r].
    + cbn [length Nat.min Koenig.zip_app skipn app]. now rewrite !app_nil_r.
    + cbn [length Nat.min Koenig.zip_app skipn app concat].
      specialize (IH r). rewrite !concat_app in *. cbn [concat].
      rewrite <- !app_assoc. apply Permutation_app_head.
      etransitivity; [apply Permutation_app_head; exact IH|].
      rewrite !app_assoc. apply Permutation_app_tail.
      apply Permutation_app_comm.
Qed.

(** The loop ends within [length pattern + length remainder] passes as long
    as [pattern] is not empty, and only rearranges the entries. *)
Lemma bjorklund_loop_spec (fuel : nat) (p r : list (list Z)) :
  (1 <= length p)%nat -> (length p + length r <= fuel + 2)%nat ->
  exists p' r',
    Koenig.bjorklund_loop fuel p r = Some (p', r')
    /\ Permutation (concat (p' ++ r')) (concat (p ++ r)).
Proof.
  revert p r. induction fuel as [|fuel IH]; intros p r Hp Hf.
  - exists p, r. split; [apply bjorklund_loop_done; lia | reflexivity].
  - destruct (le_lt_dec (length r) 1) as [Hr | Hr].
    + exists p, r. split; [apply bjorklund_loop_done; lia | reflexivity].
    + rewrite bjorklund_loop_step by lia. cbv zeta.
      destruct (IH (Koenig.zip_app p r)
                  (skipn (Nat.min (length p) (length r)) p
                   ++ skipn (Nat.min (length p) (length r)) r))
        as (p' & r' & E & Hperm).
      * rewrite length_zip_app. lia.
      * rewrite length_zip_app, length_app, !length_skipn. lia.
      * exists p', r'. split; [exact E|].
        etransitivity; [exact Hperm | apply zip_app_perm].
Qed.

Lemma bjorklund_loop_more_fuel (f f' : nat) (p r : list (list Z)) res :
  Koenig.bjorklund_loop f p r = Some res -> (f <= f')%nat ->
  Koenig.bjorklund_loop f' p r = Some res.
Proof.
  revert f' p r. induction f as [|f IH]; intros f' p r H Hle.
  - cbn [Koenig.bjorklund_loop] in H.
    destruct f'; cbn [Koenig.bjorklund_loop];
      destruct (1 <? Py.len r); congruence.
  - destruct f' as [|f']; [lia|]. cbn [Koenig.bjorklund_loop] in *.
    destruct (1 <? Py.len r); [|exact H].
    apply IH; [exact H | lia].
Qed.

Lemma concat_repeat_singleton {A} (x : A) (n : nat) :
  concat (repeat [x] n) = repeat x n.
Proof. induction n; cbn; congruence. Qed.

Lemma count_occ_repeat_eq (x : Z) (n : nat) :
  count_occ Z.eq_dec (repeat x n) x = n.
Proof.
  induction n; cbn [repeat count_occ]; [reflexivity|].
  destruct (Z.eq_dec x x); [now rewrite IHn | congruence].
Qed.

Lemma count_occ_repeat_neq (x y : Z) (n : nat) :
  x <> y -> count_occ Z.eq_dec (repeat x n) y = 0%nat.
Proof.
  intros Hne. induction n; cbn [repeat count_occ]; [reflexivity|].
  destruct (Z.eq_dec x y); [congruence | exact IHn].
Qed.

Lemma Forall_repeat {A} (P : A -> Prop) (x : A) (n : nat) :
  P x -> Forall P (repeat x n).
Proof. intros Hx. induction n; cbn; constructor; auto. Qed.

(** What [euclidean_rhythm] returns on its domain. *)
Lemma euclidean_rhythm_spec (k n : Z) (fuel : nat) :
  0 <= k -> 1 <= n -> (Z.to_nat n <= fuel)%nat ->
  exists l,
    Koenig.euclidean_rhythm fuel k n = Some l
    /\ Py.len l = n
    /\ (n <= k -> Forall (fun x => x = 1) l)
    /\ (k = 0 -> Forall (fun x => x = 0) l)
    /\ (0 < k < n ->
        count_occ Z.eq_dec l 1 = Z.to_nat k
        /\ Forall (fun x => x = 0 \/ x = 1) l)
    /\ (forall fuel', (Z.to_nat n <= fuel')%nat ->
          Koenig.euclidean_rhythm fuel' k n = Some l).
Proof.
  intros Hk Hn Hf.
  unfold Koenig.euclidean_rhythm.
  destruct (n <=? k) eqn:E1.
  { apply Z.leb_le in E1. exists (Py.replicate 1 n).
    unfold Py.replicate, Py.len. rewrite repeat_length.
    repeat split; try lia; auto using Forall_repeat. }
  apply Z.leb_gt in E1.
  destruct (k =? 0) eqn:E2.
  { apply Z.eqb_eq in E2. exists (Py.replicate 0 n).
    unfold Py.replicate, Py.len. rewrite repeat_length.
    repeat split; try lia; auto using Forall_repeat. }
  apply Z.eqb_neq in E2.
  set (p0 := Py.replicate [1] k). set (r0 := Py.replicate [0] (n - k)).
  assert (Hlp : length p0 = Z.to_nat k) by apply repeat_length.
  assert (Hlr : length r0 = Z.to_nat (n - k)) by apply repeat_length.
  assert (Hc0 : concat (p0 ++ r0)
                = repeat 1 (Z.to_nat k) ++ repeat 0 (Z.to_nat (n - k))).
  { rewrite concat_app. unfold p0, r0, Py.replicate.
    now rewrite !concat_repeat_singleton. }
  destruct (bjorklund_loop_spec (Z.to_nat n) p0 r0)
    as (p' & r' & Hloop & Hperm); [lia | lia |].
  rewrite Hc0 in Hperm.
  exists (concat (p' ++ r')).
  rewrite (bjorklund_loop_more_fuel _ fuel _ _ _ Hloop Hf).
  split; [reflexivity|]. split; [|split; [|split; [|split]]].
  - unfold Py.len. rewrite (Permutation_length Hperm).
    rewrite length_app, !repeat_length. lia.
  - lia.
  - lia.
  - intros _. split.
    + rewrite (Permutation_count_occ Z.eq_dec) in Hperm. rewrite Hperm.
      rewrite count_occ_app, count_occ_repeat_eq, count_occ_repeat_neq; lia.
    + eapply Permutation_Forall; [symmetry; exact Hperm|].
      apply Forall_app. split; apply Forall_repeat; auto.
  - intros fuel' Hf'.
    now rewrite (bjorklund_loop_more_fuel _ fuel' _ _ _ Hloop Hf').
Qed.

(** C3: for [k >= 0] and [n >= 1], [euclidean_rhythm(k, n)] returns (within
    [n] passes of its loop, and the same list whatever larger bound is
    given) a sequence of length exactly [n]; all entries are 1 when
    [k >= n], all are 0 when [k = 0], and otherwise exactly [k] entries are
    1 and the others 0; and [E(5, 13) = [1,0,0,1,0,1,0,0,1,0,1,0,0]]. *)
Theorem euclidean_rhythm_correct (k n : Z) (fuel : nat) :
  0 <= k -> 1 <= n -> (Z.to_nat n <= fuel)%nat ->
  (exists l,
      Koenig.euclidean_rhythm fuel k n = Some l
      /\ Py.len l = n
      /\ (n <= k -> Forall (fun x => x = 1) l)
      /\ (k = 0 -> Forall (fun x => x = 0) l)
      /\ (0 < k < n ->
          count_occ Z.eq_dec l 1 = Z.to_nat k
          /\ Forall (fun x => x = 0 \/ x = 1) l)
      /\ (forall fuel', (Z.to_nat n <= fuel')%nat ->
            Koenig.euclidean_rhythm fuel' k n = Some l))
  /\ Koenig.euclidean_rhythm 13 5 13
     = Some [1; 0; 0; 1; 0; 1; 0; 0; 1; 0; 1; 0; 0].
Proof.
  intros Hk Hn Hf.
  split; [now apply euclidean_rhythm_spec | vm_compute; reflexivity].
Qed.

Lemma euclidean_rhythm_correct_witness :
  exists l,
    Koenig.euclidean_rhythm 8 3 8 = Some l
    /\ Py.len l = 8
    /\ (8 <= 3 -> Forall (fun x => x = 1) l)
    /\ (3 = 0 -> Forall (fun x => x = 0) l)
    /\ (0 < 3 < 8 ->
        count_occ Z.eq_dec l 1 = Z.to_nat 3
        /\ Forall (fun x => x = 0 \/ x = 1) l)
    /\ (forall fuel', (Z.to_nat 8 <= fuel')%nat ->
          Koenig.euclidean_rhythm fuel' 3 8 = Some l).
Proof.
  apply (euclidean_rhythm_correct 3 8 8); [lia | lia | vm_compute; lia].
Defined.

(** Outside the claim's domain the loop spins for ever: with a negative
    number of pulses the pattern is empty, at least two groups remain, and
    no pass changes anything. *)
Lemma bjorklund_loop_stuck (fuel : nat) (r : list (list Z)) :
  (1 < length r)%nat -> Koenig.bjorklund_loop fuel [] r = None.
Proof.
  intros Hr. induction fuel as [|fuel IH].
  - cbn [Koenig.bjorklund_loop].
    assert (E : (1 <? Py.len r) = true)
      by (apply Z.ltb_lt; unfold Py.len; lia).
    now rewrite E.
  - rewrite bjorklund_loop_step by exact Hr. exact IH.
Qed.

Lemma euclidean_rhythm_negative_pulses (k n : Z) (fuel : nat) :
  k < 0 -> 1 <= n -> Koenig.euclidean_rhythm fuel k n = None.
Proof.
  intros Hk Hn. unfold Koenig.euclidean_rhythm.
  assert (E1 : (n <=? k) = false) by (apply Z.leb_gt; lia).
  assert (E2 : (k =? 0) = false) by (apply Z.eqb_neq; lia).
  rewrite E1, E2.
  assert (Ep : Py.replicate [1] k = []).
  { unfold Py.replicate. now replace (Z.to_nat k) with 0%nat by lia. }
  rewrite Ep, bjorklund_loop_stuck; [reflexivity|].
  unfold Py.replicate. rewrite repeat_length. lia.
Qed.

(* ================================================================== *)
(** * The Koenig seed                                                   *)
(* ================================================================== *)







Section Seed.

Context `{Koenig.Rng}.

Variable total nts : Z.
Variable amp : F64.t.

Let tail_is_noise := Koenig.tail_is_noise amp.




End Seed.







(** The bounds [0 <= totalSamples] and [0 <= pulses] above cost nothing: a
    negative [totalSamples] never gets as far as a buffer, and neither does
    a negative number of pulses. *)
Lemma seed_needs_a_buffer `{Koenig.Rng} (fuel : nat)
      (duration : F64.t) (sample_rate pulses steps : Z)
      (noise_tail_ms noise_amplitude : F64.t) (total : Z) :
  Koenig.int_of_product duration sample_rate = Ok total ->
  (total < 0 \/ (pulses < 0 /\ 1 <= steps)) ->
  forall st,
    Koenig.generate_koenig_seed fuel duration sample_rate pulses steps
      noise_tail_ms noise_amplitude <> Some (Ok st).
Proof.
  intros Ht Hneg st. unfold Koenig.generate_koenig_seed. rewrite Ht.
  destruct Hneg as [Hneg | [Hk Hn]].
  - destruct (Koenig.euclidean_rhythm fuel pulses steps); [|discriminate].
    unfold Koenig.np_zeros.
    assert (E : (total <? 0) = true) by (apply Z.ltb_lt; lia).
    rewrite E. cbn [bind]. discriminate.
  - rewrite euclidean_rhythm_negative_pulses by assumption. discriminate.
Qed.

(** ** Walking over the chunks of a container *)

Lemma slice_app_at {A} (a x b : list A) (lo hi : Z) :
  lo = Py.len a -> hi = lo + Py.len x -> Py.slice (a ++ x ++ b) lo hi = x.
Proof.
  intros -> ->. unfold Py.len. rewrite slice_nonneg by lia.
  rewrite Nat2Z.id, skipn_exact by reflexivity.
  apply firstn_exact. lia.
Qed.

Lemma len_app {A} (a b : list A) : Py.len (a ++ b) = Py.len a + Py.len b.
Proof. unfold Py.len. rewrite length_app. lia. Qed.

Lemma len_nonneg {A} (a : list A) : 0 <= Py.len a.
Proof. unfold Py.len. lia. Qed.

Lemma len_le_bytes (n : nat) (z : Z) : Py.len (le_bytes n z) = Z.of_nat n.
Proof. unfold Py.len. now rewrite length_le_bytes. Qed.

Lemma unpack_I_le_bytes (v : Z) :
  0 <= v < 2 ^ 32 -> Struct.unpack_I (le_bytes 4 v) = Ok v.
Proof.
  intros Hv. unfold Struct.unpack_I. rewrite length_le_bytes.
  cbn [Nat.eqb]. now rewrite (le_int_le_bytes 4 v).
Qed.

(** The id and the size the walk reads at the start of a chunk. *)
Lemma chunk_header_at (a id sz b : bytes) (p : Z) :
  p = Py.len a -> length id = 4%nat -> length sz = 4%nat ->
  Py.slice (a ++ id ++ sz ++ b) p (p + 4) = id
  /\ Py.slice (a ++ id ++ sz ++ b) (p + 4) (p + 8) = sz.
Proof.
  intros Hp Hid Hsz. split.
  - apply slice_app_at; [exact Hp | unfold Py.len; lia].
  - replace (a ++ id ++ sz ++ b) with ((a ++ id) ++ sz ++ b)
      by now rewrite <- app_assoc.
    apply slice_app_at; [rewrite len_app | ]; unfold Py.len in *; lia.
Qed.

Lemma chunk_step_foreign (a id body b : bytes) (st : Wav.chunk_state) :
  Wav.pos st = Py.len a -> Riff.foreign (id, body) ->
  Wav.chunk_step (a ++ Riff.chunk id body ++ b) st =
    Ok (Wav.Continue (Riff.moved st (Wav.pos st + 8 + Py.len body))).
Proof.
  intros Hp (Hid & Hf & Hd & Hsz). cbn [fst snd] in *.
  unfold Riff.chunk. rewrite <- !app_assoc.
  pose proof (len_nonneg body) as Hb.
  destruct (chunk_header_at a id (le_bytes 4 (Py.len body)) (body ++ b)
              (Wav.pos st) Hp Hid (length_le_bytes _ _)) as [H1 H2].
  unfold Wav.chunk_step. rewrite H1, H2.
  rewrite unpack_I_le_bytes by lia. cbn [bind].
  apply bytes_eqb_neq in Hf, Hd. rewrite Hf, Hd. reflexivity.
Qed.

Lemma moved_moved (st : Wav.chunk_state) (p q : Z) :
  Riff.moved (Riff.moved st p) q = Riff.moved st q.
Proof. reflexivity. Qed.

Lemma len_chunk (id body : bytes) :
  length id = 4%nat -> Py.len (Riff.chunk id body) = 8 + Py.len body.
Proof.
  intros H. unfold Riff.chunk. rewrite !len_app, len_le_bytes.
  unfold Py.len. lia.
Qed.

(** The walk steps over any run of foreign chunks that is followed by at
    least one more byte. *)
Lemma walks_over_foreign (cs : list (bytes * bytes)) :
  forall (a b : bytes) (st : Wav.chunk_state),
    Forall Riff.foreign cs -> b <> [] ->
    WavSpec.walks_to (a ++ Riff.chunks cs ++ b) st ->
    Wav.pos st = Py.len a ->
    WavSpec.walks_to (a ++ Riff.chunks cs ++ b)
      (Riff.moved st (Py.len a + Py.len (Riff.chunks cs))).
Proof.
  induction cs as [|[id body] cs IH]; intros a b st Hf Hb Hw Hp.
  - cbn [Riff.chunks flat_map] in *. change (Py.len (@nil byte)) with 0.
    rewrite Z.add_0_r, <- Hp. destruct st; exact Hw.
  - inversion Hf as [|c cs' Hc Hcs]; subst c cs'.
    cbn [Riff.chunks flat_map fst snd] in *.
    fold (Riff.chunks cs) in *.
    rewrite <- app_assoc in *.
    pose proof (chunk_step_foreign a id body (Riff.chunks cs ++ b) st Hp Hc)
      as Hs.
    assert (Hid : length id = 4%nat) by (destruct Hc as (H1 & _); exact H1).
    assert (Hlt : Wav.pos st < Py.len (a ++ Riff.chunk id body
                                         ++ Riff.chunks cs ++ b) - 8).
    { rewrite !len_app, len_chunk by exact Hid.
      pose proof (len_nonneg body). pose proof (len_nonneg (Riff.chunks cs)).
      assert (0 < Py.len b) by (unfold Py.len; destruct b; [congruence|simpl length; lia]).
      lia. }
    pose proof (WavSpec.walks_next _ _ _ Hw Hlt Hs) as Hw'.
    specialize (IH (a ++ Riff.chunk id body) b
                  (Riff.moved st (Wav.pos st + 8 + Py.len body)) Hcs Hb).
    rewrite <- app_assoc in IH. specialize (IH Hw').
    rewrite moved_moved in IH.
    rewrite !len_app, len_chunk in * by exact Hid.
    replace (Py.len a + (8 + Py.len body + Py.len (Riff.chunks cs)))
      with (Py.len a + (8 + Py.len body) + Py.len (Riff.chunks cs)) by lia.
    apply IH. cbn [Wav.pos Riff.moved]. lia.
Qed.

Lemma unpack_fmt_fields (af ch sr br ba bits : Z) :
  0 <= af < 2 ^ 16 -> 0 <= ch < 2 ^ 16 -> 0 <= sr < 2 ^ 32 ->
  0 <= bits < 2 ^ 16 ->
  Struct.unpack_HHIIHH (Riff.fmt_fields af ch sr br ba bits) =
    Ok (af, ch, sr, le_int (le_bytes 4 br), le_int (le_bytes 2 ba), bits).
Proof.
  intros Haf Hch Hsr Hbits.
  unfold Struct.unpack_HHIIHH.
  change (length _ =? 16)%nat with true. cbv iota.
  rewrite !slice_nonneg by lia.
  match goal with
  | |- Ok (le_int ?a, le_int ?b, le_int ?c, le_int ?d, le_int ?e, le_int ?f) = _ =>
      change a with (le_bytes 2 af); change b with (le_bytes 2 ch);
      change c with (le_bytes 4 sr); change d with (le_bytes 4 br);
      change e with (le_bytes 2 ba); change f with (le_bytes 2 bits)
  end.
  rewrite (le_int_le_bytes 2 af), (le_int_le_bytes 2 ch),
    (le_int_le_bytes 4 sr), (le_int_le_bytes 2 bits);
    try reflexivity; assumption.
Qed.

Lemma chunk_step_fmt (a ext b : bytes) (af ch sr br ba bits : Z)
      (st : Wav.chunk_state) :
  Wav.pos st = Py.len a ->
  0 <= af < 2 ^ 16 -> 0 <= ch < 2 ^ 16 -> 0 <= sr < 2 ^ 32 ->
  0 <= bits < 2 ^ 16 -> 16 + Py.len ext < 2 ^ 32 ->
  Wav.chunk_step
    (a ++ Riff.chunk Wav.b_fmt (Riff.fmt_fields af ch sr br ba bits ++ ext)
       ++ b) st =
    Ok (Wav.Continue
          {| Wav.pos := Wav.pos st + 8 + (16 + Py.len ext);
             Wav.fmt_found := true; Wav.data_bytes := Wav.data_bytes st;
             Wav.channels := ch; Wav.sample_rate := sr;
             Wav.bits_per_sample := bits; Wav.audio_format := af |}).
Proof.
  intros Hp Haf Hch Hsr Hbits Hext.
  pose proof (len_nonneg ext) as He.
  assert (Hlf : Py.len (Riff.fmt_fields af ch sr br ba bits ++ ext)
                = 16 + Py.len ext).
  { rewrite len_app. reflexivity. }
  unfold Riff.chunk. rewrite Hlf. rewrite <- !app_assoc.
  destruct (chunk_header_at a Wav.b_fmt (le_bytes 4 (16 + Py.len ext))
              (Riff.fmt_fields af ch sr br ba bits ++ ext ++ b)
              (Wav.pos st) Hp eq_refl (length_le_bytes _ _)) as [H1 H2].
  unfold Wav.chunk_step. rewrite H1, H2.
  rewrite unpack_I_le_bytes by lia. cbn [bind].
  change (Wav.bytes_eqb Wav.b_fmt Wav.b_fmt) with true. cbv iota.
  assert (H3 : Py.slice
                 (a ++ Wav.b_fmt ++ le_bytes 4 (16 + Py.len ext)
                    ++ Riff.fmt_fields af ch sr br ba bits ++ ext ++ b)
                 (Wav.pos st + 8) (Wav.pos st + 8 + 16)
               = Riff.fmt_fields af ch sr br ba bits).
  { replace (a ++ Wav.b_fmt ++ le_bytes 4 (16 + Py.len ext)
               ++ Riff.fmt_fields af ch sr br ba bits ++ ext ++ b)
      with ((a ++ Wav.b_fmt ++ le_bytes 4 (16 + Py.len ext))
              ++ Riff.fmt_fields af ch sr br ba bits ++ ext ++ b)
      by (rewrite <- !app_assoc; reflexivity).
    apply slice_app_at.
    - rewrite !len_app, len_le_bytes, Hp. reflexivity.
    - reflexivity. }
  rewrite H3, unpack_fmt_fields by assumption. reflexivity.
Qed.

(** Before the walk meets a [data] chunk it holds no data. *)
Lemma walks_to_no_data (w : bytes) (st : Wav.chunk_state) :
  WavSpec.walks_to w st -> Wav.data_bytes st = [].
Proof.
  induction 1 as [|st st' _ IH _ Hs]; [reflexivity|].
  revert Hs. unfold Wav.chunk_step.
  destruct (Struct.unpack_I _) as [sz|]; cbn [bind]; [|discriminate].
  destruct (Wav.bytes_eqb _ Wav.b_fmt).
  - destruct (Struct.unpack_HHIIHH _) as [[[[[[af ch] sr] br] ba] bits]|];
      cbn [bind]; [|discriminate].
    intros Hs. injection Hs as <-. exact IH.
  - destruct (Wav.bytes_eqb _ Wav.b_data); [discriminate|].
    intros Hs. injection Hs as <-. exact IH.
Qed.

(** The walk stops where it stands once fewer than 9 bytes are left. *)
Lemma walk_chunks_stops (w : bytes) (st : Wav.chunk_state) :
  WavSpec.walks_to w st -> Py.len w - 8 <= Wav.pos st ->
  Wav.walk_chunks w = Ok st.
Proof.
  intros Hw Hp. apply (chunk_loop_from w st _ Hw).
  assert (Hc : (Wav.pos st <? Py.len w - 8) = false) by (apply Z.ltb_ge; lia).
  destruct (length w); cbn [Wav.chunk_loop]; now rewrite Hc.
Qed.

(** The walk ends with the exception of the step that raises. *)
Lemma walk_chunks_raises (w : bytes) (st : Wav.chunk_state) (e : exn) :
  WavSpec.walks_to w st -> Wav.pos st < Py.len w - 8 ->
  Wav.chunk_step w st = Raise e ->
  Wav.walk_chunks w = Raise e.
Proof.
  intros Hw Hp Hs. apply (chunk_loop_from w st _ Hw).
  assert (Hc : (Wav.pos st <? Py.len w - 8) = true) by (apply Z.ltb_lt; lia).
  assert (Hl : exists n, length w = S n).
  { pose proof (walks_to_pos w st Hw). unfold Py.len in Hp.
    destruct (length w); [lia | eauto]. }
  destruct Hl as [n ->]. cbn [Wav.chunk_loop]. now rewrite Hc, Hs.
Qed.

Section AtData.

Context `{Numpy}.

(** Decoding a container in which the walk reaches the header of a [data]
    chunk: everything is decided by what the walk has seen of the [fmt ]
    chunk and by the bytes after the header. *)
Lemma decode_at_data (w a sz rest : bytes) (st : Wav.chunk_state) :
  w = a ++ Wav.b_data ++ sz ++ rest -> length sz = 4%nat ->
  44 <= Py.len w ->
  Py.slice w 0 4 = Wav.b_RIFF -> Py.slice w 8 12 = Wav.b_WAVE ->
  WavSpec.walks_to w st -> Wav.pos st = Py.len a ->
  Wav.decode_manual w =
    let d := firstn (Z.to_nat (le_int sz)) rest in
    if negb (Wav.fmt_found st) || (length d =? 0)%nat
    then Raise MissingChunk
    else
      (samples <- Wav.decode_samples (Wav.audio_format st)
                    (Wav.bits_per_sample st) d ;;
       samples <- Wav.mix_to_mono (Wav.channels st) samples ;;
       Ok (samples, Wav.sample_rate st)).
Proof.
  intros Ew Hsz Hlen Hr Hwv Hw Hp.
  unfold Wav.decode_manual.
  assert (Hl : (Py.len w <? 44) = false) by (apply Z.ltb_ge; lia).
  rewrite Hl, Hr, Hwv.
  change (negb (Wav.bytes_eqb Wav.b_RIFF Wav.b_RIFF)
          || negb (Wav.bytes_eqb Wav.b_WAVE Wav.b_WAVE)) with false.
  cbv iota zeta.
  assert (Hlw : Py.len w = Py.len a + 8 + Py.len rest).
  { rewrite Ew, !len_app. unfold Py.len. rewrite Hsz. simpl length. lia. }
  destruct (nil_or_not rest) as [He | Hne].
  - rewrite (walk_chunks_stops w st Hw).
    + cbn [bind]. rewrite (walks_to_no_data w st Hw), He, firstn_nil.
      cbn [length Nat.eqb]. now rewrite !orb_true_r.
    + rewrite Hlw, He. change (Py.len (@nil byte)) with 0. lia.
  - assert (Hpos : 0 < Py.len rest).
    { unfold Py.len. destruct rest; [congruence | simpl length; lia]. }
    destruct (chunk_header_at a Wav.b_data sz rest (Wav.pos st) Hp
                eq_refl Hsz) as [H1 H2].
    rewrite <- Ew in H1, H2.
    rewrite (walk_chunks_data w st (le_int sz)).
    + cbn [bind Wav.fmt_found Wav.data_bytes Wav.audio_format
             Wav.bits_per_sample Wav.channels Wav.sample_rate].
      assert (Hd : Py.slice w (Wav.pos st + 8) (Wav.pos st + 8 + le_int sz)
                   = firstn (Z.to_nat (le_int sz)) rest).
      { pose proof (le_int_range sz) as Hr4. pose proof (len_nonneg a).
        rewrite slice_nonneg by lia.
        replace (Wav.pos st + 8 + le_int sz - (Wav.pos st + 8))
          with (le_int sz) by lia.
        f_equal. rewrite Ew.
        replace (a ++ Wav.b_data ++ sz ++ rest)
          with ((a ++ Wav.b_data ++ sz) ++ rest)
          by (rewrite <- !app_assoc; reflexivity).
        apply skipn_exact. rewrite !length_app, Hsz.
        unfold Py.len in Hp. simpl length. lia. }
      rewrite Hd. reflexivity.
    + unfold WavSpec.data_chunk_at. rewrite H2.
      split; [exact Hw | split; [lia | split; [exact H1 | reflexivity]]].
    + lia.
Qed.

End AtData.

(** ** Containers with foreign chunks *)

Lemma riff_header_magic (riff_size : Z) (tail : bytes) :
  Py.slice (Riff.riff_header riff_size ++ tail) 0 4 = Wav.b_RIFF
  /\ Py.slice (Riff.riff_header riff_size ++ tail) 8 12 = Wav.b_WAVE.
Proof. split; rewrite slice_nonneg by lia; reflexivity. Qed.

Lemma len_riff_header (riff_size : Z) : Py.len (Riff.riff_header riff_size) = 12.
Proof. reflexivity. Qed.

Lemma len_fmt_fields (af ch sr br ba bits : Z) :
  Py.len (Riff.fmt_fields af ch sr br ba bits) = 16.
Proof. reflexivity. Qed.

Lemma app_not_nil_l {A} (a b : list A) : a <> [] -> a ++ b <> [].
Proof. destruct a; [congruence | discriminate]. Qed.

Section Foreign.

Context `{Numpy}.

(** What the decoder makes of a container with foreign chunks. *)
Lemma decode_container (riff_size af ch sr br ba bits : Z)
      (before between : list (bytes * bytes)) (ext sz rest : bytes) :
  Forall Riff.foreign before -> Forall Riff.foreign between ->
  0 <= af < 2 ^ 16 -> 0 <= ch < 2 ^ 16 -> 0 <= sr < 2 ^ 32 ->
  0 <= bits < 2 ^ 16 -> 16 + Py.len ext < 2 ^ 32 -> length sz = 4%nat ->
  Wav.decode_manual
    (Riff.riff_header riff_size ++ Riff.chunks before
       ++ Riff.chunk Wav.b_fmt (Riff.fmt_fields af ch sr br ba bits ++ ext)
       ++ Riff.chunks between ++ Wav.b_data ++ sz ++ rest) =
    let d := firstn (Z.to_nat (le_int sz)) rest in
    if (length d =? 0)%nat then Raise MissingChunk
    else
      (samples <- Wav.decode_samples af bits d ;;
       samples <- Wav.mix_to_mono ch samples ;;
       Ok (samples, sr)).
Proof.
  intros Hb Hm Haf Hch Hsr Hbits Hext Hsz.
  set (fmt := Riff.chunk Wav.b_fmt
                (Riff.fmt_fields af ch sr br ba bits ++ ext)).
  set (tail := Wav.b_data ++ sz ++ rest).
  set (w := Riff.riff_header riff_size ++ Riff.chunks before
              ++ fmt ++ Riff.chunks between ++ tail).
  assert (Htail : tail <> []) by discriminate.
  assert (Hfmt : fmt <> []) by discriminate.
  pose proof (len_nonneg ext) as Hle.
  assert (Hlf : Py.len fmt = 8 + (16 + Py.len ext)).
  { unfold fmt. rewrite len_chunk by reflexivity.
    now rewrite len_app, len_fmt_fields. }
  assert (Hlt : Py.len tail = 8 + Py.len rest).
  { unfold tail. rewrite !len_app. unfold Py.len. rewrite Hsz.
    simpl length. lia. }
  pose proof (len_nonneg rest) as Hlr.
  pose proof (len_nonneg (Riff.chunks before)) as Hlb.
  pose proof (len_nonneg (Riff.chunks between)) as Hlm.
  (* over the chunks before the format *)
  pose proof (walks_over_foreign before (Riff.riff_header riff_size)
                (fmt ++ Riff.chunks between ++ tail) Wav.init_state Hb
                (app_not_nil_l _ _ Hfmt) (WavSpec.walks_init _) eq_refl)
    as W1.
  fold w in W1. rewrite len_riff_header in W1.
  set (p1 := 12 + Py.len (Riff.chunks before)) in *.
  (* the format chunk *)
  assert (E2 : w = (Riff.riff_header riff_size ++ Riff.chunks before)
                     ++ fmt ++ Riff.chunks between ++ tail)
    by (unfold w; rewrite <- !app_assoc; reflexivity).
  assert (Hp1 : Wav.pos (Riff.moved Wav.init_state p1)
                = Py.len (Riff.riff_header riff_size ++ Riff.chunks before)).
  { rewrite len_app, len_riff_header. reflexivity. }
  pose proof (chunk_step_fmt _ ext (Riff.chunks between ++ tail)
                af ch sr br ba bits _ Hp1 Haf Hch Hsr Hbits Hext) as S2.
  fold fmt in S2. rewrite <- E2 in S2.
  assert (Hlw : Py.len w = p1 + Py.len fmt + Py.len (Riff.chunks between)
                           + Py.len tail).
  { unfold w, p1. rewrite !len_app, len_riff_header. lia. }
  assert (C2 : Wav.pos (Riff.moved Wav.init_state p1) < Py.len w - 8).
  { cbn [Wav.pos Riff.moved]. lia. }
  pose proof (WavSpec.walks_next _ _ _ W1 C2 S2) as W2.
  cbn [Wav.pos Riff.moved Wav.data_bytes Wav.init_state] in W2.
  (* over the chunks between the format and the data *)
  set (st2 := {| Wav.pos := p1 + 8 + (16 + Py.len ext);
                 Wav.fmt_found := true; Wav.data_bytes := [];
                 Wav.channels := ch; Wav.sample_rate := sr;
                 Wav.bits_per_sample := bits; Wav.audio_format := af |})
    in *.
  assert (E3 : w = (Riff.riff_header riff_size ++ Riff.chunks before ++ fmt)
                     ++ Riff.chunks between ++ tail)
    by (unfold w; rewrite <- !app_assoc; reflexivity).
  assert (Hp2 : Wav.pos st2
                = Py.len (Riff.riff_header riff_size ++ Riff.chunks before
                            ++ fmt)).
  { rewrite !len_app, len_riff_header, Hlf. unfold st2, p1.
    cbn [Wav.pos]. lia. }
  rewrite E3 in W2.
  pose proof (walks_over_foreign between _ tail st2 Hm Htail W2 Hp2) as W3.
  rewrite <- E3 in W3.
  (* the data chunk *)
  assert (E4 : w = (Riff.riff_header riff_size ++ Riff.chunks before ++ fmt
                      ++ Riff.chunks between)
                     ++ Wav.b_data ++ sz ++ rest)
    by (unfold w, tail; rewrite <- !app_assoc; reflexivity).
  destruct (riff_header_magic riff_size
              (Riff.chunks before ++ fmt ++ Riff.chunks between ++ tail))
    as [M1 M2].
  fold w in M1, M2.
  assert (Hlen : 44 <= Py.len w) by lia.
  match type of W3 with
  | WavSpec.walks_to _ ?s =>
      rewrite (decode_at_data w _ sz rest s E4 Hsz Hlen M1 M2 W3)
  end.
  - reflexivity.
  - cbn [Wav.pos Riff.moved]. rewrite !len_app. lia.
Qed.

End Foreign.

(** X1: foreign chunks before and after the format chunk, extension bytes
    at the end of the format chunk, bytes after the declared end of the
    samples, and the RIFF size, byte rate and block align fields make no
    difference to what [decode_wav_bytes] returns: the result is that of
    the plain 44-byte container with the same format fields and payload. *)
Theorem decode_skips_foreign_chunks `{Numpy}
        (riff_size riff_size' af ch sr br br' ba ba' bits : Z)
        (before between : list (bytes * bytes))
        (extension payload trailer : bytes) :
  Forall Riff.foreign before -> Forall Riff.foreign between ->
  0 <= af < 2 ^ 16 -> 0 <= ch < 2 ^ 16 -> 0 <= sr < 2 ^ 32 ->
  0 <= bits < 2 ^ 16 ->
  16 + Py.len extension < 2 ^ 32 -> Py.len payload < 2 ^ 32 ->
  Wav.decode_wav_bytes None
    (Riff.container riff_size before af ch sr br ba bits extension between
       (Py.len payload) (payload ++ trailer))
  = Wav.decode_wav_bytes None
      (WavSpec.header44 riff_size' af ch sr br' ba' bits (Py.len payload)
         ++ payload).
Proof.
  intros Hb Hm Haf Hch Hsr Hbits Hext Hpl.
  pose proof (len_nonneg payload) as Hp0.
  cbn [Wav.decode_wav_bytes]. unfold Riff.container.
  rewrite decode_container, canonical_decode;
    try assumption; try lia; try apply length_le_bytes.
  rewrite le_int_le_bytes by (change (8 * Z.of_nat 4) with 32; lia).
  unfold Py.len. rewrite Nat2Z.id, firstn_exact, firstn_all by reflexivity.
  reflexivity.
Qed.

Lemma foreign_list_chunk : Riff.foreign Fixtures.list_chunk.
Proof.
  split; [reflexivity | split; [discriminate | split; [discriminate|]]].
  reflexivity.
Defined.

Lemma foreign_fact_chunk : Riff.foreign Fixtures.fact_chunk.
Proof.
  split; [reflexivity | split; [discriminate | split; [discriminate|]]].
  reflexivity.
Defined.

Lemma decode_skips_foreign_chunks_witness :
  @Wav.decode_wav_bytes Samples.sequential_mean None Fixtures.busy_container
  = @Wav.decode_wav_bytes Samples.sequential_mean None
      (WavSpec.header44 40 3 1 48000 192000 4 32 4 ++ Fixtures.one_le).
Proof.
  apply (@decode_skips_foreign_chunks Samples.sequential_mean
           0 40 3 1 48000 0 192000 0 4 32
           [Fixtures.list_chunk] [Fixtures.fact_chunk]
           [x00; x00]%byte Fixtures.one_le
           ["i"; "d"; "3"; " "; x00; x00; x00; x00]%byte);
    try (repeat constructor; first [apply foreign_list_chunk
                                   | apply foreign_fact_chunk]);
    try (split; [discriminate | reflexivity]); reflexivity.
Defined.

(** X2: when the [data] chunk comes before any [fmt ] chunk, the decoder
    raises "Missing fmt or data chunk in WAV", whatever follows the [data]
    header, a complete [fmt ] chunk included: the walk stops at the first
    [data] chunk. *)
Theorem decode_data_before_fmt `{Numpy} (riff_size : Z)
        (before : list (bytes * bytes)) (sz rest : bytes) :
  Forall Riff.foreign before -> length sz = 4%nat ->
  44 <= Py.len (Riff.riff_header riff_size ++ Riff.chunks before
                  ++ Wav.b_data ++ sz ++ rest) ->
  Wav.decode_wav_bytes None
    (Riff.riff_header riff_size ++ Riff.chunks before
       ++ Wav.b_data ++ sz ++ rest)
  = Raise MissingChunk.
Proof.
  intros Hb Hsz Hlen. cbn [Wav.decode_wav_bytes].
  set (w := Riff.riff_header riff_size ++ Riff.chunks before
              ++ Wav.b_data ++ sz ++ rest) in *.
  pose proof (walks_over_foreign before (Riff.riff_header riff_size)
                (Wav.b_data ++ sz ++ rest) Wav.init_state Hb
                ltac:(discriminate) (WavSpec.walks_init _) eq_refl) as W1.
  fold w in W1.
  destruct (riff_header_magic riff_size
              (Riff.chunks before ++ Wav.b_data ++ sz ++ rest)) as [M1 M2].
  fold w in M1, M2.
  assert (E : w = (Riff.riff_header riff_size ++ Riff.chunks before)
                    ++ Wav.b_data ++ sz ++ rest)
    by (unfold w; rewrite <- !app_assoc; reflexivity).
  rewrite (decode_at_data w _ sz rest _ E Hsz Hlen M1 M2 W1).
  - reflexivity.
  - cbn [Wav.pos Riff.moved]. now rewrite len_app.
Qed.

Lemma decode_data_before_fmt_witness :
  @Wav.decode_wav_bytes Samples.sequential_mean None Fixtures.data_first
  = Raise MissingChunk.
Proof.
  apply (@decode_data_before_fmt Samples.sequential_mean 0 []
           [x04; x00; x00; x00]%byte
           (Fixtures.one_le
              ++ Riff.chunk Wav.b_fmt (Riff.fmt_fields 3 1 48000 192000 4 32)));
    [constructor | reflexivity | discriminate].
Defined.

(** X3: a container that ends inside the sixteen format fields of its
    [fmt ] chunk makes the decoder raise [struct.error], not one of its
    own [ValueError]s. *)
Theorem decode_truncated_fmt `{Numpy} (riff_size : Z)
        (before : list (bytes * bytes)) (sz body : bytes) :
  Forall Riff.foreign before -> length sz = 4%nat ->
  1 <= Py.len body < 16 ->
  44 <= Py.len (Riff.riff_header riff_size ++ Riff.chunks before
                  ++ Wav.b_fmt ++ sz ++ body) ->
  Wav.decode_wav_bytes None
    (Riff.riff_header riff_size ++ Riff.chunks before
       ++ Wav.b_fmt ++ sz ++ body)
  = Raise StructError.
Proof.
  intros Hb Hsz Hbody Hlen. cbn [Wav.decode_wav_bytes].
  set (w := Riff.riff_header riff_size ++ Riff.chunks before
              ++ Wav.b_fmt ++ sz ++ body) in *.
  pose proof (walks_over_foreign before (Riff.riff_header riff_size)
                (Wav.b_fmt ++ sz ++ body) Wav.init_state Hb
                ltac:(discriminate) (WavSpec.walks_init _) eq_refl) as W1.
  fold w in W1. rewrite len_riff_header in W1.
  set (p := 12 + Py.len (Riff.chunks before)) in *.
  set (st := Riff.moved Wav.init_state p) in *.
  destruct (riff_header_magic riff_size
              (Riff.chunks before ++ Wav.b_fmt ++ sz ++ body)) as [M1 M2].
  fold w in M1, M2.
  assert (E : w = (Riff.riff_header riff_size ++ Riff.chunks before)
                    ++ Wav.b_fmt ++ sz ++ body)
    by (unfold w; rewrite <- !app_assoc; reflexivity).
  assert (Hp : Wav.pos st
               = Py.len (Riff.riff_header riff_size ++ Riff.chunks before)).
  { rewrite len_app, len_riff_header. reflexivity. }
  assert (Hlw : Py.len w = p + 8 + Py.len body).
  { rewrite E, !len_app, len_riff_header. unfold p, Py.len. rewrite Hsz.
    simpl length. lia. }
  pose proof (len_nonneg (Riff.chunks before)) as Hlb.
  destruct (chunk_header_at _ Wav.b_fmt sz body (Wav.pos st) Hp eq_refl Hsz)
    as [H1 H2].
  rewrite <- E in H1, H2.
  assert (Hs : Wav.chunk_step w st = Raise StructError).
  { unfold Wav.chunk_step. rewrite H1, H2.
    unfold Struct.unpack_I. rewrite Hsz. cbn [Nat.eqb bind].
    change (Wav.bytes_eqb Wav.b_fmt Wav.b_fmt) with true. cbv iota.
    assert (H3 : Py.slice w (Wav.pos st + 8) (Wav.pos st + 8 + 16) = body).
    { unfold st. cbn [Wav.pos Riff.moved]. rewrite slice_nonneg by lia.
      rewrite E.
      replace ((Riff.riff_header riff_size ++ Riff.chunks before)
                 ++ Wav.b_fmt ++ sz ++ body)
        with (((Riff.riff_header riff_size ++ Riff.chunks before)
                 ++ Wav.b_fmt ++ sz) ++ body)
        by (rewrite <- !app_assoc; reflexivity).
      rewrite skipn_exact.
      - apply firstn_all2. unfold Py.len in Hbody. lia.
      - rewrite !length_app, Hsz. unfold p, Py.len. simpl length.
        change (length (Riff.riff_header riff_size)) with 12%nat. lia. }
    rewrite H3. unfold Struct.unpack_HHIIHH.
    assert (Hn : (length body =? 16)%nat = false)
      by (apply Nat.eqb_neq; unfold Py.len in Hbody; lia).
    now rewrite Hn. }
  unfold Wav.decode_manual.
  assert (Hl : (Py.len w <? 44) = false) by (apply Z.ltb_ge; lia).
  rewrite Hl, M1, M2.
  change (negb (Wav.bytes_eqb Wav.b_RIFF Wav.b_RIFF)
          || negb (Wav.bytes_eqb Wav.b_WAVE Wav.b_WAVE)) with false.
  cbv iota.
  rewrite (walk_chunks_raises w st StructError W1); [reflexivity | | exact Hs].
  unfold st. cbn [Wav.pos Riff.moved]. lia.
Qed.

Lemma decode_truncated_fmt_witness :
  @Wav.decode_wav_bytes Samples.sequential_mean None Fixtures.cut_in_fmt
  = Raise StructError.
Proof.
  apply (@decode_truncated_fmt Samples.sequential_mean 0
           [Fixtures.list_chunk] [x10; x00; x00; x00]%byte
           [x03; x00; x01; x00; x80; xbb; x00; x00]%byte);
    [repeat constructor; apply foreign_list_chunk
    | reflexivity | split; [discriminate | reflexivity] | discriminate].
Defined.

(** ** The number of passes of the chunk loop *)

Lemma chunk_loop_enough8 (w : bytes) (fuel : nat) (st : Wav.chunk_state) :
  (Py.len w - 8 - Wav.pos st + 7) / 8 <= Z.of_nat fuel ->
  exists r, Wav.chunk_loop fuel w st = Some r.
Proof.
  revert st. induction fuel as [|fuel IH]; intros st Hf; cbn [Wav.chunk_loop].
  - destruct (Wav.pos st <? Py.len w - 8) eqn:E; [|eauto].
    apply Z.ltb_lt in E. exfalso. revert Hf.
    change (Z.of_nat 0) with 0. Z.div_mod_to_equations. lia.
  - destruct (Wav.pos st <? Py.len w - 8) eqn:E; [|eauto].
    apply Z.ltb_lt in E.
    destruct (Wav.chunk_step w st) as [[st'|st']|e] eqn:Es; eauto.
    apply IH. apply chunk_step_continue in Es.
    revert Hf. rewrite Nat2Z.inj_succ. Z.div_mod_to_equations. lia.
Qed.

(** X4: the chunk loop of [decode_wav_bytes] ends on every input, within
    [len(wav_bytes) // 8] passes: each pass moves the cursor forward by at
    least the 8 bytes of a chunk header, also when a chunk declares size 0. *)
Theorem chunk_walk_bounded (w : bytes) :
  exists r, Wav.chunk_loop (length w / 8) w Wav.init_state = Some r
            /\ Wav.walk_chunks w = r.
Proof.
  destruct (chunk_loop_enough8 w (length w / 8) Wav.init_state) as [r Hr].
  - rewrite Nat2Z.inj_div. cbn [Wav.pos Wav.init_state]. unfold Py.len.
    change (Z.of_nat 8) with 8. Z.div_mod_to_equations. lia.
  - exists r. split; [exact Hr|]. unfold Wav.walk_chunks.
    rewrite (chunk_loop_more_fuel w (length w / 8) (length w) _ r Hr);
      [reflexivity|].
    apply Nat.Div0.div_le_upper_bound. lia.
Qed.

(** ** How many samples a container decodes to *)

Lemma in_range (n i : Z) : In i (Py.range n) -> 0 <= i < n.
Proof.
  unfold Py.range. rewrite in_map_iff. intros (k & <- & Hk).
  apply in_seq in Hk. lia.
Qed.

Lemma len_map {A B} (f : A -> B) (l : list A) : Py.len (map f l) = Py.len l.
Proof. unfold Py.len. now rewrite length_map. Qed.

Lemma samples_by_format_count (af bits n : Z) (d : bytes) :
  (af, bits) = (3, 32) \/ (af, bits) = (1, 16) \/ (af, bits) = (1, 24) ->
  0 <= n -> Py.len d = n * (bits / 8) ->
  exists s, WavSpec.samples_by_format af bits d = Ok s /\ Py.len s = n.
Proof.
  intros Hf Hn Hd.
  destruct Hf as [Hf | [Hf | Hf]]; injection Hf as -> ->;
    cbn [WavSpec.samples_by_format].
  - change (32 / 8) with 4 in Hd.
    rewrite Hd, Z.mod_mul by lia. cbn [Z.eqb].
    eexists; split; [reflexivity|]. unfold WavSpec.float32_samples.
    rewrite len_map, len_range, Hd, Z.div_mul by lia. lia.
  - change (16 / 8) with 2 in Hd.
    rewrite Hd, Z.mod_mul by lia. cbn [Z.eqb].
    eexists; split; [reflexivity|]. unfold WavSpec.pcm16_samples.
    rewrite len_map, len_range, Hd, Z.div_mul by lia. lia.
  - change (24 / 8) with 3 in Hd.
    eexists; split; [reflexivity|]. unfold WavSpec.pcm24_samples.
    rewrite len_map, len_range, Hd, Z.div_mul by lia. lia.
Qed.

Lemma mix_to_mono_count `{Numpy} (ch n : Z) (s : list F32.t) :
  0 <= n -> Py.len s = n * Z.max 1 ch ->
  exists s', Wav.mix_to_mono ch s = Ok s' /\ Py.len s' = n.
Proof.
  intros Hn Hs. unfold Wav.mix_to_mono.
  destruct (1 <? ch) eqn:E.
  - apply Z.ltb_lt in E. rewrite Z.max_r in Hs by lia.
    unfold reshape_rows. rewrite Hs, Z.mod_mul by lia. cbn [Z.eqb bind].
    eexists; split; [reflexivity|]. unfold mean_axis1.
    rewrite len_map. unfold Py.len. rewrite length_chunks_of.
    rewrite Z.div_mul by lia. lia.
  - apply Z.ltb_ge in E. rewrite Z.max_l in Hs by lia.
    exists s. split; [reflexivity | lia].
Qed.

(** X5: a container whose payload is [n] whole frames of float32, PCM16 or
    PCM24 samples decodes to exactly [n] mono samples, one per frame,
    whatever the channel count; a channel count of 0 is read as mono. *)
Theorem decode_frame_count `{Numpy}
        (riff_size af ch sr br ba bits n : Z) (payload : bytes) :
  (af, bits) = (3, 32) \/ (af, bits) = (1, 16) \/ (af, bits) = (1, 24) ->
  0 <= ch < 2 ^ 16 -> 0 <= sr < 2 ^ 32 -> 1 <= n ->
  Py.len payload = n * WavSpec.bytes_per_frame bits ch ->
  Py.len payload < 2 ^ 32 ->
  exists samples,
    Wav.decode_wav_bytes None
      (WavSpec.header44 riff_size af ch sr br ba bits (Py.len payload)
         ++ payload) = Ok (samples, sr)
    /\ Py.len samples = n.
Proof.
  intros Hf Hch Hsr Hn Hlen Hlt.
  pose proof (len_nonneg payload) as Hp0.
  assert (Hr : 0 <= af < 2 ^ 16 /\ 0 <= bits < 2 ^ 16 /\ 1 <= bits / 8).
  { destruct Hf as [Hf | [Hf | Hf]]; injection Hf as -> ->;
      repeat split; try discriminate; reflexivity. }
  destruct Hr as (Haf & Hbits & Hb8).
  cbn [Wav.decode_wav_bytes].
  rewrite canonical_decode by (assumption || lia). cbv zeta.
  assert (Hfa : firstn (Z.to_nat (Py.len payload)) payload = payload).
  { unfold Py.len. now rewrite Nat2Z.id, firstn_all. }
  rewrite Hfa.
  unfold WavSpec.bytes_per_frame in Hlen.
  assert (Hne : (length payload =? 0)%nat = false).
  { apply Nat.eqb_neq. unfold Py.len in Hlen. nia. }
  rewrite Hne, decode_samples_spec.
  destruct (samples_by_format_count af bits (n * Z.max 1 ch) payload Hf)
    as (s & -> & Hs); [lia | lia |].
  cbn [bind].
  destruct (mix_to_mono_count ch n s) as (s' & -> & Hs'); [lia | exact Hs |].
  cbn [bind]. exists s'. split; [reflexivity | exact Hs'].
Qed.

Lemma decode_frame_count_witness :
  exists samples,
    @Wav.decode_wav_bytes Samples.sequential_mean None
      (WavSpec.header44 44 1 2 44100 176400 4 16 8 ++ Fixtures.stereo_frames)
    = Ok (samples, 44100)
    /\ Py.len samples = 2.
Proof.
  apply (@decode_frame_count Samples.sequential_mean 44 1 2 44100 176400 4 16
           2 Fixtures.stereo_frames);
    [right; left; reflexivity | split; [discriminate | reflexivity]
    | split; [discriminate | reflexivity] | discriminate
    | reflexivity | reflexivity].
Defined.

(** ** Payloads that end inside a sample *)

Lemma pcm24_samples_app (d extra : bytes) :
  Py.len d mod 3 = 0 -> Py.len extra < 3 ->
  WavSpec.pcm24_samples (d ++ extra) = WavSpec.pcm24_samples d.
Proof.
  intros Hd He. unfold WavSpec.pcm24_samples.
  pose proof (len_nonneg d) as Hd0. pose proof (len_nonneg extra) as He0.
  assert (Hq : Py.len (d ++ extra) / 3 = Py.len d / 3).
  { rewrite len_app. Z.div_mod_to_equations. lia. }
  rewrite Hq. apply map_ext_in. intros i Hi. apply in_range in Hi.
  assert (Hb : forall j, 0 <= j < 3 ->
                 WavSpec.byte_at (d ++ extra) (3 * i + j)
                 = WavSpec.byte_at d (3 * i + j)).
  { intros j Hj. unfold WavSpec.byte_at. f_equal. apply app_nth1.
    unfold Py.len in *. revert Hi Hd. Z.div_mod_to_equations. lia. }
  pose proof (Hb 0 ltac:(lia)) as H0. rewrite Z.add_0_r in H0.
  now rewrite H0, (Hb 1), (Hb 2) by lia.
Qed.

(** X6: a 24-bit PCM payload may end inside a sample: the one or two bytes
    of the incomplete sample are dropped, and the container decodes as if
    they were not there. *)
Theorem pcm24_drops_partial_sample `{Numpy}
        (riff_size ch sr br ba : Z) (d extra : bytes) :
  0 <= ch < 2 ^ 16 -> 0 <= sr < 2 ^ 32 ->
  d <> [] -> Py.len d mod 3 = 0 -> Py.len extra < 3 ->
  Py.len (d ++ extra) < 2 ^ 32 ->
  Wav.decode_wav_bytes None
    (WavSpec.header44 riff_size 1 ch sr br ba 24 (Py.len (d ++ extra))
       ++ d ++ extra)
  = Wav.decode_wav_bytes None
      (WavSpec.header44 riff_size 1 ch sr br ba 24 (Py.len d) ++ d).
Proof.
  intros Hch Hsr Hne Hd He Hlt.
  pose proof (len_nonneg d) as Hd0. pose proof (len_nonneg extra) as He0.
  pose proof (len_nonneg (d ++ extra)) as Hde0.
  assert (Hld : Py.len d < 2 ^ 32) by (rewrite len_app in Hlt; lia).
  cbn [Wav.decode_wav_bytes].
  rewrite !canonical_decode by (assumption || lia). cbv zeta.
  assert (F1 : firstn (Z.to_nat (Py.len (d ++ extra))) (d ++ extra)
               = d ++ extra)
    by (unfold Py.len; now rewrite Nat2Z.id, firstn_all).
  assert (F2 : firstn (Z.to_nat (Py.len d)) d = d)
    by (unfold Py.len; now rewrite Nat2Z.id, firstn_all).
  rewrite F1, F2.
  assert (N1 : (length (d ++ extra) =? 0)%nat = false).
  { apply Nat.eqb_neq. rewrite length_app. destruct d; [congruence|].
    simpl length. lia. }
  assert (N2 : (length d =? 0)%nat = false).
  { apply Nat.eqb_neq. destruct d; [congruence | simpl length; lia]. }
  rewrite N1, N2, !decode_samples_spec.
  cbn [WavSpec.samples_by_format].
  now rewrite pcm24_samples_app.
Qed.

Lemma pcm24_drops_partial_sample_witness :
  @Wav.decode_wav_bytes Samples.sequential_mean None
    (WavSpec.header44 44 1 1 48000 144000 3 24 8
       ++ Fixtures.pcm24_pair ++ [x00; x01]%byte)
  = @Wav.decode_wav_bytes Samples.sequential_mean None
      (WavSpec.header44 44 1 1 48000 144000 3 24 6 ++ Fixtures.pcm24_pair).
Proof.
  apply (@pcm24_drops_partial_sample Samples.sequential_mean
           44 1 48000 144000 3 Fixtures.pcm24_pair [x00; x01]%byte);
    [split; [discriminate | reflexivity] | split; [discriminate | reflexivity]
    | discriminate | reflexivity | reflexivity | reflexivity].
Defined.

(** X7: a float32 or 16-bit PCM payload that ends inside a sample is not
    decoded at all: numpy refuses the buffer, and so does
    [decode_wav_bytes], whatever the channel count. *)
Theorem decode_refuses_partial_sample `{Numpy}
        (riff_size af ch sr br ba bits : Z) (payload : bytes) :
  (af, bits) = (3, 32) \/ (af, bits) = (1, 16) ->
  0 <= ch < 2 ^ 16 -> 0 <= sr < 2 ^ 32 ->
  Py.len payload mod (bits / 8) <> 0 -> Py.len payload < 2 ^ 32 ->
  Wav.decode_wav_bytes None
    (WavSpec.header44 riff_size af ch sr br ba bits (Py.len payload)
       ++ payload)
  = Raise BufferSizeError.
Proof.
  intros Hf Hch Hsr Hm Hlt.
  pose proof (len_nonneg payload) as Hp0.
  assert (Hr : 0 <= af < 2 ^ 16 /\ 0 <= bits < 2 ^ 16).
  { destruct Hf as [Hf | Hf]; injection Hf as -> ->;
      repeat split; try discriminate; reflexivity. }
  destruct Hr as (Haf & Hbits).
  cbn [Wav.decode_wav_bytes].
  rewrite canonical_decode by (assumption || lia). cbv zeta.
  assert (Hfa : firstn (Z.to_nat (Py.len payload)) payload = payload)
    by (unfold Py.len; now rewrite Nat2Z.id, firstn_all).
  rewrite Hfa.
  assert (Hne : (length payload =? 0)%nat = false).
  { apply Nat.eqb_neq. intros E. apply Hm. unfold Py.len. rewrite E.
    apply Zmod_0_l. }
  rewrite Hne, decode_samples_spec.
  destruct Hf as [Hf | Hf]; injection Hf as -> ->;
    cbn [WavSpec.samples_by_format].
  - change (32 / 8) with 4 in Hm. apply Z.eqb_neq in Hm. now rewrite Hm.
  - change (16 / 8) with 2 in Hm. apply Z.eqb_neq in Hm. now rewrite Hm.
Qed.

Lemma decode_refuses_partial_sample_witness :
  @Wav.decode_wav_bytes Samples.sequential_mean None
    (WavSpec.header44 44 3 1 48000 192000 4 32 6 ++ Fixtures.pcm24_pair)
  = Raise BufferSizeError.
Proof.
  apply (@decode_refuses_partial_sample Samples.sequential_mean
           44 3 1 48000 192000 4 32 Fixtures.pcm24_pair);
    [left; reflexivity | split; [discriminate | reflexivity]
    | split; [discriminate | reflexivity] | discriminate | reflexivity].
Defined.

(** ** The rhythm starts on a pulse *)

Lemma bjorklund_loop_head (fuel : nat) :
  forall (p r p' r' : list (list Z)),
    (exists g q, p = (1 :: g) :: q) ->
    Koenig.bjorklund_loop fuel p r = Some (p', r') ->
    exists g q, p' = (1 :: g) :: q.
Proof.
  induction fuel as [|fuel IH]; intros p r p' r' Hp Hl.
  - cbn [Koenig.bjorklund_loop] in Hl.
    destruct (1 <? Py.len r); [discriminate|]. injection Hl as <- _.
    exact Hp.
  - destruct (le_lt_dec (length r) 1) as [Hr | Hr].
    + rewrite bjorklund_loop_done in Hl by exact Hr. injection Hl as <- _.
      exact Hp.
    + rewrite bjorklund_loop_step in Hl by exact Hr. cbv zeta in Hl.
      apply IH in Hl; [exact Hl|].
      destruct Hp as (g & q & ->). destruct r as [|y r]; [simpl in Hr; lia|].
      cbn [Koenig.zip_app app]. eauto.
Qed.

(** X8: with at least one pulse, the rhythm [euclidean_rhythm] returns
    starts with a pulse, so the seed always opens with an impulse. *)
Theorem rhythm_starts_on_pulse (k n : Z) (fuel : nat) :
  1 <= k -> 1 <= n -> (Z.to_nat n <= fuel)%nat ->
  exists l, Koenig.euclidean_rhythm fuel k n = Some (1 :: l).
Proof.
  intros Hk Hn Hf.
  destruct (euclidean_rhythm_spec k n fuel ltac:(lia) Hn Hf)
    as (l & E & _). revert E.
  unfold Koenig.euclidean_rhythm.
  destruct (n <=? k) eqn:E1.
  { intros _. unfold Py.replicate.
    destruct (Z.to_nat n) as [|m] eqn:Em; [lia|]. cbn [repeat]. eauto. }
  assert (E2 : (k =? 0) = false) by (apply Z.eqb_neq; lia).
  rewrite E2.
  destruct (Koenig.bjorklund_loop _ _ _) as [[p' r']|] eqn:El; [|discriminate].
  intros _. apply bjorklund_loop_head in El.
  - destruct El as (g & q & ->). cbn [app concat]. eauto.
  - unfold Py.replicate. destruct (Z.to_nat k) as [|m] eqn:Em; [lia|].
    cbn [repeat]. eauto.
Qed.

Lemma rhythm_starts_on_pulse_witness :
  exists l, Koenig.euclidean_rhythm 13 5 13 = Some (1 :: l).
Proof. apply (rhythm_starts_on_pulse 5 13 13); lia. Defined.

(** ** Where the seed generator writes *)

Section SeedGrid.

Context `{Koenig.Rng}.

Variables total sps nts : Z.
Variable amp : F64.t.

Hypothesis sps_nonneg : 0 <= sps.



End SeedGrid.




(** ** Detecting the model type *)

Lemma prefix_app (k s : string) :
  String.prefix k s = true <-> exists after, s = (k ++ after)%string.
Proof.
  revert s. induction k as [|c k IH]; intros s.
  - split; [intros _; exists s; reflexivity|].
    intros _. destruct s; reflexivity.
  - destruct s as [|d s]; cbn [String.prefix].
    + split; [discriminate | intros (a & Ha); discriminate].
    + destruct (Ascii.ascii_dec c d) as [<- | Hne].
      * rewrite IH. split; intros (a & Ha); exists a.
        -- cbn. now rewrite Ha.
        -- cbn in Ha. now injection Ha.
      * split; [discriminate|]. intros (a & Ha). cbn in Ha.
        injection Ha as Hc _. congruence.
Qed.

Lemma contains_occurs (s k : string) :
  Loader.contains s k = true <-> Loader.occurs k s.
Proof.
  unfold Loader.occurs. induction s as [|c s IH]; cbn [Loader.contains].
  - rewrite orb_false_r, prefix_app. split.
    + intros (a & Ha). exists EmptyString, a. exact Ha.
    + intros (b & a & Ha). destruct b as [|x b]; [|discriminate].
      exists a. exact Ha.
  - rewrite orb_true_iff, prefix_app, IH. split.
    + intros [(a & Ha) | (b & a & Ha)].
      * exists EmptyString, a. exact Ha.
      * exists (String c b), a. cbn. now rewrite Ha.
    + intros (b & a & Ha). destruct b as [|x b].
      * left. exists a. exact Ha.
      * right. cbn in Ha. injection Ha as _ Ha. exists b, a. exact Ha.
Qed.

Lemma lower_app (a b : string) :
  Loader.lower (a ++ b) = (Loader.lower a ++ Loader.lower b)%string.
Proof. induction a as [|c a IH]; cbn; [reflexivity | now rewrite IH]. Qed.

(** X10: [_detect_model_type] looks for the keywords in the lower-cased
    path, "turbo" first, then "sft": a path in which "turbo" occurs in any
    mix of cases is a turbo model even if "sft" or "base" occur too; without
    "turbo", one with "sft" is an sft model; every other path is a base
    model. *)
Theorem detect_model_type_priority (path : string) :
  (Loader.occurs "turbo" (Loader.lower path) ->
   Loader.detect_model_type path = "turbo"%string)
  /\ (~ Loader.occurs "turbo" (Loader.lower path) ->
      Loader.occurs "sft" (Loader.lower path) ->
      Loader.detect_model_type path = "sft"%string)
  /\ (~ Loader.occurs "turbo" (Loader.lower path) ->
      ~ Loader.occurs "sft" (Loader.lower path) ->
      Loader.detect_model_type path = "base"%string)
  /\ (forall before keyword after,
        path = (before ++ keyword ++ after)%string ->
        Loader.lower keyword = "turbo"%string ->
        Loader.detect_model_type path = "turbo"%string).
Proof.
  assert (H1 : Loader.occurs "turbo" (Loader.lower path) ->
               Loader.detect_model_type path = "turbo"%string).
  { intros Ht. apply contains_occurs in Ht.
    unfold Loader.detect_model_type.
    cbn [Loader.scan_keywords Loader.MODEL_TYPE_KEYWORDS]. now rewrite Ht. }
  split; [exact H1|]. split; [|split].
  - intros Ht Hs. rewrite <- contains_occurs in Ht, Hs.
    apply not_true_is_false in Ht.
    unfold Loader.detect_model_type.
    cbn [Loader.scan_keywords Loader.MODEL_TYPE_KEYWORDS]. now rewrite Ht, Hs.
  - intros Ht Hs. rewrite <- contains_occurs in Ht, Hs.
    apply not_true_is_false in Ht, Hs.
    unfold Loader.detect_model_type.
    cbn [Loader.scan_keywords Loader.MODEL_TYPE_KEYWORDS]. rewrite Ht, Hs.
    now destruct (Loader.contains _ "base").
  - intros b k a -> Hk. apply H1.
    rewrite !lower_app, Hk. now exists (Loader.lower b), (Loader.lower a).
Qed.

(** ** Loading *)

Lemma try_acestep_cases (env : Loader.load_env)
      (self : Wrapper.ACEStepWrapper) (path target : string) :
  let r := Loader.try_acestep env self path target in
  Wrapper.model_path (fst r) = Wrapper.model_path self
  /\ Wrapper.requested_device (fst r) = Wrapper.requested_device self
  /\ Wrapper.inference_count (fst r) = Wrapper.inference_count self
  /\ Wrapper.model_type (fst r) = Wrapper.model_type self
  /\ ((snd r = Ok tt
       /\ Wrapper.is_loaded (fst r) = true
       /\ Wrapper.model (fst r) <> None
       /\ Wrapper.load_error (fst r) = None
       /\ Wrapper.device (fst r) = target)
      \/ ((exists e, snd r = Raise e)
          /\ Wrapper.is_loaded (fst r) = Wrapper.is_loaded self
          /\ Wrapper.load_error (fst r) = Wrapper.load_error self
          /\ Wrapper.device (fst r) = Wrapper.device self)).
Proof.
  cbv zeta. unfold Loader.try_acestep.
  destruct (Loader.import_acestep env) as [ctor|e]; cbn [fst snd].
  2: { repeat split; auto. right. repeat split; eauto. }
  destruct (ctor path) as [p|e]; cbn [fst snd].
  2: { repeat split; auto. right. repeat split; eauto. }
  destruct (Loader.load_checkpoint p path) as [[]|e]; cbn [fst snd].
  2: { repeat split; auto. right. repeat split; eauto. }
  destruct (Loader.force_device p target) as [[]|e]; cbn [fst snd].
  2: { repeat split; auto. right. repeat split; eauto. }
  repeat split; auto. left. repeat split; auto. discriminate.
Qed.

Lemma try_diffusers_cases (env : Loader.load_env)
      (self : Wrapper.ACEStepWrapper) (path target : string) :
  let w := Loader.try_diffusers env self path target in
  Wrapper.model_path w = Wrapper.model_path self
  /\ Wrapper.requested_device w = Wrapper.requested_device self
  /\ Wrapper.inference_count w = Wrapper.inference_count self
  /\ Wrapper.model_type w = Wrapper.model_type self
  /\ ((Wrapper.is_loaded w = true
       /\ Wrapper.model w <> None
       /\ Wrapper.load_error w = None
       /\ Wrapper.device w = target)
      \/ (Wrapper.is_loaded w = Wrapper.is_loaded self
          /\ Wrapper.load_error w = Some Loader.msg_no_package
          /\ Wrapper.device w = Wrapper.device self)).
Proof.
  cbv zeta. unfold Loader.try_diffusers.
  destruct (Loader.import_diffusers env) as [fp|e].
  2: { repeat split; auto. }
  destruct (fp path) as [dp|e].
  2: { repeat split; auto. }
  destruct (Loader.dp_to dp target) as [m|e].
  2: { repeat split; auto. }
  repeat split; auto. left. repeat split; auto. discriminate.
Qed.

(** What [load] leaves behind on a wrapper that is not loaded yet. *)
Lemma load_cases (env : Loader.load_env) (self : Wrapper.ACEStepWrapper)
      (path : string) :
  Wrapper.is_loaded self = false ->
  let w := Loader.load env self path in
  Wrapper.model_path w = Wrapper.model_path self
  /\ Wrapper.requested_device w = Wrapper.requested_device self
  /\ Wrapper.inference_count w = Wrapper.inference_count self
  /\ Wrapper.model_type w = Loader.detect_model_type path
  /\ ((Wrapper.is_loaded w = true
       /\ Wrapper.model w <> None
       /\ Wrapper.load_error w = None
       /\ exists t, Loader.import_torch env = Ok t
                    /\ Wrapper.device w
                       = Loader.resolve_device t
                           (Wrapper.requested_device self))
      \/ (Wrapper.is_loaded w = false
          /\ Wrapper.load_error w <> None
          /\ Wrapper.device w = Wrapper.device self)).
Proof.
  intros Hnl. cbv zeta. unfold Loader.load.
  set (self0 := Loader.set_model_type self (Loader.detect_model_type path)).
  destruct (Loader.import_torch env) as [t|e].
  2: { destruct (Loader.is_import_error e);
         (repeat split; auto; right; repeat split; auto; discriminate). }
  destruct (try_acestep_cases env self0 path
              (Loader.resolve_device t (Wrapper.requested_device self0)))
    as (H1 & H2 & H3 & H4 & H5).
  destruct (Loader.try_acestep env self0 path _) as [self1 r].
  cbn [fst snd] in *.
  assert (S1 : Wrapper.model_path self0 = Wrapper.model_path self)
    by reflexivity.
  assert (S2 : Wrapper.requested_device self0 = Wrapper.requested_device self)
    by reflexivity.
  assert (S3 : Wrapper.inference_count self0 = Wrapper.inference_count self)
    by reflexivity.
  assert (S4 : Wrapper.model_type self0 = Loader.detect_model_type path)
    by reflexivity.
  assert (S5 : Wrapper.is_loaded self0 = Wrapper.is_loaded self)
    by reflexivity.
  assert (S6 : Wrapper.device self0 = Wrapper.device self) by reflexivity.
  clearbody self0.
  split; [|split; [|split; [|split]]].
  1-4: destruct H5 as [(-> & _) | ((e & ->) & _)];
    [|destruct (Loader.is_import_error e);
      [destruct (try_diffusers_cases env self1 path
                   (Loader.resolve_device t (Wrapper.requested_device self0)))
         as (D1 & D2 & D3 & D4 & _)|cbn]]; congruence.
  destruct H5 as [(-> & L1 & L2 & L3 & L4) | ((e & ->) & L1 & L2 & L3)].
  - left. repeat split; auto. exists t. split; [reflexivity | congruence].
  - destruct (Loader.is_import_error e).
    + destruct (try_diffusers_cases env self1 path
                  (Loader.resolve_device t (Wrapper.requested_device self0)))
        as (_ & _ & _ & _ & D5).
      destruct D5 as [(E1 & E2 & E3 & E4) | (E1 & E2 & E3)].
      * left. repeat split; auto. exists t. split; [reflexivity | congruence].
      * right. split; [congruence|]. split; [congruence | congruence].
    + right. cbn. split; [congruence|]. split; [discriminate | congruence].
Qed.

(** X11: what [ACEStepWrapper(model_path, device)] looks like after
    [__init__]: it is loaded only if a model object is held, no error is
    recorded and the device is the requested one, "auto" resolved to mps,
    cuda or cpu in that order of preference; when it is not loaded the
    device is still the requested one, and [load_error] is empty exactly
    when no model path was given.  The path, the requested device and a zero
    inference count are kept in every case. *)
Theorem init_outcome (env : Loader.load_env) (path : option string)
        (dev : string) :
  let w := Loader.init env path dev in
  Wrapper.model_path w = path
  /\ Wrapper.requested_device w = dev
  /\ Wrapper.inference_count w = 0
  /\ (Wrapper.is_loaded w = true ->
      Wrapper.model w <> None
      /\ Wrapper.load_error w = None
      /\ exists p t,
           path = Some p /\ p <> EmptyString
           /\ Loader.import_torch env = Ok t
           /\ Wrapper.device w = Loader.resolve_device t dev
           /\ Wrapper.model_type w = Loader.detect_model_type p)
  /\ (Wrapper.is_loaded w = false ->
      Wrapper.device w = dev
      /\ (Wrapper.load_error w = None
          <-> path = None \/ path = Some EmptyString)).
Proof.
  cbv zeta. unfold Loader.init.
  set (fresh := {| Wrapper.model := None; Wrapper.model_path := path;
                   Wrapper.is_loaded := false; Wrapper.device := dev;
                   Wrapper.requested_device := dev;
                   Wrapper.load_error := None;
                   Wrapper.inference_count := 0;
                   Wrapper.model_type := "unknown" |}).
  assert (Hfresh : forall q, path = q -> q = None \/ q = Some EmptyString ->
            Wrapper.model_path fresh = path
            /\ Wrapper.requested_device fresh = dev
            /\ Wrapper.inference_count fresh = 0
            /\ (Wrapper.is_loaded fresh = true ->
                Wrapper.model fresh <> None
                /\ Wrapper.load_error fresh = None
                /\ exists p t,
                     path = Some p /\ p <> EmptyString
                     /\ Loader.import_torch env = Ok t
                     /\ Wrapper.device fresh = Loader.resolve_device t dev
                     /\ Wrapper.model_type fresh = Loader.detect_model_type p)
            /\ (Wrapper.is_loaded fresh = false ->
                Wrapper.device fresh = dev
                /\ (Wrapper.load_error fresh = None
                    <-> path = None \/ path = Some EmptyString))).
  { intros q -> Hq. cbn. repeat split; auto; discriminate. }
  destruct path as [p|] eqn:Ep; [|apply (Hfresh None); auto].
  destruct (String.eqb p EmptyString) eqn:Ee.
  { apply String.eqb_eq in Ee. subst p. apply (Hfresh (Some EmptyString)); auto. }
  apply String.eqb_neq in Ee. clear Hfresh.
  destruct (load_cases env fresh p eq_refl) as (H1 & H2 & H3 & H4 & H5).
  split; [exact H1|]. split; [exact H2|]. split; [exact H3|].
  destruct H5 as [(L1 & L2 & L3 & t & L4 & L5) | (L1 & L2 & L3)].
  - split; [|intros C; congruence].
    intros _. split; [exact L2|]. split; [exact L3|].
    exists p, t. repeat split; auto.
  - split; [intros C; congruence|].
    intros _. split; [exact L3|]. split; [intros C; congruence|].
    intros [C | C]; [discriminate | congruence].
Qed.

(** X12: a server started without a model path, on a machine without
    PyTorch, or with neither the acestep nor the diffusers package
    importable, is a passthrough: the wrapper is not loaded, and [infer]
    returns its input samples without a call to any engine. *)
Theorem unloaded_server_is_passthrough `{Numpy} (lenv : Loader.load_env)
        (env : Wrapper.os_env) (path : option string) (dev : string)
        (a : Wrapper.infer_args) :
  path = None \/ path = Some EmptyString
  \/ (exists e, Loader.import_torch lenv = Raise e)
  \/ (exists m e, Loader.import_acestep lenv = Raise (ImportError m)
                  /\ Loader.import_diffusers lenv = Raise e) ->
  let w := Loader.init lenv path dev in
  Wrapper.is_loaded w = false
  /\ Wrapper.infer env w a =
       Ok {| Wrapper.returned := Wrapper.audio_samples a;
             Wrapper.self_after := w;
             Wrapper.engine_calls := [] |}.
Proof.
  intros Hc. cbv zeta.
  assert (Hl : Wrapper.is_loaded (Loader.init lenv path dev) = false).
  { unfold Loader.init.
    destruct path as [p|]; [|reflexivity].
    destruct (String.eqb p EmptyString) eqn:Ee; [reflexivity|].
    apply String.eqb_neq in Ee.
    destruct Hc as [C | [C | [(e & He) | (m & e & Ha & Hd)]]];
      try congruence.
    - unfold Loader.load. rewrite He.
      now destruct (Loader.is_import_error e).
    - unfold Loader.load.
      destruct (Loader.import_torch lenv) as [t|e0];
        [|now destruct (Loader.is_import_error e0)].
      unfold Loader.try_acestep. rewrite Ha.
      cbn [Loader.is_import_error]. unfold Loader.try_diffusers.
      now rewrite Hd. }
  split; [exact Hl|].
  rewrite infer_not_loaded by (left; exact Hl). reflexivity.
Qed.

Lemma unloaded_server_is_passthrough_witness :
  Wrapper.is_loaded
    (Loader.init Fixtures.no_torch (Some "models/ace-turbo"%string) "cpu")
  = false
  /\ @Wrapper.infer Samples.sequential_mean Samples.stub_env
       (Loader.init Fixtures.no_torch (Some "models/ace-turbo"%string) "cpu")
       (Samples.args_with (F64.of_Z 1)) =
     Ok {| Wrapper.returned := Samples.buffer3;
           Wrapper.self_after :=
             Loader.init Fixtures.no_torch
               (Some "models/ace-turbo"%string) "cpu";
           Wrapper.engine_calls := [] |}.
Proof.
  apply (@unloaded_server_is_passthrough Samples.sequential_mean
           Fixtures.no_torch Samples.stub_env
           (Some "models/ace-turbo"%string) "cpu"
           (Samples.args_with (F64.of_Z 1))).
  right. right. left. exists (ImportError "torch"). reflexivity.
Defined.

(** ** The [/infer] route *)

Section RouteFacts.

Context `{Numpy}.

(** [infer] touches nothing of the wrapper but its counter, by one. *)
Lemma infer_self_after (env : Wrapper.os_env)
      (self : Wrapper.ACEStepWrapper) (a : Wrapper.infer_args)
      (o : Wrapper.outcome) :
  Wrapper.infer env self a = Ok o ->
  Wrapper.self_after o = self
  \/ Wrapper.self_after o
     = Wrapper.set_inference_count self (Wrapper.inference_count self + 1).
Proof.
  unfold Wrapper.infer.
  destruct (Wrapper.is_loaded self);
    [|intros Ho; injection Ho as <-; now left].
  destruct (Wrapper.model self) as [engine|];
    [|intros Ho; injection Ho as <-; now left].
  destruct (F64.leb _ _); [intros Ho; injection Ho as <-; now left|].
  destruct (Wrapper.effective_steps _ _) as [steps|e]; cbn [bind];
    [|discriminate].
  intros Ho. injection Ho as <-. unfold Wrapper.run_engine.
  destruct (Wrapper.import_soundfile env) as [sf|]; [|now left].
  destruct (Wrapper.makedirs env _); [|now left].
  destruct (sf_write_file sf _ _ _); [|now left].
  destruct (engine _) as [[items|]|]; try (now left).
  destruct (Wrapper.find_output_wav items) as [path|]; [|now left].
  destruct (Wrapper.path_exists env path); [|now left].
  destruct (sf_read_file sf path) as [[audio_out sr]|]; [|now left].
  now right.
Qed.

End RouteFacts.

(** The own encoder cannot write a rate whose byte rate does not fit 32
    bits. *)
Lemma encode_manual_wide_rate (samples : list F32.t) (sr : Z) :
  sr < 0 \/ 2 ^ 30 <= sr -> Wav.encode_manual samples sr = Raise StructError.
Proof.
  intros Hsr. unfold Wav.encode_manual.
  cbn [Wav.pack Wav.pack_field Struct.pack_4s bind].
  unfold Struct.pack_I, Struct.pack_H.
  destruct (Struct.pack_uint 4 (36 + _)) as [b1|e1] eqn:E1; cbn [bind].
  2: { revert E1. unfold Struct.pack_uint.
       destruct (_ && _); [discriminate|].
       intros E. injection E as <-. reflexivity. }
  rewrite (pack_uint_ok 4 16), (pack_uint_ok 2 3), (pack_uint_ok 2 1)
    by (split; [discriminate | reflexivity]).
  cbn [bind].
  destruct (Struct.pack_uint 4 sr) as [b2|e2] eqn:E2; cbn [bind].
  2: { revert E2. unfold Struct.pack_uint.
       destruct (_ && _); [discriminate|].
       intros E. injection E as <-. reflexivity. }
  rewrite (pack_uint_raises 4 (sr * 1 * (32 / 8))); [reflexivity|].
  change (32 / 8) with 4. change (2 ^ (8 * Z.of_nat 4)) with (2 ^ 32). lia.
Qed.

(** X13: without a loaded model the route is an echo.  A request whose
    audio is the container [encode_wav_bytes] writes for a non-empty buffer
    [B] at rate [r] is answered with status 200, the same container, the
    rate [r], [len(B)] samples and [model_used] false, and the wrapper is
    left as it was. *)
Theorem infer_route_echoes_without_model `{Numpy} (env : Route.route_env)
        (w : Wrapper.ACEStepWrapper) (data : Route.body) (audio : string)
        (B : list F32.t) (r : Z) (wav : bytes) :
  Wrapper.import_soundfile (Route.os env) = None ->
  Wrapper.is_loaded w = false ->
  Route.b_audio data = Some audio ->
  Route.b64decode env audio = Ok wav ->
  Wav.encode_wav_bytes None B r = Ok wav ->
  B <> [] -> Forall (fun x => F32.valid x = true) B ->
  0 <= r < 2 ^ 30 -> 36 + 4 * Py.len B < 2 ^ 32 ->
  is_ok (Route.infer_arguments data B r) = true ->
  Route.infer_route env w data =
    (Route.Reply {| Route.r_audio := Route.b64encode env wav;
                    Route.r_sample_rate := r;
                    Route.r_num_samples := Py.len B;
                    Route.r_duration_ms := Route.duration_ms env;
                    Route.r_model_used := false;
                    Route.r_model_type := Wrapper.model_type w |}, w).
Proof.
  intros Hsf Hl Ha Hd He Hne Hv Hr Hlen Hargs.
  destruct (roundtrip_manual B r Hne Hv Hr Hlen) as (wav' & He' & Hdec).
  rewrite He in He'. injection He' as <-.
  unfold Route.infer_route, Route.prepare. rewrite Ha, Hd, Hsf. cbn [bind].
  rewrite Hdec. cbn [bind].
  destruct (Route.infer_arguments data B r) as [args|e] eqn:Eargs;
    [|discriminate].
  cbn [bind].
  assert (Hs : Wrapper.audio_samples args = B).
  { revert Eargs. unfold Route.infer_arguments.
    repeat (match goal with
            | |- context [bind ?c _] => destruct c; cbn [bind]
            end; [|discriminate]).
    intros E. injection E as <-. reflexivity. }
  rewrite infer_not_loaded by (left; exact Hl).
  cbn [Wrapper.passthrough Wrapper.returned Wrapper.self_after].
  rewrite Hs, He, Hl. reflexivity.
Qed.

Lemma infer_route_echoes_without_model_witness :
  @Route.infer_route Samples.sequential_mean Fixtures.plain_route_env
    (Samples.wrapper_with None false)
    (Fixtures.audio_only (string_of_list_byte Fixtures.buffer3_wav)) =
    (Route.Reply
       {| Route.r_audio := string_of_list_byte Fixtures.buffer3_wav;
          Route.r_sample_rate := 48000;
          Route.r_num_samples := 3;
          Route.r_duration_ms := F64.dec 5 1;
          Route.r_model_used := false;
          Route.r_model_type := "base" |},
     Samples.wrapper_with None false).
Proof.
  apply (@infer_route_echoes_without_model Samples.sequential_mean
           Fixtures.plain_route_env (Samples.wrapper_with None false)
           (Fixtures.audio_only (string_of_list_byte Fixtures.buffer3_wav))
           (string_of_list_byte Fixtures.buffer3_wav)
           Samples.buffer3 48000 Fixtures.buffer3_wav).
  - reflexivity.
  - reflexivity.
  - reflexivity.
  - cbn [Route.b64decode Fixtures.plain_route_env].
    now rewrite list_byte_of_string_of_list_byte.
  - vm_compute. reflexivity.
  - discriminate.
  - repeat constructor.
  - lia.
  - vm_compute. reflexivity.
  - vm_compute. reflexivity.
Defined.

(** X14: what one request to [/infer] can do to the server.  Without an
    "audio" field the answer is 400 and nothing else happens; otherwise the
    status is 200 or 500, and the wrapper afterwards is the wrapper before,
    except that [inference_count] may have grown by one, which it never does
    on a wrapper that is not loaded.  A 200 response reports the
    wrapper's own [is_loaded] and [model_type]. *)
Theorem infer_route_frame `{Numpy} (env : Route.route_env)
        (w : Wrapper.ACEStepWrapper) (data : Route.body) :
  (Route.b_audio data = None ->
   Route.infer_route env w data = (Route.Error 400 Route.msg_missing_audio, w))
  /\ (Route.b_audio data <> None ->
      forall status msg,
        fst (Route.infer_route env w data) = Route.Error status msg ->
        status = 500)
  /\ (snd (Route.infer_route env w data) = w
      \/ snd (Route.infer_route env w data)
         = Wrapper.set_inference_count w (Wrapper.inference_count w + 1))
  /\ (Wrapper.is_loaded w = false -> snd (Route.infer_route env w data) = w)
  /\ (forall r, fst (Route.infer_route env w data) = Route.Reply r ->
        Route.r_model_used r = Wrapper.is_loaded w
        /\ Route.r_model_type r = Wrapper.model_type w).
Proof.
  unfold Route.infer_route.
  destruct (Route.b_audio data) as [audio|].
  2: { cbn [fst snd]. repeat split; auto; try congruence; discriminate. }
  split; [discriminate|].
  destruct (Route.prepare env data audio) as [[args sr]|e].
  2: { cbn [fst snd]. repeat split; auto; try discriminate.
       intros _ status msg E. now injection E. }
  destruct (Wrapper.infer (Route.os env) w args) as [o|e] eqn:Ei.
  2: { cbn [fst snd]. repeat split; auto; try discriminate.
       intros _ status msg E. now injection E. }
  pose proof (infer_self_after _ _ _ _ Ei) as Hs.
  assert (Hnl : Wrapper.is_loaded w = false -> Wrapper.self_after o = w).
  { intros Hl. rewrite infer_not_loaded in Ei by (left; exact Hl).
    injection Ei as <-. reflexivity. }
  assert (Hsame : Wrapper.is_loaded (Wrapper.self_after o)
                  = Wrapper.is_loaded w
                  /\ Wrapper.model_type (Wrapper.self_after o)
                     = Wrapper.model_type w).
  { destruct Hs as [-> | ->]; split; reflexivity. }
  cbv zeta.
  destruct (Wav.encode_wav_bytes _ _ _) as [out|e]; cbn [fst snd].
  - split; [intros _ status msg E; discriminate|].
    split; [exact Hs|]. split; [exact Hnl|].
    intros r E. injection E as <-. exact Hsame.
  - split; [intros _ status msg E; now injection E|].
    split; [exact Hs|]. split; [exact Hnl|]. intros r E. discriminate.
Qed.

(** X15: the own decoder reads any 32-bit sample rate, but the own encoder
    cannot write one of 2^30 Hz or more (the byte rate no longer fits its
    field).  So a request whose WAV declares such a rate is answered with
    status 500 even though it decodes, with or without a model. *)
Theorem infer_route_rejects_wide_rate `{Numpy} (env : Route.route_env)
        (w : Wrapper.ACEStepWrapper) (data : Route.body) (audio : string)
        (wav : bytes) (samples : list F32.t) (sr : Z) :
  Wrapper.import_soundfile (Route.os env) = None ->
  Route.b_audio data = Some audio ->
  Route.b64decode env audio = Ok wav ->
  Wav.decode_wav_bytes None wav = Ok (samples, sr) ->
  2 ^ 30 <= sr ->
  exists msg, fst (Route.infer_route env w data) = Route.Error 500 msg.
Proof.
  intros Hsf Ha Hd Hdec Hsr.
  unfold Route.infer_route, Route.prepare. rewrite Ha, Hd, Hsf. cbn [bind].
  rewrite Hdec. cbn [bind].
  destruct (Route.infer_arguments data samples sr) as [args|e]; cbn [bind];
    [|cbn [fst]; eauto].
  destruct (Wrapper.infer (Route.os env) w args) as [o|e];
    [|cbn [fst]; eauto].
  cbv zeta. cbn [Wav.encode_wav_bytes].
  rewrite encode_manual_wide_rate by (right; exact Hsr).
  cbn [fst]. eauto.
Qed.

Lemma infer_route_rejects_wide_rate_witness :
  exists msg,
    fst (@Route.infer_route Samples.sequential_mean Fixtures.plain_route_env
           (Samples.wrapper_with None false)
           (Fixtures.audio_only (string_of_list_byte Fixtures.fast_wav)))
    = Route.Error 500 msg.
Proof.
  apply (@infer_route_rejects_wide_rate Samples.sequential_mean
           Fixtures.plain_route_env (Samples.wrapper_with None false)
           (Fixtures.audio_only (string_of_list_byte Fixtures.fast_wav))
           (string_of_list_byte Fixtures.fast_wav) Fixtures.fast_wav
           [F32.one] (2 ^ 30)).
  - reflexivity.
  - reflexivity.
  - cbn [Route.b64decode Fixtures.plain_route_env].
    now rewrite list_byte_of_string_of_list_byte.
  - vm_compute. reflexivity.
  - lia.
Defined.

(** ** What the engine is asked *)

Lemma run_engine_calls `{Numpy} (env : Wrapper.os_env)
      (self : Wrapper.ACEStepWrapper) (engine : Wrapper.pipeline)
      (a : Wrapper.infer_args) (steps : Z) :
  let o := Wrapper.run_engine env self engine a steps in
  Wrapper.engine_calls o = []
  \/ Wrapper.engine_calls o =
       [Wrapper.build_kwargs a steps
          (if Wrapper.seed a <? 0 then Wrapper.time_ms env mod 2 ^ 32
           else Wrapper.seed a)
          (Wrapper.tmp_input env) (Wrapper.tmp_output_dir env)].
Proof.
  cbv zeta. unfold Wrapper.run_engine.
  fold (Wrapper.tmp_input env). fold (Wrapper.tmp_output_dir env).
  destruct (Wrapper.import_soundfile env) as [sf|]; [|now left].
  destruct (Wrapper.makedirs env _); [|now left].
  destruct (sf_write_file sf _ _ _); [|now left].
  destruct (engine _) as [[items|]|]; try (now right).
  destruct (Wrapper.find_output_wav items) as [path|]; [|now right].
  destruct (Wrapper.path_exists env path); [|now right].
  destruct (sf_read_file sf path) as [[audio_out sr]|]; now right.
Qed.

(** X16: [infer] calls the engine at most once, and only on a loaded
    wrapper.  The call never carries a negative seed (a negative [seed] is
    replaced by the clock in milliseconds modulo 2^32, any other is passed
    on as it is) nor fewer than one step, and it always asks for
    audio-to-audio on the temporary input file, with a batch of one. *)
Theorem engine_request_shape `{Numpy} (env : Wrapper.os_env)
        (self : Wrapper.ACEStepWrapper) (a : Wrapper.infer_args)
        (o : Wrapper.outcome) :
  Wrapper.infer env self a = Ok o ->
  (length (Wrapper.engine_calls o) <= 1)%nat
  /\ forall kw, In kw (Wrapper.engine_calls o) ->
       Wrapper.is_loaded self = true
       /\ (exists s, Wrapper.kw_manual_seeds kw = [s]
                     /\ 0 <= s
                     /\ (0 <= Wrapper.seed a -> s = Wrapper.seed a)
                     /\ (Wrapper.seed a < 0 ->
                         s = Wrapper.time_ms env mod 2 ^ 32))
       /\ 1 <= Wrapper.kw_infer_step kw
       /\ Wrapper.kw_audio2audio_enable kw = true
       /\ Wrapper.kw_ref_audio_input kw = Wrapper.tmp_input env
       /\ Wrapper.kw_save_path kw = Wrapper.tmp_output_dir env
       /\ Wrapper.kw_batch_size kw = 1.
Proof.
  intros Ho.
  assert (Hcalls : Wrapper.engine_calls o = []
            \/ (Wrapper.is_loaded self = true
                /\ exists steps, 1 <= steps
                    /\ Wrapper.engine_calls o =
                         [Wrapper.build_kwargs a steps
                            (if Wrapper.seed a <? 0
                             then Wrapper.time_ms env mod 2 ^ 32
                             else Wrapper.seed a)
                            (Wrapper.tmp_input env)
                            (Wrapper.tmp_output_dir env)])).
  { revert Ho. unfold Wrapper.infer.
    destruct (Wrapper.is_loaded self);
      [|intros Ho; injection Ho as <-; now left].
    destruct (Wrapper.model self) as [engine|];
      [|intros Ho; injection Ho as <-; now left].
    destruct (F64.leb _ _); [intros Ho; injection Ho as <-; now left|].
    unfold Wrapper.effective_steps.
    destruct (F64.of_int _) as [n|]; cbn [bind]; [|discriminate].
    destruct (F64.round _) as [r|]; cbn [bind]; [|discriminate].
    intros Ho. injection Ho as <-.
    destruct (run_engine_calls env self engine a (Z.max 1 r)) as [E | E];
      [now left | right].
    split; [reflexivity|]. exists (Z.max 1 r). split; [lia | exact E]. }
  destruct Hcalls as [-> | (Hl & steps & Hsteps & ->)].
  - split; [cbn; lia | intros kw []].
  - split; [cbn; lia|]. intros kw [<- | []].
    split; [exact Hl|].
    cbn [Wrapper.build_kwargs Wrapper.kw_manual_seeds Wrapper.kw_infer_step
           Wrapper.kw_audio2audio_enable Wrapper.kw_ref_audio_input
           Wrapper.kw_save_path Wrapper.kw_batch_size].
    split; [|repeat split; try reflexivity; lia].
    eexists. split; [reflexivity|].
    pose proof (Z.mod_pos_bound (Wrapper.time_ms env) (2 ^ 32)
                  ltac:(reflexivity)).
    destruct (Wrapper.seed a <? 0) eqn:Es;
      [apply Z.ltb_lt in Es | apply Z.ltb_ge in Es]; repeat split; lia.
Qed.

Lemma engine_request_shape_witness :
  (length (Wrapper.engine_calls (@Fixtures.served Samples.sequential_mean))
   <= 1)%nat
  /\ forall kw,
       In kw (Wrapper.engine_calls (@Fixtures.served Samples.sequential_mean))
       ->
       Wrapper.is_loaded (Samples.wrapper_with (Some Samples.good_engine) true)
       = true
       /\ (exists s, Wrapper.kw_manual_seeds kw = [s]
                     /\ 0 <= s
                     /\ (0 <= Wrapper.seed (Samples.args_with (F64.of_Z 1)) ->
                         s = Wrapper.seed (Samples.args_with (F64.of_Z 1)))
                     /\ (Wrapper.seed (Samples.args_with (F64.of_Z 1)) < 0 ->
                         s = Wrapper.time_ms Samples.stub_env mod 2 ^ 32))
       /\ 1 <= Wrapper.kw_infer_step kw
       /\ Wrapper.kw_audio2audio_enable kw = true
       /\ Wrapper.kw_ref_audio_input kw = Wrapper.tmp_input Samples.stub_env
       /\ Wrapper.kw_save_path kw = Wrapper.tmp_output_dir Samples.stub_env
       /\ Wrapper.kw_batch_size kw = 1.
Proof.
  apply (@engine_request_shape Samples.sequential_mean Samples.stub_env
           (Samples.wrapper_with (Some Samples.good_engine) true)
           (Samples.args_with (F64.of_Z 1))
           (@Fixtures.served Samples.sequential_mean)).
  vm_compute. reflexivity.
Defined.

(** ** The early scan of the command line *)

Lemma raw_device_absent (argv : list string) :
  ~ In "--device"%string argv -> Startup.raw_device argv = "cpu"%string.
Proof.
  induction argv as [|a rest IH]; intros Hn; [reflexivity|].
  cbn [Startup.raw_device]. destruct rest as [|v rest']; [reflexivity|].
  destruct (String.eqb a "--device") eqn:E.
  - apply String.eqb_eq in E. exfalso. apply Hn. now left.
  - apply IH. intros Hin. apply Hn. now right.
Qed.

(** X17: the scan of [sys.argv] that decides, at import time, whether the
    MPS backend is patched out only knows the two-token form: without an
    argument equal to "--device" (so also for "--device=mps") the device
    is "cpu"; otherwise it is the argument that follows the first
    "--device".  Whenever that device is neither "mps" nor "auto", the
    patched [torch] never lets [load] resolve "auto" to "mps". *)
Theorem raw_device_first_wins (argv : list string) :
  (~ In "--device"%string argv -> Startup.raw_device argv = "cpu"%string)
  /\ (forall before v after,
        argv = before ++ "--device"%string :: v :: after ->
        ~ In "--device"%string before ->
        Startup.raw_device argv = v)
  /\ (Startup.raw_device argv <> "mps"%string ->
      Startup.raw_device argv <> "auto"%string ->
      forall t,
        Loader.resolve_device (Startup.torch_seen argv t) "auto"
        <> "mps"%string).
Proof.
  split; [apply raw_device_absent|]. split.
  - intros before v after -> Hn.
    induction before as [|a before IH].
    + reflexivity.
    + cbn [app Startup.raw_device].
      destruct (before ++ "--device"%string :: v :: after) as [|x l] eqn:E.
      { destruct before; discriminate. }
      destruct (String.eqb a "--device") eqn:Ea.
      * apply String.eqb_eq in Ea. exfalso. apply Hn. now left.
      * apply IH. intros Hin. apply Hn. now right.
  - intros Hm Ha t. unfold Startup.torch_seen, Startup.disables_mps.
    apply String.eqb_neq in Hm, Ha. rewrite Hm, Ha. cbn.
    destruct (Loader.cuda_is_available t); discriminate.
Qed.

(** ** The frames of the seed file *)

Lemma nth_concat_blocks {A B} (k : nat) (g : A -> list B) (l : list A)
      (i : nat) (d : A) :
  (forall x, length (g x) = k) -> (i < length l)%nat ->
  firstn k (skipn (k * i) (concat (map g l))) = g (nth i l d).
Proof.
  intros Hk Hi.
  pose proof (chunks_of_concat k g l Hk) as E.
  rewrite chunks_of_index in E.
  apply (f_equal (fun m => nth i m [])) in E.
  set (F := fun j : nat => firstn k (skipn (k * j) (concat (map g l)))) in *.
  assert (L : nth i (map F (seq 0 (length l))) [] = F i).
  { rewrite (nth_indep _ [] (F 0%nat))
      by (rewrite length_map, length_seq; exact Hi).
    rewrite (map_nth F). now rewrite seq_nth. }
  assert (R : nth i (map g l) [] = g (nth i l d)).
  { rewrite (nth_indep _ [] (g d)) by (rewrite length_map; exact Hi).
    apply (map_nth g). }
  rewrite L, R in E. exact E.
Qed.

(** X18: the bytes [generate_koenig_seed] hands to [writeframes] hold one
    4-byte stereo frame per sample of the buffer, with the same 16-bit
    value on the left and on the right; an impulse 1.0 is written at full
    scale 32767 (FF 7F on both channels), and silence as zeros. *)
Theorem seed_frames_layout `{SeedFile.Cast} (audio : list F32.t) :
  Py.len (SeedFile.frames audio) = 4 * Py.len audio
  /\ forall i, 0 <= i < Py.len audio ->
       let frame := Py.slice (SeedFile.frames audio) (4 * i) (4 * i + 4) in
       Py.slice frame 0 2 = Py.slice frame 2 4
       /\ (nth (Z.to_nat i) audio F32.zero = F32.one ->
           frame = [xff; x7f; xff; x7f]%byte)
       /\ (nth (Z.to_nat i) audio F32.zero = F32.zero ->
           frame = [x00; x00; x00; x00]%byte).
Proof.
  unfold SeedFile.frames, SeedFile.stereo_bytes.
  set (g := fun v : Z => le_bytes 2 v ++ le_bytes 2 v).
  set (f := fun x : F32.t =>
              SeedFile.astype_int16
                (SeedFile.mul
                   (SeedFile.np_clip x (F32.of_int (-1)) (F32.of_int 1))
                   (F32.of_int 32767))).
  change (SeedFile.audio_int16 audio) with (map f audio).
  assert (Hg : forall v, length (g v) = 4%nat).
  { intros v. unfold g. now rewrite length_app, !length_le_bytes. }
  split.
  - unfold Py.len. induction audio as [|x audio IH]; [reflexivity|].
    cbn [map concat]. rewrite length_app, Hg. cbn [length]. lia.
  - intros i Hi. cbv zeta. unfold Py.len in Hi.
    assert (Hfr : Py.slice (concat (map g (map f audio))) (4 * i) (4 * i + 4)
                  = g (f (nth (Z.to_nat i) audio F32.zero))).
    { rewrite slice_nonneg by lia.
      replace (Z.to_nat (4 * i + 4 - 4 * i)) with 4%nat by lia.
      replace (Z.to_nat (4 * i)) with (4 * Z.to_nat i)%nat by lia.
      rewrite (nth_concat_blocks 4 g (map f audio) (Z.to_nat i)
                 (f F32.zero) Hg)
        by (rewrite length_map; lia).
      now rewrite (map_nth f). }
    rewrite Hfr. split; [|split].
    + unfold g. reflexivity.
    + intros ->. vm_compute. reflexivity.
    + intros ->. vm_compute. reflexivity.
Qed.

(** ** Inputs outside the domain of the seed generator *)

(** X19: with a negative number of pulses, [euclidean_rhythm] never
    returns as soon as [steps - pulses >= 2]: the pattern is empty, every
    pass of the [while] loop leaves the remainder as it is, and so the loop
    condition holds after any number of passes. *)
Theorem rhythm_hangs_on_negative_pulses (k n : Z) :
  k < 0 -> 2 <= n - k ->
  (forall fuel, Koenig.euclidean_rhythm fuel k n = None)
  /\ (forall fuel,
        Koenig.bjorklund_loop (S fuel) (Py.replicate [1] k)
          (Py.replicate [0] (n - k))
        = Koenig.bjorklund_loop fuel [] (Py.replicate [0] (n - k))).
Proof.
  intros Hk Hn.
  assert (Ep : Py.replicate [1] k = []).
  { unfold Py.replicate. now replace (Z.to_nat k) with 0%nat by lia. }
  assert (Hr : (1 < length (Py.replicate [0%Z] (n - k)))%nat).
  { unfold Py.replicate. rewrite repeat_length. lia. }
  split.
  - intros fuel. unfold Koenig.euclidean_rhythm.
    assert (E1 : (n <=? k) = false) by (apply Z.leb_gt; lia).
    assert (E2 : (k =? 0) = false) by (apply Z.eqb_neq; lia).
    rewrite E1, E2, Ep, bjorklund_loop_stuck; [reflexivity | exact Hr].
  - intros fuel. rewrite Ep, bjorklund_loop_step by exact Hr. reflexivity.
Qed.

Lemma rhythm_hangs_on_negative_pulses_witness :
  (forall fuel, Koenig.euclidean_rhythm fuel (-1) 4 = None)
  /\ (forall fuel,
        Koenig.bjorklund_loop (S fuel) (Py.replicate [1] (-1))
          (Py.replicate [0] (4 - -1))
        = Koenig.bjorklund_loop fuel [] (Py.replicate [0] (4 - -1))).
Proof. apply (rhythm_hangs_on_negative_pulses (-1) 4); lia. Defined.

(** X20: [generate_koenig_seed] outside its domain, for a number of pulses
    that is not negative.  A negative sample count (a negative duration)
    is refused by [np.zeros]; with [steps = 0] the rhythm is empty and the
    division [total_samples // steps] raises [ZeroDivisionError]; with
    [steps < 0] the rhythm is empty too, nothing is placed, and the result
    is a silent buffer with [impulse_count = 0]. *)
Theorem seed_degenerate_steps `{Koenig.Rng} (fuel : nat)
        (duration : F64.t) (sample_rate pulses steps : Z)
        (noise_tail_ms noise_amplitude : F64.t) (total : Z) :
  Koenig.int_of_product duration sample_rate = Ok total ->
  0 <= pulses -> (Z.to_nat steps <= fuel)%nat ->
  (total < 0 ->
   Koenig.generate_koenig_seed fuel duration sample_rate pulses steps
     noise_tail_ms noise_amplitude = Some (Raise NegativeDimensions))
  /\ (0 <= total -> steps = 0 ->
      Koenig.generate_koenig_seed fuel duration sample_rate pulses steps
        noise_tail_ms noise_amplitude = Some (Raise ZeroDivisionError))
  /\ (0 <= total -> steps < 0 ->
      forall nts,
        Koenig.int_of_product (F64.div noise_tail_ms (F64.of_Z 1000))
          sample_rate = Ok nts ->
        Koenig.generate_koenig_seed fuel duration sample_rate pulses steps
          noise_tail_ms noise_amplitude =
          Some (Ok {| Koenig.audio := Py.replicate F32.zero total;
                      Koenig.impulse_count := 0; Koenig.draws := 0 |})).
Proof.
  intros Ht Hk Hf. unfold Koenig.generate_koenig_seed. rewrite Ht.
  assert (Hr : exists l, Koenig.euclidean_rhythm fuel pulses steps = Some l
                         /\ (steps <= 0 -> l = [])).
  { destruct (Z_le_gt_dec steps pulses) as [Hle | Hgt].
    - unfold Koenig.euclidean_rhythm.
      assert (E : (steps <=? pulses) = true) by (apply Z.leb_le; lia).
      rewrite E. eexists. split; [reflexivity|].
      intros Hs. unfold Py.replicate.
      now replace (Z.to_nat steps) with 0%nat by lia.
    - destruct (euclidean_rhythm_spec pulses steps fuel Hk ltac:(lia) Hf)
        as (l & E & _).
      exists l. split; [exact E | lia]. }
  destruct Hr as (l & -> & Hl).
  unfold Koenig.np_zeros, Koenig.floordiv.
  split; [|split].
  - intros Hneg. apply Z.ltb_lt in Hneg. now rewrite Hneg.
  - intros Hpos ->. apply Z.ltb_ge in Hpos. now rewrite Hpos.
  - intros Hpos Hs nts Hnts. apply Z.ltb_ge in Hpos. rewrite Hpos.
    assert (E : (steps =? 0) = false) by (apply Z.eqb_neq; lia).
    rewrite E. cbn [bind]. rewrite Hnts. cbn [bind].
    now rewrite (Hl ltac:(lia)).
Qed.

Lemma seed_degenerate_steps_witness :
  @Koenig.generate_koenig_seed Samples.flat_noise 0 (F64.dec 1 3) 48000
    5 0 (F64.of_Z 20) (F64.dec 1 2) = Some (Raise ZeroDivisionError).
Proof.
  destruct (@seed_degenerate_steps Samples.flat_noise 0 (F64.dec 1 3) 48000
              5 0 (F64.of_Z 20) (F64.dec 1 2) 48)
    as (_ & Hzero & _).
  - vm_compute. reflexivity.
  - lia.
  - vm_compute. lia.
  - apply Hzero; lia.
Defined.

(** ** A loaded model without [soundfile] *)

(** X21: without the [soundfile] package even a loaded model never runs:
    the route answers a request whose audio is the container
    [encode_wav_bytes] writes for a non-empty buffer [B] with that same
    container, the engine is not called and [inference_count] stays, and
    yet the response says [model_used] true. *)
Theorem loaded_without_soundfile_echoes `{Numpy} (env : Route.route_env)
        (w : Wrapper.ACEStepWrapper) (data : Route.body) (audio : string)
        (B : list F32.t) (r : Z) (wav : bytes) (args : Wrapper.infer_args) :
  Wrapper.import_soundfile (Route.os env) = None ->
  Wrapper.is_loaded w = true ->
  Route.b_audio data = Some audio ->
  Route.b64decode env audio = Ok wav ->
  Wav.encode_wav_bytes None B r = Ok wav ->
  B <> [] -> Forall (fun x => F32.valid x = true) B ->
  0 <= r < 2 ^ 30 -> 36 + 4 * Py.len B < 2 ^ 32 ->
  Route.infer_arguments data B r = Ok args ->
  is_ok (Wrapper.effective_steps (Wrapper.num_steps args)
           (Wrapper.clamp_denoise (Wrapper.denoise_strength args))) = true ->
  Wrapper.infer (Route.os env) w args = Ok (Wrapper.passthrough w args [])
  /\ Route.infer_route env w data =
       (Route.Reply {| Route.r_audio := Route.b64encode env wav;
                       Route.r_sample_rate := r;
                       Route.r_num_samples := Py.len B;
                       Route.r_duration_ms := Route.duration_ms env;
                       Route.r_model_used := true;
                       Route.r_model_type := Wrapper.model_type w |}, w).
Proof.
  intros Hsf Hl Ha Hd He Hne Hv Hr Hlen Eargs Hsteps.
  destruct (roundtrip_manual B r Hne Hv Hr Hlen) as (wav' & He' & Hdec).
  rewrite He in He'. injection He' as <-.
  assert (Hs : Wrapper.audio_samples args = B).
  { revert Eargs. unfold Route.infer_arguments.
    repeat (match goal with
            | |- context [bind ?c _] => destruct c; cbn [bind]
            end; [|discriminate]).
    intros E. injection E as <-. reflexivity. }
  assert (Hi : Wrapper.infer (Route.os env) w args
               = Ok (Wrapper.passthrough w args [])).
  { unfold Wrapper.infer. rewrite Hl.
    destruct (Wrapper.model w) as [engine|]; [|reflexivity].
    destruct (F64.leb _ _); [reflexivity|].
    destruct (Wrapper.effective_steps _ _) as [steps|]; [|discriminate].
    cbn [bind]. unfold Wrapper.run_engine. now rewrite Hsf. }
  split; [exact Hi|].
  unfold Route.infer_route, Route.prepare. rewrite Ha, Hd, Hsf. cbn [bind].
  rewrite Hdec. cbn [bind]. rewrite Eargs. cbn [bind]. rewrite Hi.
  cbn [Wrapper.passthrough Wrapper.returned Wrapper.self_after].
  rewrite Hs, He, Hl. reflexivity.
Qed.

Lemma loaded_without_soundfile_echoes_witness :
  exists args,
    @Wrapper.infer Samples.sequential_mean Fixtures.bare_os
      (Samples.wrapper_with (Some Samples.good_engine) true) args
    = Ok (Wrapper.passthrough
            (Samples.wrapper_with (Some Samples.good_engine) true) args [])
    /\ @Route.infer_route Samples.sequential_mean Fixtures.plain_route_env
         (Samples.wrapper_with (Some Samples.good_engine) true)
         (Fixtures.audio_only (string_of_list_byte Fixtures.buffer3_wav)) =
       (Route.Reply
          {| Route.r_audio := string_of_list_byte Fixtures.buffer3_wav;
             Route.r_sample_rate := 48000;
             Route.r_num_samples := 3;
             Route.r_duration_ms := F64.dec 5 1;
             Route.r_model_used := true;
             Route.r_model_type := "base" |},
        Samples.wrapper_with (Some Samples.good_engine) true).
Proof.
  destruct (Route.infer_arguments
              (Fixtures.audio_only (string_of_list_byte Fixtures.buffer3_wav))
              Samples.buffer3 48000) as [args|e] eqn:Eargs;
    [|vm_compute in Eargs; discriminate].
  exists args.
  apply (@loaded_without_soundfile_echoes Samples.sequential_mean
           Fixtures.plain_route_env
           (Samples.wrapper_with (Some Samples.good_engine) true)
           (Fixtures.audio_only (string_of_list_byte Fixtures.buffer3_wav))
           (string_of_list_byte Fixtures.buffer3_wav)
           Samples.buffer3 48000 Fixtures.buffer3_wav args).
  - reflexivity.
  - reflexivity.
  - reflexivity.
  - cbn [Route.b64decode Fixtures.plain_route_env].
    now rewrite list_byte_of_string_of_list_byte.
  - vm_compute. reflexivity.
  - discriminate.
  - repeat constructor.
  - lia.
  - vm_compute. reflexivity.
  - exact Eargs.
  - vm_compute in Eargs. injection Eargs as <-. vm_compute. reflexivity.
Defined.
